(** * The Handshake resolver module: chain-record resolution

    A shallow embedding of the [Handshake] resolver module
    (src/index.ts, the per-record dispatch of resolve / processNs /
    processGlue / processTxt, and src/resolver.ts, the later iteration with
    processRecords and isNSHip5) and the properties of it that the
    specification states.

    The module is asynchronous but single-flow: every [await] resumes in
    declaration order, so a call is a state transformer over
    - the state of the host framework and of the transport clients,
    - a store of the [DNSRecord] arrays the module holds references to
      (its accumulator and the [records] arrays of the results the host
      hands back), and
    - the trace of the calls made to the collaborators. *)

From Stdlib Require Import Ascii String.
From stdpp Require Import gmap strings list.

#[local] Set Warnings "-clear-no-such-hyp".

Local Open Scope string_scope.
Local Open Scope list_scope.

(** ** Strings, as the code uses them *)

(** [s.split(".")] and friends: JavaScript's [split] with a one-character
    separator.  The result is never empty: the empty string splits to one
    empty label. *)
Fixpoint split (sep : ascii) (s : string) : list string :=
  match s with
  | EmptyString => [EmptyString]
  | String c rest =>
      if bool_decide (c = sep) then EmptyString :: split sep rest
      else match split sep rest with
           | label :: labels => String c label :: labels
           | [] => [String c EmptyString]
           end
  end.

Definition dot : ascii := "."%char.

(** [s.includes(".")] *)
Fixpoint includes_char (c : ascii) (s : string) : bool :=
  match s with
  | EmptyString => false
  | String c' rest => bool_decide (c' = c) || includes_char c rest
  end.

(** [list.includes(x)] on an array of strings; [x] may be [undefined]
    (an index past the end), which no array of strings includes. *)
Definition includes (l : list string) (x : option string) : bool :=
  match x with
  | Some s => bool_decide (s ∈ l)
  | None => false
  end.

(** The character class [[a-zA-Z0-9\-]]. *)
Definition hostname_char (c : ascii) : bool :=
  let n := nat_of_ascii c in
  (((97 <=? n) && (n <=? 122)) || ((65 <=? n) && (n <=? 90))
   || ((48 <=? n) && (n <=? 57)) || (n =? 45))%nat.

(** [/[a-zA-Z0-9\-]+/.test(s)]: the pattern is not anchored, so it matches
    as soon as one character of [s] is in the class. *)
Fixpoint hostname_label_test (s : string) : bool :=
  match s with
  | EmptyString => false
  | String c rest => hostname_char c || hostname_label_test rest
  end.

(** ** Data model *)

(** Modelled from the spec: the DNS_RECORD_TYPE table of the resolver
    library, which is not part of this repository's sources.  The spec (§3)
    names its members A, CNAME, NS, TEXT and CONTENT; a member is the string
    of its name, and [options.type] is compared with them by [===]. *)
Module DNS_RECORD_TYPE.
Definition A : string := "A".
Definition CNAME : string := "CNAME".
Definition NS : string := "NS".
Definition CONTENT : string := "CONTENT".
Definition TEXT : string := "TEXT".
End DNS_RECORD_TYPE.

(** [DNSRecord]: the result record.  [value] is [None] where the code stores
    [undefined] ([record.txt.slice().pop()] of an empty [txt]). *)
Module DNSRecord.
Record t : Type := mk { type : string; value : option string }.

#[global] Instance eq_dec : EqDecision t.
Proof. solve_decision. Defined.
End DNSRecord.

(** [interface HnsRecord]: one entry of the chain's record set. *)
Module HnsRecord.
Record t : Type := mk {
  type : string;
  address : string;
  txt : list string;
  ns : string
}.
End HnsRecord.

(** The inner [options.options] object, with the keys this module reads or
    writes, typed as §3 of the spec gives them.  [None] is an absent key. *)
Module InnerOptions.
Record t : Type := mk {
  subquery : option bool;
  nameserver : option string;
  ipv6 : option bool;
  hip5 : option (list string);
  domain : option string
}.

(** [{}] *)
Definition empty : t := mk None None None None None.

#[global] Instance eq_dec : EqDecision t.
Proof. solve_decision. Defined.
End InnerOptions.

(** [ResolverOptions]: the requested record type and the optional inner
    options. *)
Module ResolverOptions.
Record t : Type := mk {
  type : string;
  options : option InnerOptions.t
}.

#[global] Instance eq_dec : EqDecision t.
Proof. solve_decision. Defined.
End ResolverOptions.

(** What [this.resolver.resolve] answers: [{records, error?}] (§6). *)
Module HostAnswer.
Record t : Type := mk {
  records : list DNSRecord.t;
  error : option string
}.
End HostAnswer.

(** A reference to an array of [DNSRecord]s in the store. *)
Definition loc := nat.

(** A [DNSResult] as this module holds it: [records] is a reference to an
    array, which the code reads, pops from and pushes to. *)
Module DNSResult.
Record t : Type := mk { records : loc; error : option string }.
End DNSResult.

(** The answer of the chain query of src/index.ts
    ([rpcNetwork.wisdomQuery(...).result]): possibly no response, possibly
    no [records]. *)
Module RpcResponse.
Record t : Type := mk { records : option (list HnsRecord.t) }.
End RpcResponse.

(** The answer of the chain query of src/resolver.ts
    ([client.query("getnameresource", ...)]): [{result?: {records}, error?}]. *)
Module HandshakeResponse.
Record t : Type := mk {
  result : option RpcResponse.t;
  error : option string
}.
End HandshakeResponse.

(** One answer of [client.dnsQuery]: the code reads [.data.address]. *)
Module DnsAnswer.
Record t : Type := mk { data_address : option string }.
End DnsAnswer.

(** Modelled from the spec: the outcome of [resolve] (§3), which the resolver
    library's [resolveSuccess], [resolverEmptyResponse] and [resolverError]
    build; the library is not part of this repository's sources. *)
Inductive Outcome : Type :=
| Success (records : list DNSRecord.t)
| Empty
| Error (cause : string).

Definition resolveSuccess (records : list DNSRecord.t) : Outcome := Success records.
Definition resolverEmptyResponse : Outcome := Empty.
Definition resolverError (e : string) : Outcome := Error e.

(** Modelled from the spec: [ensureUniqueRecords] of the resolver library,
    which is not part of this repository's sources.  §4.2 step 7:
    deduplicate the accumulator by (type, value), preserving first-seen
    order.  A record is kept unless an equal one was seen before it. *)
Fixpoint ensureUniqueRecords_from (seen records : list DNSRecord.t) : list DNSRecord.t :=
  match records with
  | [] => []
  | r :: rest =>
      if bool_decide (r ∈ seen) then ensureUniqueRecords_from seen rest
      else r :: ensureUniqueRecords_from (r :: seen) rest
  end.

Definition ensureUniqueRecords (records : list DNSRecord.t) : list DNSRecord.t :=
  ensureUniqueRecords_from [] records.

(** JavaScript truthiness of an array: every array is truthy, the empty one
    too. *)
Definition array_truthy {A} (xs : list A) : bool := true.

(** JavaScript truthiness of an optional string ([undefined] and the empty
    string are falsy). *)
Definition truthy (s : option string) : bool :=
  match s with
  | Some s => negb (bool_decide (s = ""))
  | None => false
  end.

(** ** The collaborators *)

(** The calls the module makes to its collaborators, in the order made. *)
Inductive Event : Type :=
| EvWisdomQuery (tld : string) (bypassCache : bool)
| EvClientQuery (tld : string)
| EvResolve (domain : string) (options : ResolverOptions.t) (bypassCache : option bool)
| EvDnsQuery (domain : string) (type : string).

#[global] Instance Event_eq_dec : EqDecision Event.
Proof. solve_decision. Defined.

(** The interface of everything the module imports or reaches through
    [this.resolver]: the syntax helpers and the ICANN list, which are pure,
    and the host framework and transport clients, which answer from a state
    [Host] of their own and may change it. *)
Class Collaborators (Host : Type) : Type := {
  getTld : string → string;
  isIp : string → bool;
  isDomain : string → bool;
  normalizeDomain : string → string;
  (** [tldEnum.list] *)
  tldEnum_list : list string;
  (** [this.resolver.resolvers], each asked for [getSupportedTlds()]; a
      pending value is awaited, so only the lists matter. *)
  supportedTlds : Host → list (list string);
  (** [this.resolver.resolve(domain, options, bypassCache?)] *)
  host_resolve : string → ResolverOptions.t → option bool → Host → HostAnswer.t * Host;
  (** [this.resolver.rpcNetwork.wisdomQuery("getnameresource", "hns", [tld], bypassCache).result] *)
  wisdomQuery : string → bool → Host → option RpcResponse.t * Host;
  (** [client.query("getnameresource", [tld, true])] *)
  client_query : string → Host → HandshakeResponse.t * Host;
  (** [client.dnsQuery(domain, type)] *)
  client_dnsQuery : string → string → Host → list DnsAnswer.t * Host
}.

(** ** State and the monad of a call *)

Record State (Host : Type) : Type := mkState {
  host : Host;
  store : list (list DNSRecord.t);
  trace : list Event
}.
Arguments mkState {Host}.
Arguments host {Host}.
Arguments store {Host}.
Arguments trace {Host}.

Definition M (Host A : Type) : Type := State Host → A * State Host.

Definition ret {Host A} (a : A) : M Host A := fun s => (a, s).

Definition bind {Host A B} (m : M Host A) (k : A → M Host B) : M Host B :=
  fun s => let '(a, s') := m s in k a s'.

Declare Scope m_scope.
Delimit Scope m_scope with M.
Notation "'let*' x ':=' m 'in' k" := (bind m (fun x => k))
  (at level 10, x name, m at level 200, k at level 200) : m_scope.

(** [for (const x of xs) { await body(x) }] *)
Fixpoint for_of {Host A} (xs : list A) (body : A → M Host unit) : M Host unit :=
  match xs with
  | [] => ret tt
  | x :: rest => bind (body x) (fun _ => for_of rest body)
  end.

(** A [for ... of] loop whose body updates a local value. *)
Fixpoint for_of_from {Host A B} (xs : list A) (local : B)
    (body : B → A → M Host B) : M Host B :=
  match xs with
  | [] => ret local
  | x :: rest => bind (body local x) (fun local' => for_of_from rest local' body)
  end.

Section Store.
Context {Host : Type}.

(** The contents of the array at [l]. *)
Definition contents (l : loc) (s : State Host) : list DNSRecord.t :=
  default [] (store s !! l).

(** A new array: [[]], or the array of a result handed back by the host. *)
Definition alloc (rs : list DNSRecord.t) : M Host loc :=
  fun s => (length (store s), mkState (host s) (store s ++ [rs]) (trace s)).

Definition read (l : loc) : M Host (list DNSRecord.t) :=
  fun s => (contents l s, s).

(** [arr.push(r1, ..., rn)], also [arr.push.apply(arr, rs)] *)
Definition push (l : loc) (rs : list DNSRecord.t) : M Host unit :=
  fun s => (tt, mkState (host s) (<[l := contents l s ++ rs]> (store s)) (trace s)).

(** [arr.pop()]: removes and returns the last element, [undefined] on an
    empty array. *)
Definition pop (l : loc) : M Host (option DNSRecord.t) :=
  fun s => (last (contents l s),
            mkState (host s) (<[l := removelast (contents l s)]> (store s)) (trace s)).

Definition emit (e : Event) : M Host unit :=
  fun s => (tt, mkState (host s) (store s) (trace s ++ [e])).

(** Run a collaborator on the host's state. *)
Definition on_host {A} (f : Host → A * Host) : M Host A :=
  fun s => let '(a, h) := f (host s) in (a, mkState h (store s) (trace s)).
End Store.

(** The calls to the collaborators, each recorded in the trace. *)
Section Calls.
Context {Host : Type} {C : Collaborators Host}.
Local Open Scope m_scope.

(** [await this.resolver.resolve(domain, options, bypassCache?)]: the
    result's [records] is an array of its own, never the accumulator,
    which does not leave this module. *)
Definition call_resolve (domain : string) (options : ResolverOptions.t)
    (bypassCache : option bool) : M Host DNSResult.t :=
  let* _ := emit (EvResolve domain options bypassCache) in
  let* answer := on_host (host_resolve domain options bypassCache) in
  let* l := alloc (HostAnswer.records answer) in
  ret (DNSResult.mk l (HostAnswer.error answer)).

(** The labels the sibling resolvers claim: the set [buildBlacklist] fills
    by [blacklist.add(item)], sibling after sibling. *)
Definition blacklist_of (h : Host) : gset string :=
  foldl (fun blacklist tlds =>
           foldl (fun blacklist item => {[item]} ∪ blacklist) blacklist tlds)
        ∅ (supportedTlds h).

(** [buildBlacklist]: a read of the host, nothing changes. *)
Definition buildBlacklist : M Host (gset string) :=
  fun s => (blacklist_of (host s), s).
End Calls.

(** ** src/index.ts: per-record dispatch *)

Definition HIP5_EXTENSIONS : list string := ["eth"; "_eth"].

Module Index.
Section Index.
Context {Host : Type} {C : Collaborators Host}.
Local Open Scope m_scope.
Import DNS_RECORD_TYPE.

(** [{...options, options: {subquery: true, nameserver}}] *)
Definition subquery_options (options : ResolverOptions.t)
    (nameserver : option string) : ResolverOptions.t :=
  ResolverOptions.mk (ResolverOptions.type options)
    (Some (InnerOptions.mk (Some true) nameserver None None None)).

(** [options.options?.hip5 ?? []] *)
Definition hip5_of (options : ResolverOptions.t) : list string :=
  default [] (o ← ResolverOptions.options options; InnerOptions.hip5 o).

(** The [isHip5] flag that [processNs] computes from [foundDomain]. *)
Definition isHip5 (foundDomain : string) (options : ResolverOptions.t) : bool :=
  let hip5Parts := split dot foundDomain in
  (2 <=? length hip5Parts)%nat
  && includes (hip5_of options ++ HIP5_EXTENSIONS) (last hip5Parts).

Definition processGlue (domain : string) (record : HnsRecord.t) (records : loc)
    (options : ResolverOptions.t) (bypassCache : bool) : M Host unit :=
  if negb (includes [A; CNAME] (Some (ResolverOptions.type options))) then ret tt
  else if isDomain (HnsRecord.ns record) && isIp (HnsRecord.address record) then
    let* results :=
      call_resolve domain (subquery_options options (Some (HnsRecord.address record)))
        (Some bypassCache) in
    let* rs := read (DNSResult.records results) in
    if negb (length rs =? 0)%nat then push records rs else ret tt
  else ret tt.

(** The [glue] of [processNs]: the first record of the set that is a GLUE4
    or GLUE6 record with the [ns] of the NS record, [undefined] when there
    is none. *)
Definition glue_for (record : HnsRecord.t) (hnsRecords : list HnsRecord.t)
    : option HnsRecord.t :=
  List.find (fun item =>
               includes ["GLUE4"; "GLUE6"] (Some (HnsRecord.type item))
               && bool_decide (HnsRecord.ns item = HnsRecord.ns record))
            hnsRecords.

(** [processNs]; what it returns is not used by its caller. *)
Definition processNs (domain : string) (record : HnsRecord.t) (records : loc)
    (hnsRecords : list HnsRecord.t) (options : ResolverOptions.t)
    (bypassCache : bool) : M Host unit :=
  let type := ResolverOptions.type options in
  if negb (includes [A; CNAME; NS] (Some type)) then ret tt
  else
    let glue := glue_for record hnsRecords in
    (* what follows [if (glue && options.type !== NS) return ...] *)
    let no_glue : M Host unit :=
      if bool_decide (type = NS) then
        push records [DNSRecord.mk type (Some (HnsRecord.ns record))]
      else
        let foundDomain := normalizeDomain (HnsRecord.ns record) in
        if (isDomain foundDomain || hostname_label_test foundDomain)
           && negb (isHip5 foundDomain options)
        then
          let isIcann :=
            if includes_char dot foundDomain
            then includes tldEnum_list (last (split dot foundDomain))
            else false in
          if negb isIcann then
            let* hnsNs := call_resolve foundDomain options None in
            let* found := read (DNSResult.records hnsNs) in
            if negb (length found =? 0)%nat then
              let* popped := pop (DNSResult.records hnsNs) in
              let* icannRecords :=
                call_resolve domain
                  (subquery_options options (r ← popped; DNSRecord.value r)) None in
              let* rs := read (DNSResult.records icannRecords) in
              if negb (length rs =? 0)%nat then push records rs else ret tt
            else ret tt
          else
            let* icannRecords :=
              call_resolve domain (subquery_options options (Some foundDomain)) None in
            let* rs := read (DNSResult.records icannRecords) in
            if negb (length rs =? 0)%nat then push records rs else ret tt
        else
          let* result :=
            call_resolve (HnsRecord.ns record) options (Some bypassCache) in
          let* rs := read (DNSResult.records result) in
          if (length rs =? 0)%nat then
            (* [result.records.push(...)]: the array of [result] *)
            push (DNSResult.records result)
              [DNSRecord.mk NS (Some (HnsRecord.ns record))]
          else push records rs in
    match glue with
    | Some glue_record =>
        if negb (bool_decide (type = NS)) then
          processGlue domain glue_record records options bypassCache
        else no_glue
    | None => no_glue
    end.

Definition processTxt (record : HnsRecord.t) (records : loc)
    (options : ResolverOptions.t) : M Host unit :=
  let content := last (HnsRecord.txt record) in
  if includes [TEXT; CONTENT] (Some (ResolverOptions.type options)) then
    push records [DNSRecord.mk TEXT content]
  else ret tt.

(** [query]: [resp?.records || []] *)
Definition query (tld : string) (bypassCache : bool) : M Host (list HnsRecord.t) :=
  let* _ := emit (EvWisdomQuery tld bypassCache) in
  let* resp := on_host (wisdomQuery tld bypassCache) in
  ret (default [] (r ← resp; RpcResponse.records r)).

(** [options.options = options.options || {}] *)
Definition normalize_options (options : ResolverOptions.t) : ResolverOptions.t :=
  ResolverOptions.mk (ResolverOptions.type options)
    (Some (default InnerOptions.empty (ResolverOptions.options options))).

(** ["subquery" in options.options] *)
Definition has_subquery (options : ResolverOptions.t) : bool :=
  match ResolverOptions.options options with
  | Some o => bool_decide (is_Some (InnerOptions.subquery o))
  | None => false
  end.

(** ["ipv6" in options.options && options.options.ipv6]; [options.options]
    is an object where this is evaluated, [resolve] has normalized it. *)
Definition wants_ipv6 (options : ResolverOptions.t) : bool :=
  match ResolverOptions.options options with
  | Some o => default false (InnerOptions.ipv6 o)
  | None => false
  end.

(** The body of the [switch (record.type)] of [resolve]. *)
Definition dispatch (domain : string) (records : loc)
    (chainRecords : list HnsRecord.t) (options : ResolverOptions.t)
    (bypassCache : bool) (record : HnsRecord.t) : M Host unit :=
  let kind := HnsRecord.type record in
  if bool_decide (kind = "NS") then
    processNs domain record records chainRecords options bypassCache
  else if bool_decide (kind = "GLUE4") then
    processGlue domain record records options bypassCache
  else if bool_decide (kind = "TXT") then
    processTxt record records options
  else if bool_decide (kind = "SYNTH6") then
    if bool_decide (ResolverOptions.type options = A) && wants_ipv6 options then
      push records [DNSRecord.mk (ResolverOptions.type options)
                      (Some (HnsRecord.address record))]
    else ret tt
  else if bool_decide (kind = "SYNTH4") then
    if bool_decide (ResolverOptions.type options = A) then
      push records [DNSRecord.mk (ResolverOptions.type options)
                      (Some (HnsRecord.address record))]
    else ret tt
  else ret tt.

(** The end of [resolve]: deduplicate, then Success or Empty. *)
Definition respond (accumulated : list DNSRecord.t) : Outcome :=
  let records := ensureUniqueRecords accumulated in
  if (0 <? length records)%nat then resolveSuccess records
  else resolverEmptyResponse.

Definition resolve (domain : string) (options : ResolverOptions.t)
    (bypassCache : bool) : M Host Outcome :=
  let options := normalize_options options in
  let tld := getTld domain in
  let* blacklist := buildBlacklist in
  if bool_decide (tld ∈ blacklist) then ret resolverEmptyResponse
  else if isIp domain then ret resolverEmptyResponse
  else if has_subquery options then ret resolverEmptyResponse
  else
    let* chainRecords := query tld bypassCache in
    if negb (array_truthy chainRecords) then ret resolverEmptyResponse
    else
    let* records := alloc [] in
    let* _ :=
      for_of chainRecords
        (dispatch domain records chainRecords options bypassCache) in
    let* accumulated := read records in
    ret (respond accumulated).
End Index.
End Index.

(** ** src/resolver.ts: the later iteration *)

Module Resolver.
Section Resolver.
Context {Host : Type} {C : Collaborators Host}.
Local Open Scope m_scope.
Import DNS_RECORD_TYPE.

(** [options.options = options.options || {}] *)
Definition normalize_options (options : ResolverOptions.t) : ResolverOptions.t :=
  ResolverOptions.mk (ResolverOptions.type options)
    (Some (default InnerOptions.empty (ResolverOptions.options options))).

(** [{...options, options: {domain}}] *)
Definition domain_options (options : ResolverOptions.t) (domain : string)
    : ResolverOptions.t :=
  ResolverOptions.mk (ResolverOptions.type options)
    (Some (InnerOptions.mk None None None None (Some domain))).

(** [findRecordsByType]: [false] when no record has the type. *)
Definition findRecordsByType (records : list HnsRecord.t) (type : string)
    : option (list HnsRecord.t) :=
  let ret := List.filter (fun item => bool_decide (HnsRecord.type item = type)) records in
  if (length ret =? 0)%nat then None else Some ret.

Definition isNSHip5 (record : HnsRecord.t) (options : ResolverOptions.t) : bool :=
  let foundDomain := normalizeDomain (HnsRecord.ns record) in
  let hip5Parts := split dot foundDomain in
  (2 <=? length hip5Parts)%nat
  && includes
       (default [] (o ← ResolverOptions.options options; InnerOptions.hip5 o)
        ++ HIP5_EXTENSIONS)
       (last hip5Parts).

Definition handleContentRecords (contentRecords : list HnsRecord.t)
    (options : ResolverOptions.t) : list DNSRecord.t :=
  if bool_decide (ResolverOptions.type options = CONTENT) then
    List.map (fun record => DNSRecord.mk CONTENT (last (HnsRecord.txt record)))
      contentRecords
  else [].

(** [handleDelegatedLookup]: [nsRecords[0]] is there, [findRecordsByType]
    never returns an empty array. *)
Definition handleDelegatedLookup (nsRecords : list HnsRecord.t)
    (options : ResolverOptions.t) (domain : string) (bypassCache : bool)
    : M Host (list DNSRecord.t) :=
  match nsRecords with
  | first :: _ =>
      let* result :=
        call_resolve (HnsRecord.ns first) (domain_options options domain)
          (Some bypassCache) in
      read (DNSResult.records result)
  | [] => ret []
  end.

Definition shouldBypassResolution (domain : string) : M Host bool :=
  let tld := getTld domain in
  let* blacklist := buildBlacklist in
  ret (bool_decide (tld ∈ blacklist) || isIp domain).

Definition dnsQuery (domain type : string) : M Host (list DnsAnswer.t) :=
  let* _ := emit (EvDnsQuery domain type) in
  on_host (client_dnsQuery domain type).

(** [handleWithNameserver]: the loop over [[A, CNAME]]; [records] is the
    local array it fills and returns. *)
Definition handleWithNameserver (domain : string) (options : ResolverOptions.t)
    : M Host (list DNSRecord.t) :=
  for_of_from [A; CNAME] [] (fun records type =>
    if bool_decide (type = ResolverOptions.type options) then
      let* ret_ := dnsQuery domain type in
      match ret_ with
      | first :: _ =>
          ret (records ++ [DNSRecord.mk type (DnsAnswer.data_address first)])
      | [] => ret records
      end
    else ret records).

Definition query (tld : string) : M Host HandshakeResponse.t :=
  let* _ := emit (EvClientQuery tld) in
  on_host (client_query tld).

Definition processRecords (hnsRecords : list HnsRecord.t)
    (options : ResolverOptions.t) (domain : string) (bypassCache : bool)
    : M Host (list DNSRecord.t) :=
  let nsRecords := findRecordsByType hnsRecords "NS" in
  let contentRecords := findRecordsByType hnsRecords "TXT" in
  (* Scenario: Content Records, then Direct DNS Query *)
  let content_or_direct : M Host (list DNSRecord.t) :=
    match contentRecords with
    | Some content => ret (handleContentRecords content options)
    | None => handleWithNameserver domain options
    end in
  (* Scenario: Delegated Lookup (via NS) *)
  let delegated_or_later : M Host (list DNSRecord.t) :=
    match nsRecords with
    | Some ((first :: _) as ns) =>
        if isNSHip5 first options
        then handleDelegatedLookup ns options domain bypassCache
        else content_or_direct
    | _ => content_or_direct
    end in
  (* Scenario: HIP-5 Compliance *)
  let hip5_or_later : M Host (list DNSRecord.t) :=
    match nsRecords ≫= List.find (fun record => isNSHip5 record options) with
    | Some hip5Record =>
        let* result :=
          call_resolve (HnsRecord.ns hip5Record) (domain_options options domain)
            (Some bypassCache) in
        read (DNSResult.records result)
    | None => delegated_or_later
    end in
  (* Scenario: Content and NS Records Found (HIP-5) *)
  match nsRecords, contentRecords with
  | Some _, Some content =>
      if bool_decide (ResolverOptions.type options = CONTENT)
      then ret (handleContentRecords content options)
      else hip5_or_later
  | _, _ => hip5_or_later
  end.

(** [if (chainRecords.error)]: the cause, when the field is truthy. *)
Definition reported_error (resp : HandshakeResponse.t) : option string :=
  if truthy (HandshakeResponse.error resp) then HandshakeResponse.error resp
  else None.

Definition resolve (domain : string) (options : ResolverOptions.t)
    (bypassCache : bool) : M Host Outcome :=
  let options := normalize_options options in
  let* bypass := shouldBypassResolution domain in
  if bypass then ret resolverEmptyResponse
  else
    let* chainRecords := query (getTld domain) in
    match reported_error chainRecords with
    | Some cause => ret (resolverError cause)
    | None =>
        match HandshakeResponse.result chainRecords ≫= RpcResponse.records with
        | None | Some [] => ret resolverEmptyResponse
        | Some hnsRecords =>
            let* records := processRecords hnsRecords options domain bypassCache in
            let records := ensureUniqueRecords records in
            ret (if (0 <? length records)%nat then resolveSuccess records
                 else resolverEmptyResponse)
        end
    end.
End Resolver.
End Resolver.

(** ** The priority pick of the nameserver record

    [findNameserver] of the iteration that picks one record for the whole
    set (src/unnamed/part_002); its [findRecordsByType] and [isNSHip5] are
    those of src/resolver.ts, word for word. *)
Module Priority.
Section Priority.
Context {Host : Type} {C : Collaborators Host}.

(** [a || b] on values that are [false] or a non-empty array. *)
Definition or_else {A} (a b : option A) : option A :=
  match a with
  | Some x => Some x
  | None => b
  end.

(** [findNameserver]: [false] is [None]. *)
Definition findNameserver (records : list HnsRecord.t) (options : ResolverOptions.t)
    : option HnsRecord.t :=
  let synth4 := Resolver.findRecordsByType records "SYNTH4" in
  let synth6 := Resolver.findRecordsByType records "SYNTH6" in
  let synth := or_else synth4 synth6 in
  let glue4 := Resolver.findRecordsByType records "GLUE4" in
  let glue6 := Resolver.findRecordsByType records "GLUE6" in
  let glue := or_else glue4 glue6 in
  let ns := Resolver.findRecordsByType records "NS" in
  match synth with
  | Some found => head found
  | None =>
      match glue with
      | Some found => head found
      | None =>
          match ns with
          | Some (first :: _) =>
              if negb (Resolver.isNSHip5 first options) then Some first else None
          | _ => None
          end
      end
  end.
End Priority.
End Priority.

(** ** Sample collaborators

    Concrete syntax helpers and a scripted host, for evaluating the module
    on explicit inputs. *)
Module Sample.
(** The top-level label: the last label of the name. *)
Definition tld_of (domain : string) : string :=
  default domain (last (split dot domain)).

Definition is_digit (c : ascii) : bool :=
  let n := nat_of_ascii c in ((48 <=? n) && (n <=? 57))%nat.

Fixpoint all_chars (p : ascii → bool) (s : string) : bool :=
  match s with
  | EmptyString => true
  | String c rest => p c && all_chars p rest
  end.

(** A dotted quad of decimal numbers. *)
Definition is_ipv4 (s : string) : bool :=
  let parts := split dot s in
  (length parts =? 4)%nat
  && forallb (fun part => negb (bool_decide (part = "")) && all_chars is_digit part) parts.

(** At least two non-empty labels of letters, digits and hyphens, and
    not an address. *)
Definition is_dns_name (s : string) : bool :=
  let labels := split dot s in
  (2 <=? length labels)%nat
  && forallb (fun label => negb (bool_decide (label = "")) && all_chars hostname_char label)
       labels
  && negb (is_ipv4 s).

(** A scripted host: it has no state of its own and answers from the
    given tables. *)
Definition collaborators
    (siblings : list (list string))
    (icann : list string)
    (chain : option (list HnsRecord.t))
    (chain_error : option string)
    (answers : string → ResolverOptions.t → list DNSRecord.t)
    : Collaborators unit :=
  {| getTld := tld_of;
     isIp := is_ipv4;
     isDomain := is_dns_name;
     normalizeDomain := fun s => s;
     tldEnum_list := icann;
     supportedTlds := fun _ => siblings;
     host_resolve := fun domain options _ h =>
       (HostAnswer.mk (answers domain options) None, h);
     wisdomQuery := fun _ _ h => (Some (RpcResponse.mk chain), h);
     client_query := fun _ h =>
       (HandshakeResponse.mk (Some (RpcResponse.mk chain)) chain_error, h);
     client_dnsQuery := fun _ _ h => ([], h) |}.

Definition initial : State unit := mkState tt [] [].

(** A state in which the array at reference 0 is an empty accumulator. *)
Definition with_accumulator : State unit := mkState tt [[]] [].
End Sample.

(** Further scripted hosts: a DNS client that answers, and a host whose
    [resolve] answers by the name it is asked. *)
Module Script.
(** The scripted collaborators [c], with a DNS client that returns
    [answers] to every query. *)
Definition with_dns (answers : list DnsAnswer.t) (c : Collaborators unit)
    : Collaborators unit :=
  {| getTld := getTld (Collaborators := c);
     isIp := isIp (Collaborators := c);
     isDomain := isDomain (Collaborators := c);
     normalizeDomain := normalizeDomain (Collaborators := c);
     tldEnum_list := tldEnum_list (Collaborators := c);
     supportedTlds := supportedTlds (Collaborators := c);
     host_resolve := host_resolve (Collaborators := c);
     wisdomQuery := wisdomQuery (Collaborators := c);
     client_query := client_query (Collaborators := c);
     client_dnsQuery := fun _ _ h => (answers, h) |}.

(** A host that finds [found] for the name [known] and [delegated] for
    every other name. *)
Definition by_name (known : string) (found delegated : list DNSRecord.t)
    : string → ResolverOptions.t → list DNSRecord.t :=
  fun domain _ => if bool_decide (domain = known) then found else delegated.
End Script.

(** ** Vocabulary of the specification *)

(** A step from [s] to [s'] that only appends [rs] to the array at
    [records]: no collaborator is called and no other array changes. *)
Definition only_pushes {Host} (records : loc) (rs : list DNSRecord.t)
    (s s' : State Host) : Prop :=
  host s' = host s ∧ trace s' = trace s
  ∧ contents records s' = contents records s ++ rs
  ∧ ∀ l, l ≠ records → contents l s' = contents l s.

(** The records of [l] at the positions of first occurrence: position [i]
    is kept when [l !! i] does not occur among the [i] records before it. *)
Definition first_occurrences (l : list DNSRecord.t) : list DNSRecord.t :=
  omap (fun i => r ← l !! i; if bool_decide (r ∈ take i l) then None else Some r)
       (seq 0 (length l)).

(** Labels joined by dots, the inverse of splitting on dots. *)
Fixpoint join_dots (labels : list string) : string :=
  match labels with
  | [] => ""
  | [label] => label
  | label :: rest => label +:+ String dot (join_dots rest)
  end.

(** The guards of [resolve] of src/index.ts that come before the fetch all
    let the request through. *)
Definition passes_guards {Host} {C : Collaborators Host} (domain : string)
    (options : ResolverOptions.t) (s : State Host) : Prop :=
  (getTld domain ∉ blacklist_of (host s))
  ∧ isIp domain = false
  ∧ Index.has_subquery (Index.normalize_options options) = false.

(** The record set [resolve] of src/index.ts fetches for the domain's
    top-level label. *)
Definition fetched {Host} {C : Collaborators Host} (domain : string)
    (bypassCache : bool) (s : State Host) : list HnsRecord.t :=
  (Index.query (getTld domain) bypassCache s).1.

(** The accumulator [resolve] of src/index.ts holds when its dispatch loop
    is over. *)
Definition accumulator {Host} {C : Collaborators Host} (domain : string)
    (options : ResolverOptions.t) (bypassCache : bool) (s : State Host)
    : list DNSRecord.t :=
  let options := Index.normalize_options options in
  let '(chainRecords, s1) := Index.query (getTld domain) bypassCache s in
  let '(records, s2) := alloc [] s1 in
  contents records
    (for_of chainRecords
       (Index.dispatch domain records chainRecords options bypassCache) s2).2.

(** A step from [s] to [s'] that is one subquery and the push of what it
    returns: one call of the host's [resolve] on [domain] with the inner
    options [{subquery: true, nameserver}], whose records are appended to
    the array at [records]; the arrays there were are otherwise unchanged. *)
Definition subquery_appends {Host} {C : Collaborators Host} (domain : string)
    (nameserver : option string) (options : ResolverOptions.t)
    (bypassCache : option bool) (records : loc) (s s' : State Host) : Prop :=
  let call := Index.subquery_options options nameserver in
  let answered := host_resolve domain call bypassCache (host s) in
  trace s' = trace s ++ [EvResolve domain call bypassCache]
  ∧ host s' = answered.2
  ∧ contents records s' = contents records s ++ HostAnswer.records answered.1
  ∧ ∀ l, l < length (store s) → l ≠ records → contents l s' = contents l s.

(** [labels] are the labels of [target]: joined by dots they give [target],
    there is one at least, and no label has a dot in it. *)
Definition splits_into (target : string) (labels : list string) : Prop :=
  join_dots labels = target
  ∧ labels ≠ []
  ∧ Forall (fun label => includes_char dot label = false) labels.

(** A step from [s] to [s'] under which the array at [records] only grows
    at its end, no array of the store is dropped, and every call added to
    the trace is an [allowed] one. *)
Definition appends_only {Host} (allowed : Event → Prop) (records : loc)
    (s s' : State Host) : Prop :=
  (length (store s) ≤ length (store s'))%nat
  ∧ (∃ rs, contents records s' = contents records s ++ rs)
  ∧ ∃ events, trace s' = trace s ++ events ∧ Forall allowed events.

(** A computation that, run from any state in which [records] is an array
    of the store, makes an [appends_only] step and returns a value that
    satisfies [post]. *)
Definition keeps {Host A} (allowed : Event → Prop) (records : loc)
    (m : M Host A) (post : A → Prop) : Prop :=
  ∀ s, records < length (store s) →
       appends_only allowed records s (m s).2 ∧ post (m s).1.

(** The calls the NS and glue handlers of src/index.ts may make for one
    chain record: a subquery on the original domain, whose inner options are
    exactly [{subquery: true, nameserver}], or a resolve of the record's own
    target with the caller's options, normalized and without [bypassCache]
    or as published and with it. *)
Definition handler_call {Host} {C : Collaborators Host} (domain : string)
    (options : ResolverOptions.t) (bypassCache : bool) (record : HnsRecord.t)
    (e : Event) : Prop :=
  (∃ nameserver force,
     e = EvResolve domain (Index.subquery_options options nameserver) force)
  ∨ e = EvResolve (normalizeDomain (HnsRecord.ns record)) options None
  ∨ e = EvResolve (HnsRecord.ns record) options (Some bypassCache).

(** The calls the dispatch loop of [resolve] of src/index.ts may make: a
    subquery on the original domain, or a resolve of the target of an NS
    record of the chain. *)
Definition delegation_call {Host} {C : Collaborators Host} (domain : string)
    (options : ResolverOptions.t) (bypassCache : bool)
    (chain : list HnsRecord.t) (e : Event) : Prop :=
  (∃ nameserver force,
     e = EvResolve domain (Index.subquery_options options nameserver) force)
  ∨ ∃ record, record ∈ chain ∧ HnsRecord.type record = "NS"
      ∧ (e = EvResolve (normalizeDomain (HnsRecord.ns record)) options None
         ∨ e = EvResolve (HnsRecord.ns record) options (Some bypassCache)).

(** * Properties *)

(** ** The store *)
Section StoreFacts.
Context {Host : Type}.
Implicit Types (s : State Host) (l : loc) (rs : list DNSRecord.t).

Lemma contents_push l rs s :
  l < length (store s) →
  contents l (push l rs s).2 = contents l s ++ rs.
Proof.
  intros Hl. unfold contents, push; simpl.
  by rewrite list_lookup_insert_eq.
Qed.

Lemma contents_push_ne l l' rs s :
  l ≠ l' → contents l' (push l rs s).2 = contents l' s.
Proof.
  intros Hne. unfold contents, push; simpl.
  by rewrite list_lookup_insert_ne.
Qed.

Lemma contents_pop_ne l l' s :
  l ≠ l' → contents l' (pop l s).2 = contents l' s.
Proof.
  intros Hne. unfold contents, pop; simpl.
  by rewrite list_lookup_insert_ne.
Qed.

Lemma contents_alloc_old l rs s :
  l < length (store s) → contents l (alloc rs s).2 = contents l s.
Proof.
  intros Hl. unfold contents, alloc; simpl.
  by rewrite lookup_app_l.
Qed.

Lemma contents_alloc_new rs s :
  contents (alloc rs s).1 (alloc rs s).2 = rs.
Proof.
  unfold contents, alloc; simpl.
  by rewrite list_lookup_middle.
Qed.

Lemma length_store_push l rs s :
  length (store (push l rs s).2) = length (store s).
Proof. unfold push; simpl. by rewrite length_insert. Qed.

(** A push of nothing leaves the state as it is. *)
Lemma push_nil l s : (push l [] s).2 = s.
Proof.
  destruct s as [h st tr]. unfold push, contents; simpl. f_equal.
  rewrite app_nil_r. destruct (st !! l) as [x|] eqn:E; simpl.
  - by apply list_insert_id.
  - apply list_insert_ge. by apply lookup_ge_None.
Qed.
End StoreFacts.

Section CallFacts.
Context {Host : Type} {C : Collaborators Host}.

(** A call of the host's [resolve]: one event, the host's new state, and
    the answer's records in a new array. *)
Lemma call_resolve_run domain options bypassCache (s : State Host) :
  call_resolve domain options bypassCache s =
    let answer := (host_resolve domain options bypassCache (host s)).1 in
    (DNSResult.mk (length (store s)) (HostAnswer.error answer),
     mkState (host_resolve domain options bypassCache (host s)).2
       (store s ++ [HostAnswer.records answer])
       (trace s ++ [EvResolve domain options bypassCache])).
Proof.
  unfold call_resolve, bind, emit, on_host, alloc, ret; simpl.
  by destruct (host_resolve domain options bypassCache (host s)).
Qed.

Lemma buildBlacklist_run (s : State Host) :
  buildBlacklist s = (blacklist_of (host s), s).
Proof. reflexivity. Qed.

Lemma elem_of_blacklist tld (h : Host) :
  tld ∈ blacklist_of h ↔ ∃ tlds, tlds ∈ supportedTlds h ∧ tld ∈ tlds.
Proof.
  unfold blacklist_of.
  assert (Hin : ∀ tlds (acc : gset string),
    tld ∈ foldl (fun b item => {[item]} ∪ b) acc tlds ↔ tld ∈ acc ∨ tld ∈ tlds).
  { induction tlds as [|x tlds IH]; intros acc; simpl.
    - rewrite elem_of_nil. tauto.
    - rewrite IH, elem_of_union, elem_of_singleton, elem_of_cons. tauto. }
  assert (Hout : ∀ siblings (acc : gset string),
    tld ∈ foldl (fun b tlds => foldl (fun b item => {[item]} ∪ b) b tlds) acc siblings
    ↔ tld ∈ acc ∨ ∃ tlds, tlds ∈ siblings ∧ tld ∈ tlds).
  { induction siblings as [|x siblings IH]; intros acc; simpl.
    - setoid_rewrite elem_of_nil. naive_solver.
    - rewrite IH, Hin. setoid_rewrite elem_of_cons. naive_solver. }
  rewrite Hout, elem_of_empty. naive_solver.
Qed.
End CallFacts.

(** ** The handlers of src/index.ts *)
Section Handlers.
Context {Host : Type} {C : Collaborators Host}.
Import DNS_RECORD_TYPE.
Implicit Types (s : State Host) (records : loc) (record : HnsRecord.t)
  (options : ResolverOptions.t).

Lemma only_pushes_push records rs s :
  records < length (store s) → only_pushes records rs s (push records rs s).2.
Proof.
  intros Hl. repeat split; [by apply contents_push|].
  intros l Hne. by apply contents_push_ne.
Qed.

Lemma only_pushes_nothing records s : only_pushes records [] s s.
Proof. repeat split. by rewrite app_nil_r. Qed.

(** C10: the TXT handler.  For a requested type TEXT or CONTENT it pushes one
    record, of type TEXT whichever of the two was requested, whose value is
    the last element of [record.txt]; for any other requested type it
    pushes nothing.  It calls no collaborator. *)
Theorem processTxt_emits_text record records options s :
  records < length (store s) →
  let s' := (Index.processTxt record records options s).2 in
  (ResolverOptions.type options = TEXT ∨ ResolverOptions.type options = CONTENT →
     only_pushes records
       [DNSRecord.mk TEXT (last (HnsRecord.txt record))] s s')
  ∧ (ResolverOptions.type options ≠ TEXT ∧ ResolverOptions.type options ≠ CONTENT →
     s' = s).
Proof.
  intros Hl s'. subst s'. unfold Index.processTxt, includes.
  split.
  - intros Hty. rewrite bool_decide_eq_true_2.
    + by apply only_pushes_push.
    + destruct Hty as [-> | ->]; [left | right; left].
  - intros [Hne1 Hne2]. rewrite bool_decide_eq_false_2; [done|].
    rewrite !elem_of_cons, elem_of_nil. tauto.
Qed.

(** The record kind selects the branch of the [switch]. *)
Lemma dispatch_SYNTH4 domain records chain options bypassCache record :
  HnsRecord.type record = "SYNTH4" →
  Index.dispatch domain records chain options bypassCache record =
    if bool_decide (ResolverOptions.type options = A) then
      push records [DNSRecord.mk (ResolverOptions.type options)
                      (Some (HnsRecord.address record))]
    else ret tt.
Proof. intros Hkind. unfold Index.dispatch. by rewrite Hkind. Qed.

Lemma dispatch_SYNTH6 domain records chain options bypassCache record :
  HnsRecord.type record = "SYNTH6" →
  Index.dispatch domain records chain options bypassCache record =
    if bool_decide (ResolverOptions.type options = A) && Index.wants_ipv6 options then
      push records [DNSRecord.mk (ResolverOptions.type options)
                      (Some (HnsRecord.address record))]
    else ret tt.
Proof. intros Hkind. unfold Index.dispatch. by rewrite Hkind. Qed.

Lemma dispatch_NS domain records chain options bypassCache record :
  HnsRecord.type record = "NS" →
  Index.dispatch domain records chain options bypassCache record =
    Index.processNs domain record records chain options bypassCache.
Proof. intros Hkind. unfold Index.dispatch. by rewrite Hkind. Qed.

Lemma dispatch_TXT domain records chain options bypassCache record :
  HnsRecord.type record = "TXT" →
  Index.dispatch domain records chain options bypassCache record =
    Index.processTxt record records options.
Proof. intros Hkind. unfold Index.dispatch. by rewrite Hkind. Qed.

Lemma dispatch_GLUE4 domain records chain options bypassCache record :
  HnsRecord.type record = "GLUE4" →
  Index.dispatch domain records chain options bypassCache record =
    Index.processGlue domain record records options bypassCache.
Proof. intros Hkind. unfold Index.dispatch. by rewrite Hkind. Qed.

(** The inner options [resolve] passes on hold [ipv6: true] exactly when
    the caller's do. *)
Lemma wants_ipv6_normalized options :
  Index.wants_ipv6 (Index.normalize_options options) =
    bool_decide (ResolverOptions.options options ≫= InnerOptions.ipv6 = Some true).
Proof.
  unfold Index.wants_ipv6, Index.normalize_options; simpl.
  destruct (ResolverOptions.options options) as [inner|]; simpl; [|done].
  by destruct (InnerOptions.ipv6 inner) as [[]|].
Qed.

(** C7: the synthesized-address records, in the dispatch of [resolve] (which
    passes its options on with the inner options normalized to an object).
    A SYNTH4 record pushes the record of type A with its address exactly
    when the requested type is A.  A SYNTH6 record pushes the record of type
    A (not a type of its own) with its address exactly when the requested
    type is A and the inner options hold [ipv6: true]; with the key absent
    or [false], or another requested type, nothing is pushed.  Either way
    no collaborator is called. *)
Theorem dispatch_synth_emits_A domain records chain options bypassCache record s :
  records < length (store s) →
  let passed := Index.normalize_options options in
  let s' := (Index.dispatch domain records chain passed bypassCache record s).2 in
  let emitted := [DNSRecord.mk A (Some (HnsRecord.address record))] in
  let ipv6 := ResolverOptions.options options ≫= InnerOptions.ipv6 in
  (HnsRecord.type record = "SYNTH4" →
     (ResolverOptions.type options = A → only_pushes records emitted s s')
     ∧ (ResolverOptions.type options ≠ A → s' = s))
  ∧ (HnsRecord.type record = "SYNTH6" →
     (ResolverOptions.type options = A ∧ ipv6 = Some true →
        only_pushes records emitted s s')
     ∧ (ResolverOptions.type options ≠ A ∨ ipv6 = Some false ∨ ipv6 = None →
        s' = s)).
Proof.
  intros Hl passed s' emitted ipv6. subst passed s' emitted ipv6.
  split; intros Hkind.
  - rewrite dispatch_SYNTH4 by done. cbn [Index.normalize_options ResolverOptions.type].
    split; intros Hty.
    + rewrite bool_decide_eq_true_2 by done. rewrite Hty.
      by apply only_pushes_push.
    + by rewrite bool_decide_eq_false_2.
  - rewrite dispatch_SYNTH6, wants_ipv6_normalized by done.
    cbn [Index.normalize_options ResolverOptions.type]. split.
    + intros [Hty Hv6]. rewrite !bool_decide_eq_true_2 by done.
      rewrite Hty. by apply only_pushes_push.
    + intros Hno.
      destruct (bool_decide (ResolverOptions.type options = A)) eqn:Hty; [|done].
      apply bool_decide_eq_true in Hty.
      rewrite bool_decide_eq_false_2; [done|].
      destruct Hno as [Hno | [-> | ->]]; done.
Qed.

(** For a requested type NS the NS handler is one push, whatever the record
    set holds. *)
Lemma processNs_NS domain record records chain options bypassCache :
  ResolverOptions.type options = NS →
  Index.processNs domain record records chain options bypassCache =
    push records [DNSRecord.mk NS (Some (HnsRecord.ns record))].
Proof.
  intros Hty. unfold Index.processNs. rewrite Hty. simpl.
  by destruct (Index.glue_for record chain).
Qed.

(** Past its guards, [resolve] is the fetch, the dispatch loop over a new
    accumulator and the response built from it. *)
Lemma resolve_past_guards domain options bypassCache s :
  passes_guards domain options s →
  (Index.resolve domain options bypassCache s).1 =
    Index.respond (accumulator domain options bypassCache s).
Proof.
  intros (Hbl & Hip & Hsub). unfold Index.resolve, accumulator, bind.
  rewrite buildBlacklist_run, bool_decide_eq_false_2, Hip, Hsub by done.
  destruct (Index.query _ _ s) as [chain s1]. cbn [array_truthy negb].
  destruct (alloc [] s1) as [records s2].
  by destruct (for_of chain _ s2) as [[] s3].
Qed.

(** C5: an NS record under a requested type NS.  The NS handler pushes
    exactly the record of type NS whose value is [record.ns] and calls no
    collaborator (so nothing is resolved recursively), whatever else the
    record set holds; and when that NS record is all the chain publishes,
    [resolve] answers Success with that one record, as for the record
    set [{NS, ns: "ns1.com"}]. *)
Theorem processNs_NS_verbatim domain record records chain options bypassCache s :
  ResolverOptions.type options = NS →
  (records < length (store s) →
     only_pushes records [DNSRecord.mk NS (Some (HnsRecord.ns record))] s
       (Index.processNs domain record records chain options bypassCache s).2)
  ∧ (passes_guards domain options s →
     HnsRecord.type record = "NS" →
     fetched domain bypassCache s = [record] →
     (Index.resolve domain options bypassCache s).1 =
       Success [DNSRecord.mk NS (Some (HnsRecord.ns record))]).
Proof.
  intros Hty. split.
  - intros Hl. rewrite processNs_NS by done. by apply only_pushes_push.
  - intros Hguards Hkind Hfetch. rewrite resolve_past_guards by done.
    unfold accumulator, fetched in *.
    destruct (Index.query _ _ s) as [chainRecords s1]. simpl in Hfetch. subst chainRecords.
    pose proof (contents_alloc_new [] s1) as Hnew.
    assert (Hlt : (alloc [] s1).1 < length (store (alloc [] s1).2)).
    { unfold alloc; simpl. rewrite length_app; simpl. lia. }
    destruct (alloc [] s1) as [acc s2]. simpl in *.
    unfold bind. rewrite dispatch_NS, processNs_NS by done.
    destruct (push acc _ s2) as [[] s3] eqn:Hpush. simpl.
    replace s3 with (push acc [DNSRecord.mk NS (Some (HnsRecord.ns record))] s2).2
      by (by rewrite Hpush).
    rewrite contents_push, Hnew by done. reflexivity.
Qed.
End Handlers.

(** ** The orchestrator of src/index.ts *)
Section Orchestrator.
Context {Host : Type} {C : Collaborators Host}.
Implicit Types (s : State Host) (options : ResolverOptions.t).

(** The anti-recursion guard: with the key [subquery] in the inner options
    [resolve] returns the empty response and has touched nothing. *)
Lemma resolve_subquery_guard domain options inner bypassCache s :
  ResolverOptions.options options = Some inner →
  is_Some (InnerOptions.subquery inner) →
  Index.resolve domain options bypassCache s = (Empty, s).
Proof.
  intros Hinner Hkey. unfold Index.resolve, bind.
  rewrite buildBlacklist_run.
  destruct (bool_decide _); [done|].
  destruct (isIp domain); [done|].
  unfold Index.has_subquery, Index.normalize_options; simpl.
  rewrite Hinner; simpl. by rewrite bool_decide_eq_true_2.
Qed.

(** C1: the subquery guard.  For every domain, every [bypassCache], every
    requested type and every inner options object that carries
    [subquery: true], whatever its other fields and whatever the
    collaborators (the chain's record set among them) would answer,
    [resolve] returns Empty. *)
Theorem resolve_subquery_true_Empty domain options inner bypassCache s :
  ResolverOptions.options options = Some inner →
  InnerOptions.subquery inner = Some true →
  (Index.resolve domain options bypassCache s).1 = Empty.
Proof.
  intros Hinner Hsub.
  by rewrite (resolve_subquery_guard domain options inner) by (by rewrite ?Hsub).
Qed.

(** C9: the guard looks at the key, not at its value.  With the key
    [subquery] present in the inner options, holding [true] or [false],
    [resolve] returns Empty and no call has been made by then: the trace is
    the one it started from, so the chain's record set was not fetched, and
    the host's state is untouched. *)
Theorem resolve_subquery_key_Empty_before_fetch domain options inner value bypassCache s :
  ResolverOptions.options options = Some inner →
  InnerOptions.subquery inner = Some value →
  let result := Index.resolve domain options bypassCache s in
  result.1 = Empty
  ∧ trace result.2 = trace s
  ∧ host result.2 = host s
  ∧ ∀ tld force, EvWisdomQuery tld force ∈ trace result.2 →
                 EvWisdomQuery tld force ∈ trace s.
Proof.
  intros Hinner Hsub result. subst result.
  by rewrite (resolve_subquery_guard domain options inner) by (by rewrite ?Hsub).
Qed.
End Orchestrator.

(** ** Deduplication and the response *)
Section Dedup.
Implicit Types (r : DNSRecord.t) (l seen : list DNSRecord.t).

Lemma elem_of_ensureUniqueRecords_from r seen l :
  r ∈ ensureUniqueRecords_from seen l ↔ r ∈ l ∧ r ∉ seen.
Proof.
  revert seen. induction l as [|x l IH]; intros seen; simpl.
  - rewrite elem_of_nil. tauto.
  - case_bool_decide as Hx.
    + rewrite IH, elem_of_cons. split.
      * intros [? ?]. tauto.
      * intros [[-> | ?] ?]; tauto.
    + rewrite !elem_of_cons, IH, elem_of_cons.
      destruct (decide (r = x)) as [-> | Hne]; tauto.
Qed.

Lemma NoDup_ensureUniqueRecords_from seen l :
  NoDup (ensureUniqueRecords_from seen l).
Proof.
  revert seen. induction l as [|x l IH]; intros seen; simpl.
  - constructor.
  - case_bool_decide as Hx; [apply IH|].
    constructor; [|apply IH].
    rewrite elem_of_ensureUniqueRecords_from, elem_of_cons. tauto.
Qed.

Lemma omap_pointwise {A B} (f g : A → option B) (xs : list A) :
  (∀ a, f a = g a) → omap f xs = omap g xs.
Proof.
  intros Hfg. induction xs as [|a xs IH]; [done|].
  csimpl. by rewrite Hfg, IH.
Qed.

Lemma omap_fmap {A A' B} (f : A' → option B) (h : A → A') (xs : list A) :
  omap f (h <$> xs) = omap (fun a => f (h a)) xs.
Proof.
  induction xs as [|a xs IH]; [done|]. csimpl. by rewrite IH.
Qed.

(** The records kept are those at the positions of first occurrence, a
    record of [seen] counting as seen before the list starts. *)
Lemma ensureUniqueRecords_from_positions seen l :
  ensureUniqueRecords_from seen l =
    omap (fun i => r ← l !! i;
                   if bool_decide (r ∈ seen ∨ r ∈ take i l) then None else Some r)
         (seq 0 (length l)).
Proof.
  revert seen. induction l as [|x l IH]; intros seen; [done|].
  simpl length. rewrite <- cons_seq, <- fmap_S_seq. csimpl.
  rewrite omap_fmap. simpl.
  case_bool_decide as Hx.
  - rewrite bool_decide_eq_true_2 by (left; done).
    rewrite IH. apply omap_pointwise. intros i.
    destruct (l !! i) as [r|]; [simpl|done].
    erewrite bool_decide_ext; [done|].
    rewrite elem_of_cons. split; [tauto|]. intros [? | [-> | ?]]; tauto.
  - rewrite bool_decide_eq_false_2.
    2: { rewrite elem_of_nil. tauto. }
    f_equal. rewrite IH. apply omap_pointwise. intros i.
    destruct (l !! i) as [r|]; [simpl|done].
    erewrite bool_decide_ext; [done|].
    rewrite !elem_of_cons. tauto.
Qed.

Lemma ensureUniqueRecords_first_occurrences l :
  ensureUniqueRecords l = first_occurrences l.
Proof.
  unfold ensureUniqueRecords, first_occurrences.
  rewrite ensureUniqueRecords_from_positions. apply omap_pointwise. intros i.
  destruct (l !! i) as [r|]; [simpl|done].
  erewrite bool_decide_ext; [done|]. rewrite elem_of_nil. tauto.
Qed.

(** C4: deduplication and the response.  Whatever the dispatch loop has
    accumulated, the records [resolve] answers with are the accumulated ones
    without repetition: every accumulated (type, value) pair is there once,
    and the records stand in the order of their first occurrences (the
    payload is the accumulator read at its positions of first occurrence).
    The answer is Success with these records when there is one at least and
    Empty when there is none; and past its guards [resolve] returns this
    answer for the accumulator its loop has filled. *)
Theorem resolve_responds_deduplicated (accumulated : list DNSRecord.t) :
  let payload := ensureUniqueRecords accumulated in
  NoDup payload
  ∧ (∀ r, r ∈ payload ↔ r ∈ accumulated)
  ∧ payload = first_occurrences accumulated
  ∧ (payload ≠ [] → Index.respond accumulated = Success payload)
  ∧ (payload = [] → Index.respond accumulated = Empty)
  ∧ (payload = [] ↔ accumulated = [])
  ∧ ∀ Host (C : Collaborators Host) domain options bypassCache (s : State Host),
      passes_guards domain options s →
      accumulator domain options bypassCache s = accumulated →
      (Index.resolve domain options bypassCache s).1 = Index.respond accumulated.
Proof.
  intros payload. subst payload. repeat split.
  - apply NoDup_ensureUniqueRecords_from.
  - intros Hin. by apply elem_of_ensureUniqueRecords_from in Hin as [? _].
  - intros Hin. apply elem_of_ensureUniqueRecords_from. split; [done|].
    apply not_elem_of_nil.
  - apply ensureUniqueRecords_first_occurrences.
  - intros Hne. unfold Index.respond.
    destruct (ensureUniqueRecords accumulated); done.
  - intros Hnil. unfold Index.respond. by rewrite Hnil.
  - destruct accumulated as [|r l]; [done|]. intros Hnil.
    assert (Hin : r ∈ ensureUniqueRecords (r :: l)).
    { apply elem_of_ensureUniqueRecords_from. rewrite elem_of_nil.
      split; [left | tauto]. }
    rewrite Hnil in Hin. by apply elem_of_nil in Hin.
  - by intros ->.
  - intros Host C domain options bypassCache s Hguards <-.
    by apply resolve_past_guards.
Qed.
End Dedup.

(** ** Delegation: the NS and glue handlers of src/index.ts *)
Section Delegation.
Context {Host : Type} {C : Collaborators Host}.
Import DNS_RECORD_TYPE.
Implicit Types (s : State Host) (records : loc) (record glue : HnsRecord.t)
  (options : ResolverOptions.t).

Lemma glue_applicable options :
  ResolverOptions.type options = A ∨ ResolverOptions.type options = CNAME →
  includes [A; CNAME] (Some (ResolverOptions.type options)) = true
  ∧ includes [A; CNAME; NS] (Some (ResolverOptions.type options)) = true
  ∧ bool_decide (ResolverOptions.type options = NS) = false.
Proof. intros [-> | ->]; done. Qed.

(** The array of a host result is read where the call put it. *)
Lemma contents_answer (h : Host) (st : list (list DNSRecord.t)) rs tr :
  contents (length st) (mkState h (st ++ [rs]) tr) = rs.
Proof. unfold contents; simpl. by rewrite list_lookup_middle. Qed.

Lemma contents_before_answer (h : Host) (st : list (list DNSRecord.t)) rs tr l :
  l < length st →
  contents l (mkState h (st ++ [rs]) tr) = default [] (st !! l).
Proof. intros Hl. unfold contents; simpl. by rewrite lookup_app_l. Qed.

(** A call of the host followed by [if (res.records.length) push]. *)
Lemma call_then_append domain call bypassCache records s :
  records < length (store s) →
  let s' :=
    (bind (call_resolve domain call bypassCache) (fun res =>
       bind (read (DNSResult.records res)) (fun rs =>
         if negb (length rs =? 0)%nat then push records rs else ret tt)) s).2 in
  let answered := host_resolve domain call bypassCache (host s) in
  trace s' = trace s ++ [EvResolve domain call bypassCache]
  ∧ host s' = answered.2
  ∧ contents records s' = contents records s ++ HostAnswer.records answered.1
  ∧ ∀ l, l < length (store s) → l ≠ records → contents l s' = contents l s.
Proof.
  intros Hl. unfold bind. rewrite call_resolve_run. cbv zeta.
  unfold read. cbn [DNSResult.records]. rewrite contents_answer.
  destruct (host_resolve domain call bypassCache (host s)) as [answer h'].
  cbn [fst snd]. destruct (HostAnswer.records answer) as [|r rs] eqn:Hrs.
  - cbn. rewrite app_nil_r. repeat split.
    + by rewrite contents_before_answer.
    + intros l Hlt _. by rewrite contents_before_answer.
  - cbn [length Nat.eqb negb]. repeat split.
    + rewrite contents_push.
      * by rewrite contents_before_answer.
      * simpl. rewrite length_app. lia.
    + intros l Hlt Hne. rewrite contents_push_ne by done.
      by rewrite contents_before_answer.
Qed.

(** The glue handler on a usable glue record. *)
Lemma processGlue_valid domain glue records options bypassCache s :
  ResolverOptions.type options = A ∨ ResolverOptions.type options = CNAME →
  isDomain (HnsRecord.ns glue) = true →
  isIp (HnsRecord.address glue) = true →
  records < length (store s) →
  subquery_appends domain (Some (HnsRecord.address glue)) options
    (Some bypassCache) records s
    (Index.processGlue domain glue records options bypassCache s).2.
Proof.
  intros Hty Hdom Hip Hl. unfold Index.processGlue.
  destruct (glue_applicable options Hty) as (-> & _ & _).
  rewrite Hdom, Hip. simpl.
  by apply call_then_append.
Qed.

(** The glue handler on a glue record that is not usable: nothing happens. *)
Lemma processGlue_invalid domain glue records options bypassCache s :
  isDomain (HnsRecord.ns glue) = false ∨ isIp (HnsRecord.address glue) = false →
  Index.processGlue domain glue records options bypassCache s = (tt, s).
Proof.
  intros Hno. unfold Index.processGlue.
  destruct (negb _); [done|].
  by destruct Hno as [-> | ->]; rewrite ?andb_false_r.
Qed.

Lemma glue_for_Some record chain glue :
  Index.glue_for record chain = Some glue →
  glue ∈ chain
  ∧ (HnsRecord.type glue = "GLUE4" ∨ HnsRecord.type glue = "GLUE6")
  ∧ HnsRecord.ns glue = HnsRecord.ns record.
Proof.
  intros Hfind. apply List.find_some in Hfind as [Hin Hp].
  apply andb_prop in Hp as [Hkind Hns].
  apply bool_decide_eq_true in Hns. unfold includes in Hkind.
  apply bool_decide_eq_true in Hkind.
  rewrite !elem_of_cons, elem_of_nil in Hkind.
  split; [by apply list_elem_of_In|]. split; [tauto | done].
Qed.

Lemma glue_for_exists record chain :
  (∃ g, g ∈ chain
        ∧ (HnsRecord.type g = "GLUE4" ∨ HnsRecord.type g = "GLUE6")
        ∧ HnsRecord.ns g = HnsRecord.ns record) →
  ∃ glue, Index.glue_for record chain = Some glue.
Proof.
  intros (g & Hin & Hkind & Hns).
  destruct (Index.glue_for record chain) as [glue|] eqn:Hfind; [by exists glue|].
  apply List.find_none with (x := g) in Hfind; [|by apply list_elem_of_In].
  rewrite Hns, bool_decide_eq_true_2, andb_true_r in Hfind by done.
  by destruct Hkind as [Hk | Hk]; rewrite Hk in Hfind.
Qed.

(** With a paired glue record and a requested type A or CNAME the NS handler
    is the glue handler on that record. *)
Lemma processNs_glue domain record records chain options bypassCache glue :
  ResolverOptions.type options = A ∨ ResolverOptions.type options = CNAME →
  Index.glue_for record chain = Some glue →
  Index.processNs domain record records chain options bypassCache =
    Index.processGlue domain glue records options bypassCache.
Proof.
  intros Hty Hglue. unfold Index.processNs.
  destruct (glue_applicable options Hty) as (_ & -> & ->).
  by rewrite Hglue.
Qed.

(** C2, as the code has it: glue wins for address-type queries.  For a
    requested type A or CNAME and a record set holding a GLUE4 or GLUE6
    record with the [ns] of the NS record, the NS handler is exactly the
    glue handler run on the first such record, so none of the HIP-5, ICANN
    or recursive branches is taken.  When that glue record's [ns] is a valid
    domain and its [address] a valid IP, the glue handler makes one call, the
    subquery on the original domain with [nameserver] set to the glue
    address and [bypassCache] passed on, and appends the records it returns;
    when not, the glue handler does nothing at all. *)
Theorem processNs_glue_delegates domain record records chain options bypassCache s :
  ResolverOptions.type options = A ∨ ResolverOptions.type options = CNAME →
  (∃ g, g ∈ chain
        ∧ (HnsRecord.type g = "GLUE4" ∨ HnsRecord.type g = "GLUE6")
        ∧ HnsRecord.ns g = HnsRecord.ns record) →
  records < length (store s) →
  ∃ glue,
    Index.glue_for record chain = Some glue
    ∧ glue ∈ chain
    ∧ (HnsRecord.type glue = "GLUE4" ∨ HnsRecord.type glue = "GLUE6")
    ∧ HnsRecord.ns glue = HnsRecord.ns record
    ∧ Index.processNs domain record records chain options bypassCache s =
        Index.processGlue domain glue records options bypassCache s
    ∧ let s' := (Index.processNs domain record records chain options bypassCache s).2 in
      (isDomain (HnsRecord.ns glue) = true ∧ isIp (HnsRecord.address glue) = true →
         subquery_appends domain (Some (HnsRecord.address glue)) options
           (Some bypassCache) records s s')
      ∧ (isDomain (HnsRecord.ns glue) = false ∨ isIp (HnsRecord.address glue) = false →
         s' = s).
Proof.
  intros Hty Hex Hl.
  destruct (glue_for_exists record chain Hex) as [glue Hglue].
  destruct (glue_for_Some record chain glue Hglue) as (Hin & Hkind & Hns).
  exists glue. rewrite (processNs_glue _ _ _ _ _ _ glue) by done.
  do 5 (split; [done|]). cbv zeta. split.
  - intros [Hdom Hip]. by apply processGlue_valid.
  - intros Hno. by rewrite processGlue_invalid.
Qed.

(** The last branch of the NS handler, when the direct resolve of
    [record.ns] returns no record: the NS record is pushed to the array of
    that result, and the accumulator is left as it was. *)
Lemma processNs_fallback_misses_accumulator
    domain record records chain options bypassCache s :
  ResolverOptions.type options = A ∨ ResolverOptions.type options = CNAME →
  Index.glue_for record chain = None →
  (isDomain (normalizeDomain (HnsRecord.ns record))
   || hostname_label_test (normalizeDomain (HnsRecord.ns record)))
  && negb (Index.isHip5 (normalizeDomain (HnsRecord.ns record)) options) = false →
  HostAnswer.records
    (host_resolve (HnsRecord.ns record) options (Some bypassCache) (host s)).1 = [] →
  records < length (store s) →
  let s' := (Index.processNs domain record records chain options bypassCache s).2 in
  trace s' = trace s ++ [EvResolve (HnsRecord.ns record) options (Some bypassCache)]
  ∧ contents records s' = contents records s
  ∧ contents (length (store s)) s' = [DNSRecord.mk NS (Some (HnsRecord.ns record))].
Proof.
  intros Hty Hglue Hbranch Hnone Hl. unfold Index.processNs.
  destruct (glue_applicable options Hty) as (_ & -> & ->).
  rewrite Hglue. cbn [negb]. rewrite Hbranch.
  unfold bind. rewrite call_resolve_run. cbv zeta.
  unfold read. cbn [DNSResult.records]. rewrite contents_answer.
  destruct (host_resolve _ options (Some bypassCache) (host s)) as [answer h'].
  cbn [fst snd] in *. rewrite Hnone. cbn [length Nat.eqb].
  repeat split.
  - rewrite contents_push_ne by lia. by rewrite contents_before_answer.
  - rewrite contents_push.
    + by rewrite contents_answer.
    + simpl. rewrite length_app. simpl. lia.
Qed.
End Delegation.

(** ** The fetch: transport errors and empty record sets *)
Section Fetch.
Context {Host : Type} {C : Collaborators Host}.
Implicit Types (s : State Host) (options : ResolverOptions.t).

Lemma reported_error_Some resp cause :
  HandshakeResponse.error resp = Some cause → cause ≠ "" →
  Resolver.reported_error resp = Some cause.
Proof.
  intros Herr Hne. unfold Resolver.reported_error, truthy. rewrite Herr.
  by rewrite bool_decide_eq_false_2.
Qed.

Lemma reported_error_None resp :
  truthy (HandshakeResponse.error resp) = false →
  Resolver.reported_error resp = None.
Proof. intros Hf. unfold Resolver.reported_error. by rewrite Hf. Qed.

(** C6: the fetch of the chain's record set.  In [resolve] of
    src/resolver.ts, once the request is past the blacklist and literal-IP
    guards, the chain is queried once; when the response reports an error (its
    [error] field holds a cause, which the code tests for truthiness), the
    outcome is Error with that cause and the query is the only call made: no
    second query, no other collaborator.  When the response reports no error
    and its record set is missing or empty, the outcome is Empty, again
    after that one query.  In [resolve] of src/index.ts, a response that is
    missing, or has no [records], or an empty one, gives Empty after the one
    query. *)
Theorem resolve_fetch_error_or_empty domain options bypassCache s :
  getTld domain ∉ blacklist_of (host s) →
  isIp domain = false →
  let answered := client_query (getTld domain) (host s) in
  let queried :=
    mkState answered.2 (store s) (trace s ++ [EvClientQuery (getTld domain)]) in
  (∀ cause,
     HandshakeResponse.error answered.1 = Some cause → cause ≠ "" →
     Resolver.resolve domain options bypassCache s = (Error cause, queried))
  ∧ (truthy (HandshakeResponse.error answered.1) = false →
     HandshakeResponse.result answered.1 ≫= RpcResponse.records = None
     ∨ HandshakeResponse.result answered.1 ≫= RpcResponse.records = Some [] →
     Resolver.resolve domain options bypassCache s = (Empty, queried))
  ∧ (Index.has_subquery (Index.normalize_options options) = false →
     (wisdomQuery (getTld domain) bypassCache (host s)).1 ≫= RpcResponse.records = None
     ∨ (wisdomQuery (getTld domain) bypassCache (host s)).1 ≫= RpcResponse.records = Some [] →
     let result := Index.resolve domain options bypassCache s in
     result.1 = Empty
     ∧ trace result.2 = trace s ++ [EvWisdomQuery (getTld domain) bypassCache]).
Proof.
  intros Hbl Hip answered queried.
  assert (Hquery : Resolver.query (getTld domain) s = (answered.1, queried)).
  { unfold Resolver.query, bind, emit, on_host; simpl. subst answered queried.
    by destruct (client_query (getTld domain) (host s)). }
  assert (Hpast : ∀ k : bool → M Host Outcome,
    bind (Resolver.shouldBypassResolution domain) k s = k false s).
  { intros k. unfold bind, Resolver.shouldBypassResolution, bind.
    rewrite buildBlacklist_run. unfold ret.
    by rewrite bool_decide_eq_false_2, Hip. }
  split; [|split].
  - intros cause Herr Hne. unfold Resolver.resolve. rewrite Hpast.
    unfold bind. rewrite Hquery.
    by rewrite (reported_error_Some _ cause).
  - intros Hok Hnone. unfold Resolver.resolve. rewrite Hpast.
    unfold bind. rewrite Hquery, reported_error_None by done.
    by destruct Hnone as [-> | ->].
  - intros Hsub Hnone result. subst result.
    unfold Index.resolve, bind. rewrite buildBlacklist_run.
    rewrite bool_decide_eq_false_2, Hip, Hsub by done.
    unfold Index.query, bind, emit, on_host; simpl.
    destruct (wisdomQuery (getTld domain) bypassCache (host s)) as [resp h'].
    destruct resp as [[[recs|]]|]; simpl in *.
    all: destruct Hnone as [Hn | Hn]; simplify_eq.
    all: unfold for_of, ret; cbn beta iota; by rewrite contents_answer.
Qed.
End Fetch.

(** ** Splitting on dots and the HIP-5 classification *)
Section Hip5.

Lemma split_not_nil sep s : split sep s ≠ [].
Proof.
  destruct s as [|c rest]; simpl; [done|].
  case_bool_decide; [done|]. by destruct (split sep rest).
Qed.

Lemma join_dots_cons_char c label labels :
  join_dots (String c label :: labels) = String c (join_dots (label :: labels)).
Proof. by destruct labels. Qed.

Lemma join_split s : join_dots (split dot s) = s.
Proof.
  induction s as [|c rest IH]; [done|]. simpl.
  case_bool_decide as Hc.
  - subst c. pose proof (split_not_nil dot rest) as Hne.
    destruct (split dot rest) as [|label labels]; [done|].
    simpl in *. by rewrite IH.
  - pose proof (split_not_nil dot rest) as Hne.
    destruct (split dot rest) as [|label labels]; [done|].
    by rewrite join_dots_cons_char, IH.
Qed.

Lemma split_dot_free s :
  Forall (fun label => includes_char dot label = false) (split dot s).
Proof.
  induction s as [|c rest IH]; simpl.
  - by repeat constructor.
  - case_bool_decide as Hc.
    + by constructor.
    + destruct (split dot rest) as [|label labels].
      * repeat constructor. simpl. by rewrite bool_decide_eq_false_2.
      * inversion IH as [|? ? Hlabel Hlabels]; subst. constructor; [|done].
        simpl. by rewrite bool_decide_eq_false_2.
Qed.

Lemma split_one_label s :
  includes_char dot s = false → split dot s = [s].
Proof.
  induction s as [|c rest IH]; [done|]. simpl.
  intros Hfree. apply orb_false_elim in Hfree as [Hc Hrest].
  rewrite Hc. by rewrite IH.
Qed.

Lemma split_label_dot label rest :
  includes_char dot label = false →
  split dot (label +:+ String dot rest) = label :: split dot rest.
Proof.
  induction label as [|c label IH]; simpl.
  - done.
  - intros Hfree. apply orb_false_elim in Hfree as [Hc Hlabel].
    rewrite Hc. by rewrite IH.
Qed.

Lemma split_join labels :
  labels ≠ [] →
  Forall (fun label => includes_char dot label = false) labels →
  split dot (join_dots labels) = labels.
Proof.
  induction labels as [|label labels IH]; [done|].
  intros _ Hfree. inversion Hfree as [|? ? Hlabel Hlabels]; subst.
  destruct labels as [|label' labels].
  - by apply split_one_label.
  - change (join_dots (label :: label' :: labels))
      with (label +:+ String dot (join_dots (label' :: labels))).
    rewrite split_label_dot by done. by rewrite IH.
Qed.

(** [split] gives the labels, and nothing else does. *)
Lemma splits_into_split target labels :
  splits_into target labels ↔ labels = split dot target.
Proof.
  split.
  - intros (Hjoin & Hne & Hfree). subst target. by rewrite split_join.
  - intros ->. split; [apply join_split|].
    split; [apply split_not_nil | apply split_dot_free].
Qed.

Context {Host : Type} {C : Collaborators Host}.

(** The flag the NS handler of src/index.ts computes is [isNSHip5] of
    src/resolver.ts. *)
Lemma isHip5_isNSHip5 record options :
  Index.isHip5 (normalizeDomain (HnsRecord.ns record)) options =
    Resolver.isNSHip5 record options.
Proof. reflexivity. Qed.

Lemma isNSHip5_true record options :
  Resolver.isNSHip5 record options = true ↔
  ∃ labels last_label,
    splits_into (normalizeDomain (HnsRecord.ns record)) labels
    ∧ (2 ≤ length labels)%nat
    ∧ last labels = Some last_label
    ∧ (last_label ∈ Index.hip5_of options ∨ last_label ∈ HIP5_EXTENSIONS).
Proof.
  unfold Resolver.isNSHip5. fold (Index.hip5_of options).
  rewrite andb_true_iff, Nat.leb_le. unfold includes.
  setoid_rewrite splits_into_split. split.
  - intros [Hlen Hin].
    destruct (last (split dot _)) as [last_label|] eqn:Hlast; [|done].
    apply bool_decide_eq_true in Hin. apply elem_of_app in Hin.
    by exists (split dot (normalizeDomain (HnsRecord.ns record))), last_label.
  - intros (labels & last_label & -> & Hlen & -> & Hin).
    split; [done|]. apply bool_decide_eq_true, elem_of_app. done.
Qed.

(** C8: the HIP-5 classification, the same in [isNSHip5] of src/resolver.ts
    and in the NS handler of src/index.ts.  A target is HIP-5 exactly when
    the normalized target has two labels at least and its last label is in
    the caller's [hip5] list (empty when the key is absent) or is [eth] or
    [_eth].  So a target normalized to [foo.eth] is HIP-5 whatever the
    caller's list; one normalized to [foo.com] is not, unless the caller has
    listed [com]; and the single label [eth] is not, whatever the list. *)
Theorem hip5_classification record options :
  let target := normalizeDomain (HnsRecord.ns record) in
  (Resolver.isNSHip5 record options = true ↔
     ∃ labels last_label,
       splits_into target labels
       ∧ (2 ≤ length labels)%nat
       ∧ last labels = Some last_label
       ∧ (last_label ∈ Index.hip5_of options ∨ last_label ∈ ["eth"; "_eth"]))
  ∧ Index.isHip5 target options = Resolver.isNSHip5 record options
  ∧ (target = "foo.eth" → Resolver.isNSHip5 record options = true)
  ∧ (target = "foo.com" → "com" ∉ Index.hip5_of options →
     Resolver.isNSHip5 record options = false)
  ∧ (target = "eth" → Resolver.isNSHip5 record options = false).
Proof.
  intros target. subst target.
  split; [apply isNSHip5_true|]. split; [apply isHip5_isNSHip5|].
  split; [|split].
  - intros Htarget. apply isNSHip5_true.
    exists ["foo"; "eth"], "eth". rewrite Htarget.
    split; [by apply splits_into_split|].
    split; [simpl; lia|]. split; [done|]. right. by left.
  - intros Htarget Hcom. apply not_true_is_false. intros Hhip5.
    apply isNSHip5_true in Hhip5
      as (labels & last_label & Hsplit & _ & Hlast & Hin).
    rewrite Htarget in Hsplit. apply splits_into_split in Hsplit. subst labels.
    injection Hlast as <-. destruct Hin as [Hin | Hin]; [done|].
    unfold HIP5_EXTENSIONS in Hin. rewrite !elem_of_cons, elem_of_nil in Hin.
    by destruct Hin as [? | [? | ?]].
  - intros Htarget. apply not_true_is_false. intros Hhip5.
    apply isNSHip5_true in Hhip5 as (labels & last_label & Hsplit & Hlen & _).
    rewrite Htarget in Hsplit. apply splits_into_split in Hsplit. subst labels.
    simpl in Hlen. lia.
Qed.
End Hip5.

(** ** Invariants of the handlers and of the dispatch loop *)
Section Invariants.
Context {Host : Type} {C : Collaborators Host}.
Import DNS_RECORD_TYPE.
Implicit Types (s : State Host) (records : loc) (record : HnsRecord.t)
  (options : ResolverOptions.t) (allowed : Event → Prop).

Lemma appends_only_refl allowed records s : appends_only allowed records s s.
Proof.
  split; [done|]. split; [exists []; by rewrite app_nil_r|].
  exists []. by rewrite app_nil_r.
Qed.

Lemma appends_only_trans allowed records s1 s2 s3 :
  appends_only allowed records s1 s2 →
  appends_only allowed records s2 s3 →
  appends_only allowed records s1 s3.
Proof.
  intros (Hlen1 & [rs1 Hrs1] & [ev1 [Htr1 Hall1]])
         (Hlen2 & [rs2 Hrs2] & [ev2 [Htr2 Hall2]]).
  split; [lia|]. split.
  - exists (rs1 ++ rs2). by rewrite Hrs2, Hrs1, app_assoc.
  - exists (ev1 ++ ev2). split; [by rewrite Htr2, Htr1, app_assoc|].
    by apply Forall_app.
Qed.

Lemma appends_only_mono (allowed allowed' : Event → Prop) records s s' :
  (∀ e, allowed e → allowed' e) →
  appends_only allowed records s s' → appends_only allowed' records s s'.
Proof.
  intros Himp (Hlen & Hrs & [events [Htr Hall]]). split; [done|]. split; [done|].
  exists events. split; [done|]. by eapply Forall_impl.
Qed.

Lemma keeps_ret {A} allowed records (a : A) (post : A → Prop) :
  post a → keeps allowed records (ret (Host := Host) a) post.
Proof. intros Hpost s _. split; [apply appends_only_refl | done]. Qed.

Lemma keeps_bind {A B} allowed records (m : M Host A) (k : A → M Host B)
    (mid : A → Prop) (post : B → Prop) :
  keeps allowed records m mid →
  (∀ a, mid a → keeps allowed records (k a) post) →
  keeps allowed records (bind m k) post.
Proof.
  intros Hm Hk s Hl. unfold bind.
  destruct (Hm s Hl) as [Hstep Hmid]. destruct (m s) as [a s1]. simpl in *.
  assert (Hl1 : records < length (store s1)) by (destruct Hstep; lia).
  destruct (Hk a Hmid s1 Hl1) as [Hstep' Hpost].
  split; [by eapply appends_only_trans | done].
Qed.

Lemma keeps_weaken {A} allowed records (m : M Host A) (post post' : A → Prop) :
  (∀ a, post a → post' a) →
  keeps allowed records m post → keeps allowed records m post'.
Proof. intros Himp Hm s Hl. destruct (Hm s Hl). auto. Qed.

Lemma keeps_mono {A} (allowed allowed' : Event → Prop) records (m : M Host A) post :
  (∀ e, allowed e → allowed' e) →
  keeps allowed records m post → keeps allowed' records m post.
Proof.
  intros Himp Hm s Hl. destruct (Hm s Hl) as [Hstep Hpost].
  split; [by eapply appends_only_mono | done].
Qed.

Lemma keeps_read allowed records l :
  keeps allowed records (read (Host := Host) l) (fun _ => True).
Proof. intros s _. split; [apply appends_only_refl | done]. Qed.

Lemma keeps_push allowed records rs :
  keeps allowed records (push (Host := Host) records rs) (fun _ => True).
Proof.
  intros s Hl. split; [|done]. split; [by rewrite length_store_push|].
  split; [exists rs; by apply contents_push|].
  exists []. by rewrite app_nil_r.
Qed.

(** A push to another array than [records]. *)
Lemma keeps_push_other allowed records l rs :
  l ≠ records → keeps allowed records (push (Host := Host) l rs) (fun _ => True).
Proof.
  intros Hne s Hl. split; [|done]. split; [by rewrite length_store_push|].
  split; [exists []; by rewrite app_nil_r, contents_push_ne|].
  exists []. by rewrite app_nil_r.
Qed.

Lemma keeps_pop_other allowed records l :
  l ≠ records → keeps allowed records (pop (Host := Host) l) (fun _ => True).
Proof.
  intros Hne s Hl. split; [|done]. split.
  { unfold pop; simpl. by rewrite length_insert. }
  split; [exists []; by rewrite app_nil_r, contents_pop_ne|].
  exists []. by rewrite app_nil_r.
Qed.

(** A call of the host: the array of its result is a new one, past
    [records]. *)
Lemma keeps_call_resolve allowed records domain options force :
  allowed (EvResolve domain options force) →
  keeps allowed records (call_resolve domain options force)
    (fun res => records < DNSResult.records res).
Proof.
  intros Hallowed s Hl. rewrite call_resolve_run. cbv zeta. cbn [fst snd].
  split; [|done]. split; [simpl; rewrite length_app; lia|]. split.
  - exists []. rewrite app_nil_r, contents_before_answer by done. done.
  - exists [EvResolve domain options force]. split; [done|]. by constructor.
Qed.

(** [if (res.records.length) records.push.apply(records, res.records)] after
    a call. *)
Lemma keeps_call_then_append allowed records domain options force :
  allowed (EvResolve domain options force) →
  keeps allowed records
    (bind (call_resolve domain options force) (fun res =>
       bind (read (DNSResult.records res)) (fun rs =>
         if negb (length rs =? 0)%nat then push records rs else ret tt)))
    (fun _ => True).
Proof.
  intros Hallowed. eapply keeps_bind; [by apply keeps_call_resolve|].
  intros res _. eapply keeps_bind; [apply keeps_read|]. intros rs _.
  destruct (negb _); [apply keeps_push | by apply keeps_ret].
Qed.

Lemma processGlue_keeps domain glue records options bypassCache allowed :
  (∀ nameserver force,
     allowed (EvResolve domain (Index.subquery_options options nameserver) force)) →
  keeps allowed records
    (Index.processGlue domain glue records options bypassCache) (fun _ => True).
Proof.
  intros Hallowed. unfold Index.processGlue.
  destruct (negb _); [by apply keeps_ret|].
  destruct (_ && _); [|by apply keeps_ret].
  by apply keeps_call_then_append.
Qed.

Lemma processTxt_keeps record records options allowed :
  keeps allowed records (Index.processTxt (Host := Host) record records options)
    (fun _ => True).
Proof.
  unfold Index.processTxt. destruct (includes _ _); [apply keeps_push | by apply keeps_ret].
Qed.

Lemma processNs_keeps domain record records chain options bypassCache :
  keeps (handler_call domain options bypassCache record) records
    (Index.processNs domain record records chain options bypassCache)
    (fun _ => True).
Proof.
  assert (Hsub : ∀ nameserver force,
    handler_call domain options bypassCache record
      (EvResolve domain (Index.subquery_options options nameserver) force)).
  { intros nameserver force. left. by exists nameserver, force. }
  unfold Index.processNs. cbv zeta.
  destruct (negb (includes [A; CNAME; NS] _)); [by apply keeps_ret|].
  assert (Hrest : keeps (handler_call domain options bypassCache record) records
    (if bool_decide (ResolverOptions.type options = NS)
     then push records
            [DNSRecord.mk (ResolverOptions.type options) (Some (HnsRecord.ns record))]
     else
       if (isDomain (normalizeDomain (HnsRecord.ns record))
           || hostname_label_test (normalizeDomain (HnsRecord.ns record)))
          && negb (Index.isHip5 (normalizeDomain (HnsRecord.ns record)) options)
       then
         if negb
              (if includes_char dot (normalizeDomain (HnsRecord.ns record))
               then includes tldEnum_list
                      (last (split dot (normalizeDomain (HnsRecord.ns record))))
               else false)
         then
           bind (call_resolve (normalizeDomain (HnsRecord.ns record)) options None)
             (fun hnsNs =>
              bind (read (DNSResult.records hnsNs)) (fun found =>
                if negb (length found =? 0)%nat
                then
                  bind (pop (DNSResult.records hnsNs)) (fun popped =>
                    bind (call_resolve domain
                            (Index.subquery_options options
                               (popped ≫= fun r => DNSRecord.value r)) None)
                      (fun icannRecords =>
                       bind (read (DNSResult.records icannRecords)) (fun rs =>
                         if negb (length rs =? 0)%nat then push records rs
                         else ret tt)))
                else ret tt))
         else
           bind (call_resolve domain
                   (Index.subquery_options options
                      (Some (normalizeDomain (HnsRecord.ns record)))) None)
             (fun icannRecords =>
              bind (read (DNSResult.records icannRecords)) (fun rs =>
                if negb (length rs =? 0)%nat then push records rs else ret tt))
       else
         bind (call_resolve (HnsRecord.ns record) options (Some bypassCache))
           (fun result =>
            bind (read (DNSResult.records result)) (fun rs =>
              if (length rs =? 0)%nat
              then push (DNSResult.records result)
                     [DNSRecord.mk NS (Some (HnsRecord.ns record))]
              else push records rs)))
    (fun _ => True)).
  { destruct (bool_decide (ResolverOptions.type options = NS)); [apply keeps_push|].
    destruct (_ && negb _).
    - destruct (negb _).
      + eapply keeps_bind; [apply keeps_call_resolve; right; by left|].
        intros hnsNs Hfresh. eapply keeps_bind; [apply keeps_read|]. intros found _.
        destruct (negb _); [|by apply keeps_ret].
        eapply keeps_bind; [apply keeps_pop_other; unfold loc in *; lia|].
        intros popped _.
        by apply keeps_call_then_append.
      + by apply keeps_call_then_append.
    - eapply keeps_bind; [apply keeps_call_resolve; right; by right|].
      intros result Hfresh. eapply keeps_bind; [apply keeps_read|]. intros rs _.
      destruct (length rs =? 0)%nat;
        [apply keeps_push_other; unfold loc in *; lia | apply keeps_push]. }
  destruct (Index.glue_for record chain) as [glue|]; [|exact Hrest].
  destruct (negb (bool_decide (ResolverOptions.type options = NS)));
    [by apply processGlue_keeps | exact Hrest].
Qed.

Lemma handler_call_delegation domain options bypassCache chain record e :
  record ∈ chain → HnsRecord.type record = "NS" →
  handler_call domain options bypassCache record e →
  delegation_call domain options bypassCache chain e.
Proof.
  intros Hin Hkind [Hsub | Htarget]; [by left | right]. by exists record.
Qed.

Lemma dispatch_keeps domain records chain options bypassCache record :
  record ∈ chain →
  keeps (delegation_call domain options bypassCache chain) records
    (Index.dispatch domain records chain options bypassCache record)
    (fun _ => True).
Proof.
  intros Hin. unfold Index.dispatch. cbv zeta.
  case_bool_decide as Hns.
  { eapply keeps_mono; [|apply processNs_keeps].
    intros e. by apply handler_call_delegation. }
  case_bool_decide; [apply processGlue_keeps; intros; left; eauto|].
  case_bool_decide; [apply processTxt_keeps|].
  case_bool_decide; [destruct (_ && _); [apply keeps_push | by apply keeps_ret]|].
  case_bool_decide; [destruct (bool_decide _); [apply keeps_push | by apply keeps_ret]|].
  by apply keeps_ret.
Qed.

Lemma for_of_keeps {A} allowed records (xs : list A) (body : A → M Host unit) :
  (∀ x, x ∈ xs → keeps allowed records (body x) (fun _ => True)) →
  keeps allowed records (for_of xs body) (fun _ => True).
Proof.
  induction xs as [|x xs IH]; intros Hbody; simpl.
  - by apply keeps_ret.
  - eapply keeps_bind; [apply Hbody; by left|]. intros _ _.
    apply IH. intros y Hy. apply Hbody. by right.
Qed.

Lemma for_of_app {A} (xs ys : list A) (body : A → M Host unit) s :
  (for_of (xs ++ ys) body s).2 = (for_of ys body (for_of xs body s).2).2.
Proof.
  revert s. induction xs as [|x xs IH]; intros s; [done|].
  simpl. unfold bind. destruct (body x s) as [[] s1]. apply IH.
Qed.

(** The chain query of src/index.ts: one call, no array touched. *)
Lemma query_run tld bypassCache s :
  Index.query tld bypassCache s =
    (default [] ((wisdomQuery tld bypassCache (host s)).1 ≫= RpcResponse.records),
     mkState (wisdomQuery tld bypassCache (host s)).2 (store s)
       (trace s ++ [EvWisdomQuery tld bypassCache])).
Proof.
  unfold Index.query, bind, emit, on_host, ret; simpl.
  by destruct (wisdomQuery tld bypassCache (host s)).
Qed.

(** Past its guards [resolve] ends in the state its dispatch loop ends in. *)
Lemma resolve_past_guards_run domain options bypassCache s :
  passes_guards domain options s →
  let queried := (Index.query (getTld domain) bypassCache s).2 in
  let looped :=
    (for_of (fetched domain bypassCache s)
       (Index.dispatch domain (length (store s)) (fetched domain bypassCache s)
          (Index.normalize_options options) bypassCache)
       (alloc [] queried).2).2 in
  Index.resolve domain options bypassCache s =
    (Index.respond (contents (length (store s)) looped), looped).
Proof.
  intros (Hbl & Hip & Hsub). unfold Index.resolve, fetched, bind.
  rewrite buildBlacklist_run, bool_decide_eq_false_2, Hip, Hsub by done.
  rewrite query_run. cbn [array_truthy negb fst snd alloc store host trace].
  by destruct (for_of _ _ _) as [[] s3].
Qed.

(** The accumulator is the array at the first free reference, read when the
    loop is over. *)
Lemma accumulator_run domain options bypassCache s :
  accumulator domain options bypassCache s =
    contents (length (store s))
      (for_of (fetched domain bypassCache s)
         (Index.dispatch domain (length (store s)) (fetched domain bypassCache s)
            (Index.normalize_options options) bypassCache)
         (alloc [] (Index.query (getTld domain) bypassCache s).2).2).2.
Proof. unfold accumulator, fetched. by rewrite query_run. Qed.

(** X1: the calls of one [resolve] of src/index.ts.  Past the guards the
    first call is the chain query for the top-level label, with
    [bypassCache] passed on, and it is the only chain query; every call after
    it is a call of the host's [resolve] that is either a subquery on the
    original domain, whose inner options are exactly
    [{subquery: true, nameserver}], or a resolve of the target of an NS
    record of the fetched set with the caller's options.  So the module
    never re-enters the host on the original domain without the subquery
    mark, unless an NS record names that domain as its target. *)
Theorem resolve_calls_are_delegations domain options bypassCache s :
  passes_guards domain options s →
  ∃ events,
    trace (Index.resolve domain options bypassCache s).2 =
      trace s ++ EvWisdomQuery (getTld domain) bypassCache :: events
    ∧ Forall (delegation_call domain (Index.normalize_options options) bypassCache
                (fetched domain bypassCache s)) events
    ∧ ∀ tld force, EvWisdomQuery tld force ∉ events.
Proof.
  intros Hguards. rewrite resolve_past_guards_run by done. cbv zeta. cbn [snd].
  set (chain := fetched domain bypassCache s).
  set (queried := (Index.query (getTld domain) bypassCache s).2).
  destruct (for_of_keeps
              (delegation_call domain (Index.normalize_options options) bypassCache chain)
              (length (store s)) chain
              (Index.dispatch domain (length (store s)) chain
                 (Index.normalize_options options) bypassCache)
              (fun record Hin => dispatch_keeps _ _ _ _ _ _ Hin)
              (alloc [] queried).2) as [(_ & _ & [events [Htrace Hall]]) _].
  { subst queried. rewrite query_run. simpl. rewrite length_app. simpl. lia. }
  exists events. split; [|split; [done|]].
  - rewrite Htrace. subst queried. rewrite query_run. simpl.
    by rewrite <- app_assoc.
  - intros tld force Hin. rewrite Forall_forall in Hall.
    destruct (Hall _ Hin) as [(? & ? & [=]) | (? & _ & _ & [[=] | [=]])].
Qed.

(** *** Records the module answers with by itself *)

Lemma push_push records (rs1 rs2 : list DNSRecord.t) s :
  (push records rs2 (push records rs1 s).2).2 = (push records (rs1 ++ rs2) s).2.
Proof.
  destruct s as [h st tr]. unfold push, contents, loc in *; simpl. f_equal.
  destruct (decide (records < length st)) as [Hl | Hl].
  - rewrite list_lookup_insert_eq by done. simpl.
    by rewrite list_insert_insert_eq, app_assoc.
  - assert (Hge : (length st ≤ records)%nat) by lia.
    by rewrite !(list_insert_ge st) by done.
Qed.

(** A loop whose every turn is a push to [records] is one push of all that
    the turns push, in order. *)
Lemma for_of_local {A} records (xs : list A) (body : A → M Host unit)
    (f : A → list DNSRecord.t) :
  (∀ x s, (body x s).2 = (push records (f x) s).2) →
  ∀ s, (for_of xs body s).2 = (push records (flat_map f xs) s).2.
Proof.
  intros Hbody. induction xs as [|x xs IH]; intros s.
  - symmetry. apply push_nil.
  - cbn [for_of flat_map]. unfold bind. pose proof (Hbody x s) as Hx.
    destruct (body x s) as [[] s1]. cbn [snd] in Hx. subst s1.
    by rewrite IH, push_push.
Qed.

Lemma flat_map_filter {A} (P : A → Prop) `{∀ x, Decision (P x)}
    (g : A → DNSRecord.t) (xs : list A) :
  flat_map (fun x => if bool_decide (P x) then [g x] else []) xs = g <$> filter P xs.
Proof.
  induction xs as [|x xs IH]; [done|]. simpl. rewrite filter_cons.
  case_bool_decide; rewrite decide_bool_decide.
  - rewrite bool_decide_eq_true_2 by done. simpl. by rewrite IH.
  - by rewrite bool_decide_eq_false_2.
Qed.

Lemma includes_false (l : list string) x : x ∉ l → includes l (Some x) = false.
Proof. intros Hx. unfold includes. by rewrite bool_decide_eq_false_2. Qed.

(** A turn of the dispatch that needs no collaborator: for a requested type
    other than A and CNAME, every record kind pushes at most its own record. *)
Lemma dispatch_local domain records chain options bypassCache record s :
  ResolverOptions.type options ≠ A → ResolverOptions.type options ≠ CNAME →
  (Index.dispatch domain records chain options bypassCache record s).2 =
    (push records
       (if bool_decide (HnsRecord.type record = "NS") then
          if bool_decide (ResolverOptions.type options = NS)
          then [DNSRecord.mk NS (Some (HnsRecord.ns record))] else []
        else if bool_decide (HnsRecord.type record = "TXT") then
          if bool_decide (ResolverOptions.type options = TEXT
                          ∨ ResolverOptions.type options = CONTENT)
          then [DNSRecord.mk TEXT (last (HnsRecord.txt record))] else []
        else []) s).2.
Proof.
  intros HA HCNAME.
  assert (Hglue : includes [A; CNAME] (Some (ResolverOptions.type options)) = false).
  { apply includes_false. rewrite !elem_of_cons, elem_of_nil. tauto. }
  unfold Index.dispatch. cbv zeta.
  case_bool_decide as Hns.
  { case_bool_decide as Hty.
    - by rewrite processNs_NS.
    - unfold Index.processNs. cbv zeta.
      rewrite includes_false; [by rewrite push_nil|].
      rewrite !elem_of_cons, elem_of_nil. tauto. }
  case_bool_decide as Hg4.
  { rewrite bool_decide_eq_false_2 by (rewrite Hg4; discriminate).
    unfold Index.processGlue. rewrite Hglue. by rewrite push_nil. }
  case_bool_decide as Htxt.
  { unfold Index.processTxt, includes. case_bool_decide as Hin; case_bool_decide as Hor.
    - done.
    - exfalso. apply Hor. rewrite !elem_of_cons, elem_of_nil in Hin. tauto.
    - exfalso. apply Hin. rewrite !elem_of_cons. tauto.
    - by rewrite push_nil. }
  rewrite (bool_decide_eq_false_2 (ResolverOptions.type options = A)) by done.
  rewrite push_nil. by repeat case_bool_decide.
Qed.

(** The state [resolve] ends in when no turn of its loop calls the host. *)
Lemma resolve_local domain options bypassCache s (f : HnsRecord.t → list DNSRecord.t) :
  passes_guards domain options s →
  (∀ record s',
     (Index.dispatch domain (length (store s)) (fetched domain bypassCache s)
        (Index.normalize_options options) bypassCache record s').2 =
       (push (length (store s)) (f record) s').2) →
  let result := Index.resolve domain options bypassCache s in
  result.1 = Index.respond (flat_map f (fetched domain bypassCache s))
  ∧ accumulator domain options bypassCache s = flat_map f (fetched domain bypassCache s)
  ∧ trace result.2 = trace s ++ [EvWisdomQuery (getTld domain) bypassCache]
  ∧ host result.2 = (wisdomQuery (getTld domain) bypassCache (host s)).2.
Proof.
  intros Hguards Hlocal result. subst result.
  rewrite accumulator_run, resolve_past_guards_run by done. cbv zeta. cbn [fst snd].
  rewrite (for_of_local (length (store s)) _ _ f) by done.
  rewrite query_run. cbn [alloc fst snd store host trace].
  rewrite contents_push by (simpl; rewrite length_app; simpl; lia).
  rewrite contents_answer. done.
Qed.

(** X3: a query for NS records is answered from the chain alone.  Past the
    guards and for a requested type NS, the accumulator is the list of the
    [ns] targets of the NS records of the fetched set, in their order, each
    as a record of type NS; [resolve] answers from it, and the chain query is
    the only call made: the host's [resolve] is never called, whatever glue,
    TXT or synthesized records the set holds. *)
Theorem resolve_NS_query_is_local domain options bypassCache s :
  passes_guards domain options s →
  ResolverOptions.type options = NS →
  let result := Index.resolve domain options bypassCache s in
  let targets :=
    (fun record => DNSRecord.mk NS (Some (HnsRecord.ns record)))
      <$> filter (fun record => HnsRecord.type record = "NS")
                 (fetched domain bypassCache s) in
  accumulator domain options bypassCache s = targets
  ∧ result.1 = Index.respond targets
  ∧ trace result.2 = trace s ++ [EvWisdomQuery (getTld domain) bypassCache].
Proof.
  intros Hguards Hty result targets. subst result targets.
  rewrite <- (flat_map_filter (fun record => HnsRecord.type record = "NS")).
  destruct (resolve_local domain options bypassCache s
              (fun record => if bool_decide (HnsRecord.type record = "NS")
                             then [DNSRecord.mk NS (Some (HnsRecord.ns record))]
                             else [])) as (Hres & Hacc & Htrace & _); [done| |done].
  intros record s'. rewrite dispatch_local.
  - cbn [Index.normalize_options ResolverOptions.type]. rewrite Hty.
    case_bool_decide; [done|]. case_bool_decide; [|done].
    rewrite bool_decide_eq_false_2; [done|]. by intros [? | ?].
  - cbn. by rewrite Hty.
  - cbn. by rewrite Hty.
Qed.

(** X4: a query for content is answered from the chain alone.  Past the
    guards and for a requested type TEXT or CONTENT, the accumulator is the
    list of the last [txt] elements of the TXT records of the fetched set, in
    their order, each as a record of type TEXT; [resolve] answers from it, and
    the chain query is the only call made. *)
Theorem resolve_content_query_is_local domain options bypassCache s :
  passes_guards domain options s →
  ResolverOptions.type options = TEXT ∨ ResolverOptions.type options = CONTENT →
  let result := Index.resolve domain options bypassCache s in
  let contents_ :=
    (fun record => DNSRecord.mk TEXT (last (HnsRecord.txt record)))
      <$> filter (fun record => HnsRecord.type record = "TXT")
                 (fetched domain bypassCache s) in
  accumulator domain options bypassCache s = contents_
  ∧ result.1 = Index.respond contents_
  ∧ trace result.2 = trace s ++ [EvWisdomQuery (getTld domain) bypassCache].
Proof.
  intros Hguards Hty result contents_. subst result contents_.
  rewrite <- (flat_map_filter (fun record => HnsRecord.type record = "TXT")).
  destruct (resolve_local domain options bypassCache s
              (fun record => if bool_decide (HnsRecord.type record = "TXT")
                             then [DNSRecord.mk TEXT (last (HnsRecord.txt record))]
                             else [])) as (Hres & Hacc & Htrace & _); [done| |done].
  intros record s'. rewrite dispatch_local.
  - cbn [Index.normalize_options ResolverOptions.type].
    case_bool_decide as Hns.
    + rewrite bool_decide_eq_false_2 by (by destruct Hty as [-> | ->]).
      rewrite bool_decide_eq_false_2; [done|]. by rewrite Hns.
    + case_bool_decide; [|done]. by rewrite bool_decide_eq_true_2.
  - cbn. by destruct Hty as [-> | ->].
  - cbn. by destruct Hty as [-> | ->].
Qed.

(** X5: a requested type the module does not serve.  Past the guards and
    for a requested type other than A, CNAME, NS, TEXT and CONTENT, no chain
    record contributes anything: [resolve] returns Empty whatever the chain
    publishes, and the chain query is the only call made. *)
Theorem resolve_unserved_type_Empty domain options bypassCache s :
  passes_guards domain options s →
  ResolverOptions.type options ∉ [A; CNAME; NS; TEXT; CONTENT] →
  let result := Index.resolve domain options bypassCache s in
  result.1 = Empty
  ∧ accumulator domain options bypassCache s = []
  ∧ trace result.2 = trace s ++ [EvWisdomQuery (getTld domain) bypassCache].
Proof.
  intros Hguards Hty result. subst result.
  rewrite !elem_of_cons, elem_of_nil in Hty.
  assert (HA : ResolverOptions.type options ≠ A) by tauto.
  assert (HCNAME : ResolverOptions.type options ≠ CNAME) by tauto.
  assert (HNS : ResolverOptions.type options ≠ NS) by tauto.
  assert (Hcontent : ¬ (ResolverOptions.type options = TEXT
                        ∨ ResolverOptions.type options = CONTENT)) by tauto.
  destruct (resolve_local domain options bypassCache s (fun _ => []))
    as (Hres & Hacc & Htrace & _); [done| |].
  - intros record s'. rewrite dispatch_local by done.
    cbn [Index.normalize_options ResolverOptions.type].
    rewrite (bool_decide_eq_false_2 (ResolverOptions.type options = NS)) by done.
    rewrite (bool_decide_eq_false_2 (_ ∨ _)) by done.
    by repeat case_bool_decide.
  - assert (Hnil : ∀ chain : list HnsRecord.t,
              flat_map (fun _ => ([] : list DNSRecord.t)) chain = []).
    { intros chain. by induction chain. }
    rewrite Hnil in *. done.
Qed.

Lemma respond_elem_of r accumulated :
  r ∈ accumulated →
  ∃ payload, Index.respond accumulated = Success payload ∧ r ∈ payload.
Proof.
  intros Hin. exists (ensureUniqueRecords accumulated).
  assert (Hdedup : r ∈ ensureUniqueRecords accumulated).
  { apply elem_of_ensureUniqueRecords_from. split; [done | apply not_elem_of_nil]. }
  split; [|done]. unfold Index.respond.
  destruct (ensureUniqueRecords accumulated); [by apply elem_of_nil in Hdedup | done].
Qed.

(** A record the dispatch pushes for the chain record itself. *)
Lemma dispatch_own domain records chain options bypassCache record r :
  (HnsRecord.type record = "SYNTH4" ∧ ResolverOptions.type options = A
     ∧ r = DNSRecord.mk A (Some (HnsRecord.address record)))
  ∨ (HnsRecord.type record = "SYNTH6" ∧ ResolverOptions.type options = A
     ∧ ResolverOptions.options options ≫= InnerOptions.ipv6 = Some true
     ∧ r = DNSRecord.mk A (Some (HnsRecord.address record)))
  ∨ (HnsRecord.type record = "TXT"
     ∧ (ResolverOptions.type options = TEXT ∨ ResolverOptions.type options = CONTENT)
     ∧ r = DNSRecord.mk TEXT (last (HnsRecord.txt record)))
  ∨ (HnsRecord.type record = "NS" ∧ ResolverOptions.type options = NS
     ∧ r = DNSRecord.mk NS (Some (HnsRecord.ns record))) →
  Index.dispatch domain records chain (Index.normalize_options options) bypassCache
    record = push records [r].
Proof.
  intros [(Hkind & Hty & ->) | [(Hkind & Hty & Hv6 & ->)
          | [(Hkind & Hty & ->) | (Hkind & Hty & ->)]]].
  - rewrite dispatch_SYNTH4 by done.
    cbn [Index.normalize_options ResolverOptions.type]. by rewrite Hty.
  - rewrite dispatch_SYNTH6, wants_ipv6_normalized by done.
    cbn [Index.normalize_options ResolverOptions.type].
    by rewrite Hty, (bool_decide_eq_true_2 (_ = Some true)).
  - rewrite dispatch_TXT by done. unfold Index.processTxt.
    cbn [Index.normalize_options ResolverOptions.type].
    by destruct Hty as [-> | ->].
  - rewrite dispatch_NS by done. by rewrite processNs_NS.
Qed.

(** X2: what a chain record answers by itself is never lost.  Past the
    guards, a SYNTH4 record under a requested type A, a SYNTH6 record under
    A with [ipv6: true], a TXT record under TEXT or CONTENT and an NS record
    under NS each put their record in the payload: [resolve] returns Success
    and that record is in it, wherever the chain record stands in the set and
    whatever the host answers for the records around it. *)
Theorem resolve_keeps_own_records domain options bypassCache s record r :
  passes_guards domain options s →
  record ∈ fetched domain bypassCache s →
  (HnsRecord.type record = "SYNTH4" ∧ ResolverOptions.type options = A
     ∧ r = DNSRecord.mk A (Some (HnsRecord.address record)))
  ∨ (HnsRecord.type record = "SYNTH6" ∧ ResolverOptions.type options = A
     ∧ ResolverOptions.options options ≫= InnerOptions.ipv6 = Some true
     ∧ r = DNSRecord.mk A (Some (HnsRecord.address record)))
  ∨ (HnsRecord.type record = "TXT"
     ∧ (ResolverOptions.type options = TEXT ∨ ResolverOptions.type options = CONTENT)
     ∧ r = DNSRecord.mk TEXT (last (HnsRecord.txt record)))
  ∨ (HnsRecord.type record = "NS" ∧ ResolverOptions.type options = NS
     ∧ r = DNSRecord.mk NS (Some (HnsRecord.ns record))) →
  ∃ payload,
    (Index.resolve domain options bypassCache s).1 = Success payload ∧ r ∈ payload.
Proof.
  intros Hguards Hin Hown. rewrite resolve_past_guards by done.
  apply respond_elem_of. rewrite accumulator_run.
  set (chain := fetched domain bypassCache s) in *.
  set (acc := length (store s)).
  set (body := Index.dispatch domain acc chain (Index.normalize_options options)
                 bypassCache).
  set (s2 := (alloc [] (Index.query (getTld domain) bypassCache s).2).2).
  assert (Hs2 : acc < length (store s2)).
  { subst s2 acc. rewrite query_run. simpl. rewrite length_app. simpl. lia. }
  assert (Hkeeps : ∀ xs, (∀ x, x ∈ xs → x ∈ chain) →
    keeps (delegation_call domain (Index.normalize_options options) bypassCache chain)
      acc (for_of xs body) (fun _ => True)).
  { intros xs Hxs. apply for_of_keeps. intros x Hx. apply dispatch_keeps. auto. }
  destruct (list_elem_of_split _ _ Hin) as (before & after & Hsplit).
  assert (Hbefore : ∀ x, x ∈ before → x ∈ chain).
  { intros x Hx. rewrite Hsplit. apply elem_of_app. by left. }
  assert (Hafter : ∀ x, x ∈ after → x ∈ chain).
  { intros x Hx. rewrite Hsplit. apply elem_of_app. right. by right. }
  rewrite Hsplit at 1. rewrite for_of_app.
  destruct (Hkeeps before Hbefore s2 Hs2) as [(Hlen & _ & _) _].
  set (sa := (for_of before body s2).2) in *.
  assert (Hsa : acc < length (store sa)) by lia.
  cbn [for_of]. unfold bind at 1.
  assert (Hturn : body record sa = push acc [r] sa).
  { subst body. by rewrite (dispatch_own _ _ _ _ _ _ r). }
  rewrite Hturn. cbn [push].
  change (mkState (host sa) (<[acc:=contents acc sa ++ [r]]> (store sa)) (trace sa))
    with (push acc [r] sa).2.
  destruct (Hkeeps after Hafter (push acc [r] sa).2) as [(_ & [rs Hrs] & _) _].
  { by rewrite length_store_push. }
  rewrite Hrs, contents_push by done.
  rewrite !elem_of_app, list_elem_of_singleton. tauto.
Qed.
End Invariants.

(** ** The branches of the NS handler past the glue and NS-type tests *)
Section Branches.
Context {Host : Type} {C : Collaborators Host}.
Import DNS_RECORD_TYPE.
Implicit Types (s : State Host) (records : loc) (record : HnsRecord.t)
  (options : ResolverOptions.t).

Lemma run_bind {A B} (m : M Host A) (k : A → M Host B) s :
  bind m k s = k (m s).1 (m s).2.
Proof. unfold bind. by destruct (m s). Qed.

Lemma run_read l s : read l s = (contents l s, s).
Proof. reflexivity. Qed.

Lemma run_pop l s :
  pop l s = (last (contents l s),
             mkState (host s) (<[l := removelast (contents l s)]> (store s)) (trace s)).
Proof. reflexivity. Qed.

(** The NS handler, for a requested type A or CNAME and no paired glue, is
    its delegation part. *)
Lemma processNs_delegation domain record records chain options bypassCache :
  ResolverOptions.type options = A ∨ ResolverOptions.type options = CNAME →
  Index.glue_for record chain = None →
  Index.processNs domain record records chain options bypassCache =
    let foundDomain := normalizeDomain (HnsRecord.ns record) in
    if (isDomain foundDomain || hostname_label_test foundDomain)
       && negb (Index.isHip5 foundDomain options)
    then
      if negb (if includes_char dot foundDomain
               then includes tldEnum_list (last (split dot foundDomain))
               else false)
      then
        bind (call_resolve foundDomain options None) (fun hnsNs =>
          bind (read (DNSResult.records hnsNs)) (fun found =>
            if negb (length found =? 0)%nat then
              bind (pop (DNSResult.records hnsNs)) (fun popped =>
                bind (call_resolve domain
                        (Index.subquery_options options
                           (popped ≫= fun r => DNSRecord.value r)) None)
                  (fun icannRecords =>
                   bind (read (DNSResult.records icannRecords)) (fun rs =>
                     if negb (length rs =? 0)%nat then push records rs else ret tt)))
            else ret tt))
      else
        bind (call_resolve domain
                (Index.subquery_options options (Some foundDomain)) None)
          (fun icannRecords =>
           bind (read (DNSResult.records icannRecords)) (fun rs =>
             if negb (length rs =? 0)%nat then push records rs else ret tt))
    else
      bind (call_resolve (HnsRecord.ns record) options (Some bypassCache))
        (fun result =>
         bind (read (DNSResult.records result)) (fun rs =>
           if (length rs =? 0)%nat
           then push (DNSResult.records result)
                  [DNSRecord.mk NS (Some (HnsRecord.ns record))]
           else push records rs)).
Proof.
  intros Hty Hglue. unfold Index.processNs.
  destruct (glue_applicable options Hty) as (_ & -> & ->).
  by rewrite Hglue.
Qed.

(** X6: delegation to an ICANN-rooted nameserver.  For a requested type A
    or CNAME and an NS record without paired glue, whose normalized target is
    a valid name, is not HIP-5, has a dot and ends in a label of the ICANN
    list: the handler makes exactly one call, the subquery on the original
    domain with [nameserver] set to the normalized target, and appends the
    records it returns.  The caller's [bypassCache] is not passed to this
    subquery, and the target itself is never resolved. *)
Theorem processNs_icann_target_subquery
    domain record records chain options bypassCache s tld :
  let target := normalizeDomain (HnsRecord.ns record) in
  ResolverOptions.type options = A ∨ ResolverOptions.type options = CNAME →
  Index.glue_for record chain = None →
  isDomain target || hostname_label_test target = true →
  Index.isHip5 target options = false →
  includes_char dot target = true →
  last (split dot target) = Some tld → tld ∈ tldEnum_list →
  records < length (store s) →
  subquery_appends domain (Some target) options None records s
    (Index.processNs domain record records chain options bypassCache s).2.
Proof.
  intros target Hty Hglue Hvalid Hhip5 Hdot Hlast Hicann Hl. subst target.
  rewrite processNs_delegation by done. cbv zeta.
  rewrite Hvalid, Hhip5, Hdot, Hlast. unfold includes.
  rewrite bool_decide_eq_true_2 by done. cbn [negb andb].
  by apply call_then_append.
Qed.

(** X7: delegation to a chain-rooted nameserver.  For a requested type A
    or CNAME and an NS record without paired glue, whose normalized target is
    a valid name, is not HIP-5 and is not ICANN-rooted (no dot, or a last
    label outside the ICANN list): the handler first resolves the target
    through the host, with the caller's options and no [bypassCache].  When
    that returns no record, nothing else happens.  When it returns records,
    the handler makes one subquery on the original domain with
    [nameserver] set to the value of the last of them, and appends what the
    subquery returns; the records found for the target are never appended. *)
Theorem processNs_chain_target_resolves_then_subqueries
    domain record records chain options bypassCache s :
  let target := normalizeDomain (HnsRecord.ns record) in
  let first := host_resolve target options None (host s) in
  let found := HostAnswer.records first.1 in
  let call := Index.subquery_options options (last found ≫= DNSRecord.value) in
  let second := host_resolve domain call None first.2 in
  let s' := (Index.processNs domain record records chain options bypassCache s).2 in
  ResolverOptions.type options = A ∨ ResolverOptions.type options = CNAME →
  Index.glue_for record chain = None →
  isDomain target || hostname_label_test target = true →
  Index.isHip5 target options = false →
  includes_char dot target = false
  ∨ includes tldEnum_list (last (split dot target)) = false →
  records < length (store s) →
  (found = [] →
     trace s' = trace s ++ [EvResolve target options None]
     ∧ host s' = first.2
     ∧ contents records s' = contents records s)
  ∧ (found ≠ [] →
     trace s' = trace s ++ [EvResolve target options None; EvResolve domain call None]
     ∧ host s' = second.2
     ∧ contents records s' = contents records s ++ HostAnswer.records second.1).
Proof.
  intros target first found call second s' Hty Hglue Hvalid Hhip5 Hchain Hl.
  subst s'. rewrite processNs_delegation by done. cbv zeta.
  fold target. rewrite Hvalid, Hhip5. cbn [negb andb].
  replace (negb (if includes_char dot target
                 then includes tldEnum_list (last (split dot target)) else false))
    with true.
  2: { destruct Hchain as [-> | ->]; [done|]. by destruct (includes_char dot target). }
  rewrite run_bind, call_resolve_run. cbv zeta. fold first.
  cbn [DNSResult.records fst snd]. rewrite run_bind, !run_read.
  cbn [fst snd]. rewrite contents_answer. fold found.
  split.
  - intros Hnone. rewrite Hnone. cbn [length Nat.eqb negb ret snd trace host].
    split; [done|]. split; [done|]. by rewrite contents_before_answer.
  - intros Hsome. destruct found as [|r0 rest] eqn:Hfound; [done|].
    cbn [length Nat.eqb negb].
    rewrite run_bind, !run_pop. cbn [fst snd host store trace].
    rewrite contents_answer.
    set (popped := mkState first.2
                     (<[length (store s) := removelast (r0 :: rest)]>
                        (store s ++ [r0 :: rest]))
                     (trace s ++ [EvResolve target options None])).
    assert (Hlp : records < length (store popped)).
    { subst popped. cbn [store]. rewrite length_insert, length_app. lia. }
    assert (Hcp : contents records popped = contents records s).
    { subst popped. unfold contents. cbn [store].
      rewrite list_lookup_insert_ne by (unfold loc in *; lia).
      by rewrite lookup_app_l. }
    pose proof (call_then_append domain call None records popped Hlp)
      as (Htrace & Hhost & Hcontents & _).
    cbv zeta in Htrace, Hhost, Hcontents.
    subst call. split; [|split].
    + etrans; [exact Htrace|]. subst popped. cbn [trace]. by rewrite <- app_assoc.
    + etrans; [exact Hhost|]. done.
    + etrans; [exact Hcontents|]. by rewrite Hcp.
Qed.

(** X8: a HIP-5 target is handed to the host as it is published.  For a
    requested type A or CNAME and an NS record without paired glue whose
    normalized target is HIP-5, the handler makes exactly one call: the
    host's [resolve] on [record.ns] itself (not on its normalized form),
    with the caller's options unchanged (no subquery mark) and the caller's
    [bypassCache]; the records it returns are appended to the accumulator.
    Neither the ICANN list nor a subquery is involved. *)
Theorem processNs_hip5_target_resolved_directly
    domain record records chain options bypassCache s :
  let answered :=
    host_resolve (HnsRecord.ns record) options (Some bypassCache) (host s) in
  let s' := (Index.processNs domain record records chain options bypassCache s).2 in
  ResolverOptions.type options = A ∨ ResolverOptions.type options = CNAME →
  Index.glue_for record chain = None →
  Index.isHip5 (normalizeDomain (HnsRecord.ns record)) options = true →
  records < length (store s) →
  trace s' = trace s ++ [EvResolve (HnsRecord.ns record) options (Some bypassCache)]
  ∧ host s' = answered.2
  ∧ contents records s' = contents records s ++ HostAnswer.records answered.1.
Proof.
  intros answered s' Hty Hglue Hhip5 Hl. subst s'.
  rewrite processNs_delegation by done. cbv zeta.
  rewrite Hhip5, andb_false_r.
  rewrite run_bind, call_resolve_run. cbv zeta. fold answered.
  cbn [DNSResult.records fst snd]. rewrite run_bind, !run_read.
  cbn [fst snd]. rewrite contents_answer.
  destruct (HostAnswer.records answered.1) as [|r rest] eqn:Hrs.
  - cbn [length Nat.eqb]. split; [done|]. split; [done|].
    rewrite contents_push_ne by (unfold loc in *; lia).
    by rewrite contents_before_answer, app_nil_r.
  - cbn [length Nat.eqb]. split; [done|]. split; [done|].
    rewrite contents_push by (cbn [store]; rewrite length_app; lia).
    by rewrite contents_before_answer.
Qed.
End Branches.

(** ** The guards and the shape of the outcome *)
Section Outcome.
Context {Host : Type} {C : Collaborators Host}.
Implicit Types (s : State Host) (options : ResolverOptions.t).

(** X9: a name another resolver claims, or a literal address, is refused
    before anything is asked.  When the domain's top-level label is among
    the labels some sibling resolver reports, or the domain is a literal IP
    address, [resolve] of src/index.ts and [resolve] of src/resolver.ts both
    return Empty and leave the state as it was: no chain query, no call of
    the host. *)
Theorem resolve_refuses_claimed_or_literal domain options bypassCache s :
  (∃ tlds, tlds ∈ supportedTlds (host s) ∧ getTld domain ∈ tlds)
  ∨ isIp domain = true →
  Index.resolve domain options bypassCache s = (Empty, s)
  ∧ Resolver.resolve domain options bypassCache s = (Empty, s).
Proof.
  intros Hrefused.
  assert (Hbypass : bool_decide (getTld domain ∈ blacklist_of (host s)) || isIp domain
                    = true).
  { destruct Hrefused as [Hclaimed | ->]; [|by rewrite orb_true_r].
    apply elem_of_blacklist in Hclaimed. by rewrite bool_decide_eq_true_2. }
  split.
  - unfold Index.resolve. rewrite run_bind, buildBlacklist_run. cbn [fst snd].
    apply orb_true_iff in Hbypass as [-> | Hip]; [done|].
    rewrite Hip. by destruct (bool_decide _).
  - unfold Resolver.resolve, Resolver.shouldBypassResolution.
    rewrite !run_bind, buildBlacklist_run. cbn [fst snd ret].
    by rewrite Hbypass.
Qed.

(** X10: the shape of what [resolve] returns.  [resolve] of src/index.ts
    returns Empty or Success with one record at least, never Error and never
    Success without records; [resolve] of src/resolver.ts returns Empty,
    Success with one record at least, or Error with the non-empty cause the
    chain query reported. *)
Theorem resolve_outcome_shape domain options bypassCache s :
  ((Index.resolve domain options bypassCache s).1 = Empty
   ∨ ∃ payload, (Index.resolve domain options bypassCache s).1 = Success payload
                ∧ payload ≠ [])
  ∧ ((Resolver.resolve domain options bypassCache s).1 = Empty
     ∨ (∃ payload, (Resolver.resolve domain options bypassCache s).1 = Success payload
                   ∧ payload ≠ [])
     ∨ ∃ cause, (Resolver.resolve domain options bypassCache s).1 = Error cause
                ∧ cause ≠ ""
                ∧ HandshakeResponse.error
                    (client_query (getTld domain) (host s)).1 = Some cause).
Proof.
  assert (Hrespond : ∀ records : list DNSRecord.t,
    (if (0 <? length records)%nat then resolveSuccess records else resolverEmptyResponse)
      = Empty
    ∨ ∃ payload,
        (if (0 <? length records)%nat then resolveSuccess records
         else resolverEmptyResponse) = Success payload ∧ payload ≠ []).
  { intros [|r records]; [by left | right]. by exists (r :: records). }
  split.
  - unfold Index.resolve. rewrite run_bind, buildBlacklist_run. cbn [fst snd].
    destruct (bool_decide _); [by left|].
    destruct (isIp domain); [by left|].
    destruct (Index.has_subquery _); [by left|].
    rewrite run_bind. cbn [array_truthy negb]. rewrite !run_bind. cbn [ret fst].
    apply Hrespond.
  - unfold Resolver.resolve, Resolver.shouldBypassResolution.
    rewrite !run_bind, buildBlacklist_run. cbn [fst snd ret].
    destruct (_ || _); [by left|].
    rewrite run_bind.
    assert (Hq : (Resolver.query (getTld domain) s).1 =
                 (client_query (getTld domain) (host s)).1).
    { unfold Resolver.query, bind, emit, on_host. cbn [fst snd host].
      by destruct (client_query (getTld domain) (host s)). }
    rewrite Hq.
    set (resp := (client_query (getTld domain) (host s)).1).
    unfold Resolver.reported_error, truthy.
    destruct (HandshakeResponse.error resp) as [cause|] eqn:Herr.
    + case_bool_decide as Hcause; cbn [negb].
      * destruct (HandshakeResponse.result resp ≫= RpcResponse.records) as [[|r l]|];
          [by left | | by left].
        rewrite run_bind. cbn [ret fst].
        destruct (Hrespond (ensureUniqueRecords
          (Resolver.processRecords (r :: l) (Resolver.normalize_options options)
             domain bypassCache (Resolver.query (getTld domain) s).2).1)) as [? | ?];
          [by left | right; by left].
      * right. right. by exists cause.
    + destruct (HandshakeResponse.result resp ≫= RpcResponse.records) as [[|r l]|];
        [by left | | by left].
      rewrite run_bind. cbn [ret fst].
      destruct (Hrespond (ensureUniqueRecords
        (Resolver.processRecords (r :: l) (Resolver.normalize_options options)
           domain bypassCache (Resolver.query (getTld domain) s).2).1)) as [? | ?];
        [by left | right; by left].
Qed.
End Outcome.

(** ** src/resolver.ts: the scenarios of [processRecords] *)
Section Scenarios.
Context {Host : Type} {C : Collaborators Host}.
Import DNS_RECORD_TYPE.
Implicit Types (s : State Host) (options : ResolverOptions.t)
  (hnsRecords : list HnsRecord.t).

Lemma filter_bool_decide {A} (P : A → Prop) `{∀ x, Decision (P x)} (xs : list A) :
  List.filter (fun x => bool_decide (P x)) xs = filter P xs.
Proof.
  induction xs as [|x xs IH]; [done|]. simpl. rewrite filter_cons.
  case_bool_decide; rewrite decide_bool_decide.
  - rewrite bool_decide_eq_true_2 by done. by rewrite IH.
  - by rewrite bool_decide_eq_false_2.
Qed.

Lemma findRecordsByType_run hnsRecords type :
  Resolver.findRecordsByType hnsRecords type =
    match filter (fun record => HnsRecord.type record = type) hnsRecords with
    | [] => None
    | found => Some found
    end.
Proof.
  unfold Resolver.findRecordsByType. cbv zeta.
  rewrite (filter_bool_decide (fun record => HnsRecord.type record = type)).
  by destruct (filter _ hnsRecords).
Qed.

Lemma findRecordsByType_Some hnsRecords type record :
  record ∈ hnsRecords → HnsRecord.type record = type →
  Resolver.findRecordsByType hnsRecords type =
    Some (filter (fun record => HnsRecord.type record = type) hnsRecords).
Proof.
  intros Hin Hkind. rewrite findRecordsByType_run.
  assert (Hr : record ∈ filter (fun record => HnsRecord.type record = type) hnsRecords)
    by (by apply list_elem_of_filter).
  destruct (filter _ hnsRecords); [by apply elem_of_nil in Hr | done].
Qed.

Lemma findRecordsByType_None hnsRecords type :
  (∀ record, record ∈ hnsRecords → HnsRecord.type record ≠ type) →
  Resolver.findRecordsByType hnsRecords type = None.
Proof.
  intros Hnone. rewrite findRecordsByType_run.
  destruct (filter _ hnsRecords) as [|r found] eqn:Hfilter; [done|].
  assert (Hr : r ∈ filter (fun record => HnsRecord.type record = type) hnsRecords)
    by (rewrite Hfilter; by left).
  apply list_elem_of_filter in Hr as [Hkind Hin]. by destruct (Hnone r Hin).
Qed.

(** X11: [findRecordsByType] never returns an empty array.  It returns
    [false] exactly when no record of the set has the type; otherwise it
    returns the records of that type, all of them and in their order, so one
    at least. *)
Theorem findRecordsByType_spec hnsRecords type :
  (Resolver.findRecordsByType hnsRecords type = None
   ↔ ∀ record, record ∈ hnsRecords → HnsRecord.type record ≠ type)
  ∧ ∀ found, Resolver.findRecordsByType hnsRecords type = Some found →
      found ≠ []
      ∧ found = filter (fun record => HnsRecord.type record = type) hnsRecords.
Proof.
  split.
  - split; [|apply findRecordsByType_None].
    intros Hnone record Hin Hkind.
    by rewrite (findRecordsByType_Some _ _ record) in Hnone.
  - intros found. rewrite findRecordsByType_run.
    destruct (filter _ hnsRecords); [done|]. by intros [= <-].
Qed.

Lemma find_none_all {A} (p : A → bool) (xs : list A) :
  (∀ x, x ∈ xs → p x = false) → List.find p xs = None.
Proof.
  induction xs as [|x xs IH]; intros Hall; [done|]. simpl.
  rewrite Hall by (by left). apply IH. intros y Hy. apply Hall. by right.
Qed.

(** The first element a search finds: nothing before it satisfies the
    test. *)
Lemma find_first {A} (p : A → bool) (xs : list A) x :
  List.find p xs = Some x →
  p x = true ∧ ∃ before after, xs = before ++ x :: after
                               ∧ ∀ y, y ∈ before → p y = false.
Proof.
  induction xs as [|y xs IH]; [done|]. simpl.
  destruct (p y) eqn:Hy.
  - intros [= <-]. split; [done|]. exists [], xs. split; [done|].
    intros z Hz. by apply elem_of_nil in Hz.
  - intros Hfind. destruct (IH Hfind) as (Hp & before & after & -> & Hbefore).
    split; [done|]. exists (y :: before), after. split; [done|].
    intros z Hz. apply elem_of_cons in Hz as [-> | Hz]; auto.
Qed.

Lemma find_filter {A} (P : A → Prop) `{∀ x, Decision (P x)} (p : A → bool)
    (xs : list A) :
  List.find p (filter P xs) = List.find (fun x => bool_decide (P x) && p x) xs.
Proof.
  induction xs as [|x xs IH]; [done|]. rewrite filter_cons. simpl.
  destruct (decide (P x)) as [HP | HP].
  - rewrite bool_decide_eq_true_2 by done. simpl. by destruct (p x).
  - by rewrite bool_decide_eq_false_2.
Qed.

(** The chain query of src/resolver.ts. *)
Lemma resolver_query_run tld s :
  Resolver.query tld s =
    ((client_query tld (host s)).1,
     mkState (client_query tld (host s)).2 (store s) (trace s ++ [EvClientQuery tld])).
Proof.
  unfold Resolver.query, bind, emit, on_host. cbn [fst snd host store trace].
  by destruct (client_query tld (host s)).
Qed.

(** Past the guards and with a record set fetched, [resolve] of
    src/resolver.ts is [processRecords] and the response built from it. *)
Lemma resolver_resolve_fetched domain options bypassCache s hnsRecords :
  getTld domain ∉ blacklist_of (host s) →
  isIp domain = false →
  truthy (HandshakeResponse.error (client_query (getTld domain) (host s)).1) = false →
  HandshakeResponse.result (client_query (getTld domain) (host s)).1
    ≫= RpcResponse.records = Some hnsRecords →
  hnsRecords ≠ [] →
  let processed :=
    Resolver.processRecords hnsRecords (Resolver.normalize_options options) domain
      bypassCache (Resolver.query (getTld domain) s).2 in
  Resolver.resolve domain options bypassCache s =
    (Index.respond processed.1, processed.2).
Proof.
  intros Hbl Hip Herr Hrecords Hne processed. subst processed.
  unfold Resolver.resolve, Resolver.shouldBypassResolution.
  rewrite !run_bind, buildBlacklist_run. cbn [fst snd ret].
  rewrite bool_decide_eq_false_2, Hip by done. cbn [orb].
  rewrite run_bind, resolver_query_run. cbn [fst snd].
  unfold Resolver.reported_error. rewrite Herr, Hrecords.
  destruct hnsRecords as [|r l]; [done|].
  rewrite run_bind. reflexivity.
Qed.

Lemma handleContentRecords_CONTENT content options :
  ResolverOptions.type options = CONTENT →
  Resolver.handleContentRecords content options =
    (fun record => DNSRecord.mk CONTENT (last (HnsRecord.txt record))) <$> content.
Proof.
  intros Hty. unfold Resolver.handleContentRecords.
  by rewrite bool_decide_eq_true_2.
Qed.

Lemma handleContentRecords_other content options :
  ResolverOptions.type options ≠ CONTENT →
  Resolver.handleContentRecords content options = [].
Proof.
  intros Hty. unfold Resolver.handleContentRecords.
  by rewrite bool_decide_eq_false_2.
Qed.

(** X12: content wins in [processRecords].  For a requested type CONTENT
    and a record set with a TXT record at least, [processRecords] returns
    one record of type CONTENT per TXT record, in their order, each holding
    the last element of its [txt], and calls no collaborator, whatever NS
    records (HIP-5 or not) the set holds. *)
Theorem processRecords_content_wins hnsRecords options domain bypassCache s txt :
  ResolverOptions.type options = CONTENT →
  txt ∈ hnsRecords → HnsRecord.type txt = "TXT" →
  Resolver.processRecords hnsRecords options domain bypassCache s =
    ((fun record => DNSRecord.mk CONTENT (last (HnsRecord.txt record)))
       <$> filter (fun record => HnsRecord.type record = "TXT") hnsRecords,
     s).
Proof.
  intros Hty Hin Hkind. unfold Resolver.processRecords. cbv zeta.
  rewrite (findRecordsByType_Some hnsRecords "TXT" txt) by done.
  rewrite handleContentRecords_CONTENT by done.
  destruct (Resolver.findRecordsByType hnsRecords "NS") as [ns|].
  - by rewrite bool_decide_eq_true_2.
  - done.
Qed.

(** X13: a TXT record shadows address resolution in [processRecords].  For a
    requested type other than CONTENT, a record set with a TXT record and no
    HIP-5 NS record gives no record and no call at all: the DNS client is not
    asked, although the request may be for A or CNAME and the set may hold
    NS, glue or synthesized records. *)
Theorem processRecords_txt_shadows_addresses
    hnsRecords options domain bypassCache s txt :
  ResolverOptions.type options ≠ CONTENT →
  txt ∈ hnsRecords → HnsRecord.type txt = "TXT" →
  (∀ record, record ∈ hnsRecords → HnsRecord.type record = "NS" →
             Resolver.isNSHip5 record options = false) →
  Resolver.processRecords hnsRecords options domain bypassCache s = ([], s).
Proof.
  intros Hty Hin Hkind Hnohip5. unfold Resolver.processRecords. cbv zeta.
  rewrite (findRecordsByType_Some hnsRecords "TXT" txt) by done.
  rewrite handleContentRecords_other by done.
  rewrite (bool_decide_eq_false_2 (ResolverOptions.type options = CONTENT)) by done.
  rewrite (findRecordsByType_run hnsRecords "NS").
  destruct (filter _ hnsRecords) as [|first found] eqn:Hfilter; [done|].
  assert (Hfound : ∀ record, record ∈ first :: found →
                             Resolver.isNSHip5 record options = false).
  { intros record Hr. rewrite <- Hfilter in Hr.
    apply list_elem_of_filter in Hr as [Hns Hr]. by apply Hnohip5. }
  cbn [mbind option_bind].
  rewrite find_none_all by done.
  by rewrite (Hfound first) by (by left).
Qed.

(** X14: HIP-5 delegation in [processRecords].  When the set holds an NS
    record that is HIP-5, and the request is not a CONTENT request served by
    a TXT record, [processRecords] makes exactly one call: the host's
    [resolve] on the [ns] of the first HIP-5 NS record of the set, as
    published, with the inner options replaced by [{domain}] (the caller's
    own inner options are dropped) and [bypassCache] passed on; it returns
    the records of that answer, none of its own. *)
Theorem processRecords_hip5_delegates hnsRecords options domain bypassCache s ns :
  ns ∈ hnsRecords → HnsRecord.type ns = "NS" →
  Resolver.isNSHip5 ns options = true →
  ResolverOptions.type options ≠ CONTENT
  ∨ (∀ record, record ∈ hnsRecords → HnsRecord.type record ≠ "TXT") →
  ∃ hip5 before after,
    hnsRecords = before ++ hip5 :: after
    ∧ HnsRecord.type hip5 = "NS" ∧ Resolver.isNSHip5 hip5 options = true
    ∧ (∀ record, record ∈ before →
         ¬ (HnsRecord.type record = "NS" ∧ Resolver.isNSHip5 record options = true))
    ∧ let call := Resolver.domain_options options domain in
      let answered :=
        host_resolve (HnsRecord.ns hip5) call (Some bypassCache) (host s) in
      Resolver.processRecords hnsRecords options domain bypassCache s =
        (HostAnswer.records answered.1,
         mkState answered.2 (store s ++ [HostAnswer.records answered.1])
           (trace s ++ [EvResolve (HnsRecord.ns hip5) call (Some bypassCache)])).
Proof.
  intros Hin Hkind Hhip5 Hserved.
  set (p := fun record => Resolver.isNSHip5 record options).
  destruct (List.find p (filter (fun record => HnsRecord.type record = "NS") hnsRecords))
    as [hip5|] eqn:Hfind.
  2: { apply List.find_none with (x := ns) in Hfind; [subst p; simpl in Hfind; congruence|].
       apply list_elem_of_In, list_elem_of_filter. done. }
  pose proof Hfind as Hfirst. rewrite find_filter in Hfirst.
  apply find_first in Hfirst as (Hp & before & after & Hsplit & Hbefore).
  apply andb_true_iff in Hp as [Hns Hp]. apply bool_decide_eq_true in Hns.
  exists hip5, before, after. split; [done|]. split; [done|]. split; [done|].
  split.
  { intros record Hr [Hrns Hrhip5]. specialize (Hbefore record Hr). simpl in Hbefore.
    rewrite bool_decide_eq_true_2 in Hbefore by done. subst p. simpl in Hbefore.
    congruence. }
  cbv zeta. unfold Resolver.processRecords. cbv zeta.
  rewrite (findRecordsByType_Some hnsRecords "NS" ns) by done.
  cbn [mbind option_bind]. fold p. rewrite Hfind.
  assert (Hcall :
    bind (call_resolve (HnsRecord.ns hip5) (Resolver.domain_options options domain)
            (Some bypassCache))
         (fun result => read (DNSResult.records result)) s =
    (HostAnswer.records
       (host_resolve (HnsRecord.ns hip5) (Resolver.domain_options options domain)
          (Some bypassCache) (host s)).1,
     mkState
       (host_resolve (HnsRecord.ns hip5) (Resolver.domain_options options domain)
          (Some bypassCache) (host s)).2
       (store s ++
        [HostAnswer.records
           (host_resolve (HnsRecord.ns hip5) (Resolver.domain_options options domain)
              (Some bypassCache) (host s)).1])
       (trace s ++
        [EvResolve (HnsRecord.ns hip5) (Resolver.domain_options options domain)
           (Some bypassCache)]))).
  { rewrite run_bind, call_resolve_run. cbv zeta. cbn [DNSResult.records fst snd].
    by rewrite run_read, contents_answer. }
  destruct (Resolver.findRecordsByType hnsRecords "TXT") as [content|] eqn:Htxt;
    [|exact Hcall].
  destruct Hserved as [Hty | Hnotxt].
  - rewrite bool_decide_eq_false_2 by done. exact Hcall.
  - by rewrite findRecordsByType_None in Htxt.
Qed.

(** The loop of [handleWithNameserver] for a served type: one DNS query. *)
Lemma handleWithNameserver_served domain options s :
  ResolverOptions.type options = A ∨ ResolverOptions.type options = CNAME →
  let type := ResolverOptions.type options in
  let answered := client_dnsQuery domain type (host s) in
  Resolver.handleWithNameserver domain options s =
    (match answered.1 with
     | first :: _ => [DNSRecord.mk type (DnsAnswer.data_address first)]
     | [] => []
     end,
     mkState answered.2 (store s) (trace s ++ [EvDnsQuery domain type])).
Proof.
  intros Hty type answered. subst type answered.
  unfold Resolver.handleWithNameserver. cbn [for_of_from].
  assert (Hq : ∀ t s0, Resolver.dnsQuery domain t s0 =
    ((client_dnsQuery domain t (host s0)).1,
     mkState (client_dnsQuery domain t (host s0)).2 (store s0)
       (trace s0 ++ [EvDnsQuery domain t]))).
  { intros t s0. unfold Resolver.dnsQuery, bind, emit, on_host.
    cbn [fst snd host store trace]. by destruct (client_dnsQuery domain t (host s0)). }
  destruct Hty as [Hty | Hty]; rewrite Hty.
  - rewrite (bool_decide_eq_true_2 (A = A)), (bool_decide_eq_false_2 (CNAME = A))
      by done.
    rewrite !run_bind, !Hq. cbn [fst snd ret].
    by destruct (client_dnsQuery domain A (host s)).1.
  - rewrite (bool_decide_eq_true_2 (CNAME = CNAME)),
      (bool_decide_eq_false_2 (A = CNAME)) by done.
    rewrite !run_bind. cbn [fst snd ret]. rewrite !Hq. cbn [fst snd ret].
    by destruct (client_dnsQuery domain CNAME (host s)).1.
Qed.

Lemma handleWithNameserver_unserved domain options s :
  ResolverOptions.type options ≠ A → ResolverOptions.type options ≠ CNAME →
  Resolver.handleWithNameserver domain options s = ([], s).
Proof.
  intros HA HCNAME. unfold Resolver.handleWithNameserver. cbn [for_of_from].
  rewrite run_bind.
  rewrite (bool_decide_eq_false_2 (A = _)) by congruence. cbn [ret fst snd].
  rewrite run_bind.
  by rewrite (bool_decide_eq_false_2 (CNAME = _)) by congruence.
Qed.

(** With no TXT record and no HIP-5 NS record [processRecords] comes down
    to [handleWithNameserver]. *)
Lemma processRecords_is_direct hnsRecords options domain bypassCache :
  (∀ record, record ∈ hnsRecords → HnsRecord.type record ≠ "TXT") →
  (∀ record, record ∈ hnsRecords → HnsRecord.type record = "NS" →
             Resolver.isNSHip5 record options = false) →
  Resolver.processRecords hnsRecords options domain bypassCache =
    Resolver.handleWithNameserver domain options.
Proof.
  intros Hnotxt Hnohip5. unfold Resolver.processRecords. cbv zeta.
  rewrite (findRecordsByType_None hnsRecords "TXT") by done.
  rewrite (findRecordsByType_run hnsRecords "NS").
  destruct (filter _ hnsRecords) as [|first found] eqn:Hfilter; [done|].
  assert (Hfound : ∀ record, record ∈ first :: found →
                             Resolver.isNSHip5 record options = false).
  { intros record Hr. rewrite <- Hfilter in Hr.
    apply list_elem_of_filter in Hr as [Hns Hr]. by apply Hnohip5. }
  cbn [mbind option_bind]. rewrite find_none_all by done.
  by rewrite (Hfound first) by (by left).
Qed.

(** X15: the direct DNS query of [processRecords].  For a record set with no
    TXT record and no HIP-5 NS record, the chain records are not used any
    further.  A request for A or CNAME makes exactly one call,
    [client.dnsQuery(domain, type)] on the original domain, and returns at
    most one record: the address of the first answer under the requested
    type, or nothing when there is no answer.  Any other requested type
    gives no record and no call. *)
Theorem processRecords_direct_dns_query hnsRecords options domain bypassCache s :
  (∀ record, record ∈ hnsRecords → HnsRecord.type record ≠ "TXT") →
  (∀ record, record ∈ hnsRecords → HnsRecord.type record = "NS" →
             Resolver.isNSHip5 record options = false) →
  let type := ResolverOptions.type options in
  let answered := client_dnsQuery domain type (host s) in
  (type = A ∨ type = CNAME →
     Resolver.processRecords hnsRecords options domain bypassCache s =
       (match answered.1 with
        | first :: _ => [DNSRecord.mk type (DnsAnswer.data_address first)]
        | [] => []
        end,
        mkState answered.2 (store s) (trace s ++ [EvDnsQuery domain type])))
  ∧ (type ≠ A → type ≠ CNAME →
     Resolver.processRecords hnsRecords options domain bypassCache s = ([], s)).
Proof.
  intros Hnotxt Hnohip5 type answered. subst type answered.
  rewrite processRecords_is_direct by done. split.
  - intros Hty. by apply handleWithNameserver_served.
  - intros HA HCNAME. by apply handleWithNameserver_unserved.
Qed.

(** X17: an address request through [resolve] of src/resolver.ts.  Past
    the guards, with a record set that is fetched without error, is not
    empty and holds no TXT record and no HIP-5 NS record, a request for A or
    CNAME makes two calls in all, the chain query and then one DNS query on
    the original domain; the outcome is Success with the one record that
    carries the address of the first DNS answer, or Empty when the DNS client
    has no answer.  What the chain records say (a synthesized address, a glue
    address) does not enter the outcome. *)
Theorem resolver_resolve_address_request domain options bypassCache s hnsRecords :
  getTld domain ∉ blacklist_of (host s) →
  isIp domain = false →
  truthy (HandshakeResponse.error (client_query (getTld domain) (host s)).1) = false →
  HandshakeResponse.result (client_query (getTld domain) (host s)).1
    ≫= RpcResponse.records = Some hnsRecords →
  hnsRecords ≠ [] →
  (∀ record, record ∈ hnsRecords → HnsRecord.type record ≠ "TXT") →
  (∀ record, record ∈ hnsRecords → HnsRecord.type record = "NS" →
             Resolver.isNSHip5 record (Resolver.normalize_options options) = false) →
  ResolverOptions.type options = A ∨ ResolverOptions.type options = CNAME →
  let type := ResolverOptions.type options in
  let answered :=
    client_dnsQuery domain type (client_query (getTld domain) (host s)).2 in
  Resolver.resolve domain options bypassCache s =
    (match answered.1 with
     | first :: _ => Success [DNSRecord.mk type (DnsAnswer.data_address first)]
     | [] => Empty
     end,
     mkState answered.2 (store s)
       (trace s ++ [EvClientQuery (getTld domain); EvDnsQuery domain type])).
Proof.
  intros Hbl Hip Herr Hrecords Hne Hnotxt Hnohip5 Hty type answered.
  subst type answered.
  rewrite (resolver_resolve_fetched _ _ _ _ hnsRecords) by done. cbv zeta.
  rewrite processRecords_is_direct by done.
  rewrite handleWithNameserver_served by done. cbv zeta.
  rewrite resolver_query_run. cbn [fst snd host store trace Resolver.normalize_options
                                     ResolverOptions.type].
  rewrite <- app_assoc. cbn [app].
  by destruct (client_dnsQuery domain (ResolverOptions.type options)
                 (client_query (getTld domain) (host s)).2).1.
Qed.
End Scenarios.

(** ** The priority pick *)
Section PriorityPick.
Context {Host : Type} {C : Collaborators Host}.
Implicit Types (options : ResolverOptions.t) (records : list HnsRecord.t).

Lemma head_filter_elem {A} (P : A → Prop) `{∀ x, Decision (P x)} (xs : list A) x :
  head (filter P xs) = Some x → x ∈ xs ∧ P x.
Proof.
  intros Hhead. assert (Hin : x ∈ filter P xs).
  { destruct (filter P xs) as [|y ys]; [done|]. injection Hhead as ->. by left. }
  apply list_elem_of_filter in Hin. tauto.
Qed.

(** X16: the priority pick of [findNameserver].  The record it returns is
    a record of the set, of kind SYNTH4, SYNTH6, GLUE4, GLUE6 or NS, and an
    NS record only when it is not HIP-5.  A synthesized record anywhere in
    the set beats every glue and NS record, and a glue record beats every NS
    record, whatever their order.  With neither, only the first NS record is
    looked at: when it is HIP-5 nothing is picked, even if a later NS record
    is not HIP-5. *)
Theorem findNameserver_priority records options :
  let kind_in kinds := fun record : HnsRecord.t => HnsRecord.type record ∈ kinds in
  (∀ picked, Priority.findNameserver records options = Some picked →
     picked ∈ records
     ∧ kind_in ["SYNTH4"; "SYNTH6"; "GLUE4"; "GLUE6"; "NS"] picked
     ∧ (HnsRecord.type picked = "NS" → Resolver.isNSHip5 picked options = false))
  ∧ (∀ record, record ∈ records → kind_in ["SYNTH4"; "SYNTH6"] record →
       ∃ picked, Priority.findNameserver records options = Some picked
                 ∧ kind_in ["SYNTH4"; "SYNTH6"] picked)
  ∧ (∀ record, record ∈ records → kind_in ["GLUE4"; "GLUE6"] record →
       ∃ picked, Priority.findNameserver records options = Some picked
                 ∧ kind_in ["SYNTH4"; "SYNTH6"; "GLUE4"; "GLUE6"] picked)
  ∧ ((∀ record, record ∈ records →
        ¬ kind_in ["SYNTH4"; "SYNTH6"; "GLUE4"; "GLUE6"] record) →
     Priority.findNameserver records options =
       match head (filter (fun record => HnsRecord.type record = "NS") records) with
       | Some first =>
           if Resolver.isNSHip5 first options then None else Some first
       | None => None
       end).
Proof.
  intros kind_in. subst kind_in. cbv beta.
  assert (Hpick : ∀ kind picked,
    head (filter (fun record => HnsRecord.type record = kind) records) = Some picked →
    picked ∈ records ∧ HnsRecord.type picked = kind).
  { intros kind picked Hh.
    by apply (head_filter_elem (fun record => HnsRecord.type record = kind)) in Hh. }
  assert (Hhead : ∀ kind record, record ∈ records → HnsRecord.type record = kind →
    ∃ picked found,
      filter (fun record => HnsRecord.type record = kind) records = picked :: found
      ∧ HnsRecord.type picked = kind).
  { intros kind record Hin Hkind.
    assert (Hr : record ∈ filter (fun record => HnsRecord.type record = kind) records)
      by (by apply list_elem_of_filter).
    destruct (filter _ records) as [|picked found] eqn:Hf; [by apply elem_of_nil in Hr|].
    exists picked, found. split; [done|].
    assert (Hp : picked ∈ filter (fun record => HnsRecord.type record = kind) records)
      by (rewrite Hf; by left).
    by apply list_elem_of_filter in Hp as [? _]. }
  assert (Hnone : ∀ kind, (∀ record, record ∈ records → HnsRecord.type record ≠ kind) →
    filter (fun record => HnsRecord.type record = kind) records = []).
  { intros kind Hk. destruct (filter _ records) as [|r found] eqn:Hf; [done|].
    assert (Hr : r ∈ filter (fun record => HnsRecord.type record = kind) records)
      by (rewrite Hf; by left).
    apply list_elem_of_filter in Hr as [? Hr]. by destruct (Hk r Hr). }
  unfold Priority.findNameserver. cbv zeta. rewrite !findRecordsByType_run.
  split; [|split; [|split]].
  - intros picked.
    destruct (filter (fun record => HnsRecord.type record = "SYNTH4") records)
      as [|s4 l4] eqn:H4.
    2: { cbn. intros [= <-]. destruct (Hpick "SYNTH4" s4) as [? Hk]; [by rewrite H4|].
         rewrite Hk. split; [done|]. split; [by left | done]. }
    destruct (filter (fun record => HnsRecord.type record = "SYNTH6") records)
      as [|s6 l6] eqn:H6.
    2: { cbn. intros [= <-]. destruct (Hpick "SYNTH6" s6) as [? Hk]; [by rewrite H6|].
         rewrite Hk. split; [done|]. split; [by right; left | done]. }
    destruct (filter (fun record => HnsRecord.type record = "GLUE4") records)
      as [|g4 m4] eqn:G4.
    2: { cbn. intros [= <-]. destruct (Hpick "GLUE4" g4) as [? Hk]; [by rewrite G4|].
         rewrite Hk. split; [done|]. split; [by right; right; left | done]. }
    destruct (filter (fun record => HnsRecord.type record = "GLUE6") records)
      as [|g6 m6] eqn:G6.
    2: { cbn. intros [= <-]. destruct (Hpick "GLUE6" g6) as [? Hk]; [by rewrite G6|].
         rewrite Hk. split; [done|]. split; [by right; right; right; left | done]. }
    cbn.
    destruct (filter (fun record => HnsRecord.type record = "NS") records)
      as [|first l] eqn:HN; [done|].
    destruct (Resolver.isNSHip5 first options) eqn:Hhip5; [done|].
    cbn. intros [= <-]. destruct (Hpick "NS" first) as [? Hk]; [by rewrite HN|].
    rewrite Hk. split; [done|].
    split; [by right; right; right; right; left | done].
  - intros record Hin Hkind. rewrite !elem_of_cons, elem_of_nil in Hkind.
    destruct (filter (fun record => HnsRecord.type record = "SYNTH4") records)
      as [|s4 l4] eqn:H4.
    2: { exists s4. cbn. split; [done|].
         destruct (Hpick "SYNTH4" s4) as [_ ->]; [by rewrite H4 | by left]. }
    destruct Hkind as [Hk | [Hk | []]].
    { destruct (Hhead "SYNTH4" record Hin Hk) as (? & ? & Hf & _). congruence. }
    destruct (Hhead "SYNTH6" record Hin Hk) as (s6 & l6 & -> & Hk6).
    exists s6. cbn. split; [done|]. rewrite Hk6. by right; left.
  - intros record Hin Hkind. rewrite !elem_of_cons, elem_of_nil in Hkind.
    destruct (filter (fun record => HnsRecord.type record = "SYNTH4") records)
      as [|s4 l4] eqn:H4.
    2: { exists s4. cbn. split; [done|].
         destruct (Hpick "SYNTH4" s4) as [_ ->]; [by rewrite H4 | by left]. }
    destruct (filter (fun record => HnsRecord.type record = "SYNTH6") records)
      as [|s6 l6] eqn:H6.
    2: { exists s6. cbn. split; [done|].
         destruct (Hpick "SYNTH6" s6) as [_ ->]; [by rewrite H6 | by right; left]. }
    destruct (filter (fun record => HnsRecord.type record = "GLUE4") records)
      as [|g4 m4] eqn:G4.
    2: { exists g4. cbn. split; [done|].
         destruct (Hpick "GLUE4" g4) as [_ ->];
           [by rewrite G4 | by right; right; left]. }
    destruct Hkind as [Hk | [Hk | []]].
    { destruct (Hhead "GLUE4" record Hin Hk) as (? & ? & Hf & _). congruence. }
    destruct (Hhead "GLUE6" record Hin Hk) as (g6 & m6 & -> & Hk6).
    exists g6. cbn. split; [done|]. rewrite Hk6. by right; right; right; left.
  - intros Hno.
    assert (Hk : ∀ kind, kind ∈ ["SYNTH4"; "SYNTH6"; "GLUE4"; "GLUE6"] →
      filter (fun record => HnsRecord.type record = kind) records = []).
    { intros kind Hkind. apply Hnone. intros record Hin Heq.
      apply (Hno record Hin). by rewrite Heq. }
    rewrite (Hk "SYNTH4"), (Hk "SYNTH6"), (Hk "GLUE4"), (Hk "GLUE6")
      by (rewrite !elem_of_cons; tauto).
    cbn.
    destruct (filter (fun record => HnsRecord.type record = "NS") records)
      as [|first l]; [done|].
    cbn. by destruct (Resolver.isNSHip5 first options).
Qed.
End PriorityPick.


(** ** The properties on explicit inputs *)
Section Examples.
Import Sample.

(** A blacklist is decided by evaluating it. *)
Ltac evaluate := apply (bool_decide_unpack _); vm_compute; exact I.

(** The scenarios of the specification, evaluated through [resolve]. *)
Example scenario_B_synth4 :
  let c := collaborators [] ["com"]
             (Some [HnsRecord.mk "SYNTH4" "1.2.3.4" [] ""]) None (fun _ _ => []) in
  (Index.resolve (C := c) "example.hns" (ResolverOptions.mk "A" None) false initial).1 =
    Success [DNSRecord.mk "A" (Some "1.2.3.4")].
Proof. reflexivity. Qed.

Example scenario_C_txt :
  let c := collaborators [] ["com"]
             (Some [HnsRecord.mk "TXT" "" ["v=1"; "hello"] ""]) None (fun _ _ => []) in
  (Index.resolve (C := c) "example.hns" (ResolverOptions.mk "CONTENT" None) false
     initial).1 =
    Success [DNSRecord.mk "TEXT" (Some "hello")].
Proof. reflexivity. Qed.

(** Scenario D: the NS record and then the GLUE4 record itself each make the
    subquery; what the two return is deduplicated. *)
Example scenario_D_glue :
  let c := collaborators [] ["com"]
             (Some [HnsRecord.mk "NS" "" [] "ns1.com";
                    HnsRecord.mk "GLUE4" "9.9.9.9" [] "ns1.com"]) None
             (fun _ _ => [DNSRecord.mk "A" (Some "5.6.7.8")]) in
  let options := ResolverOptions.mk "A" None in
  let result := Index.resolve (C := c) "example.hns" options false initial in
  let subquery :=
    EvResolve "example.hns" (Index.subquery_options options (Some "9.9.9.9"))
      (Some false) in
  result.1 = Success [DNSRecord.mk "A" (Some "5.6.7.8")]
  ∧ trace result.2 = [EvWisdomQuery "hns" false; subquery; subquery].
Proof. by split. Qed.

Example scenario_E_blacklisted :
  let c := collaborators [["eth"]; ["hns"]] ["com"]
             (Some [HnsRecord.mk "SYNTH4" "1.2.3.4" [] ""]) None (fun _ _ => []) in
  Index.resolve (C := c) "example.hns" (ResolverOptions.mk "A" None) false initial =
    (Empty, initial).
Proof. vm_compute. reflexivity. Qed.

(** C1 on an input: the chain publishes an address for the name, the options
    ask for it, and [subquery: true] still gives Empty. *)
Lemma resolve_subquery_true_Empty_witness :
  let c := collaborators [] ["com"]
             (Some [HnsRecord.mk "SYNTH4" "1.2.3.4" [] ""]) None (fun _ _ => []) in
  let inner := InnerOptions.mk (Some true) (Some "9.9.9.9") (Some true) None None in
  let options := ResolverOptions.mk "A" (Some inner) in
  ResolverOptions.options options = Some inner
  ∧ InnerOptions.subquery inner = Some true
  ∧ (Index.resolve (C := c) "example.hns" options true initial).1 = Empty.
Proof.
  cbv zeta. split; [reflexivity|]. split; [reflexivity|].
  eapply resolve_subquery_true_Empty; reflexivity.
Defined.

(** C9 on an input: [subquery: false]. *)
Lemma resolve_subquery_key_Empty_before_fetch_witness :
  let c := collaborators [] ["com"]
             (Some [HnsRecord.mk "SYNTH4" "1.2.3.4" [] ""]) None (fun _ _ => []) in
  let inner := InnerOptions.mk (Some false) None None None None in
  let options := ResolverOptions.mk "A" (Some inner) in
  let result := Index.resolve (C := c) "example.hns" options false initial in
  InnerOptions.subquery inner = Some false
  ∧ result.1 = Empty
  ∧ trace result.2 = []
  ∧ host result.2 = tt
  ∧ ∀ tld force, EvWisdomQuery tld force ∈ trace result.2 →
                 EvWisdomQuery tld force ∈ ([] : list Event).
Proof.
  cbv zeta. split; [reflexivity|].
  eapply resolve_subquery_key_Empty_before_fetch; reflexivity.
Defined.

(** C2 on Scenario D: the NS record [ns1.com] with its glue [9.9.9.9], a
    requested type A. *)
Lemma processNs_glue_delegates_witness :
  let c := collaborators [] ["com"] None None
             (fun _ _ => [DNSRecord.mk "A" (Some "5.6.7.8")]) in
  let ns := HnsRecord.mk "NS" "" [] "ns1.com" in
  let glue4 := HnsRecord.mk "GLUE4" "9.9.9.9" [] "ns1.com" in
  let options := ResolverOptions.mk "A" (Some InnerOptions.empty) in
  let s := with_accumulator in
  let s' := (Index.processNs (C := c) "example.hns" ns 0 [ns; glue4] options false s).2 in
  0 < length (store s)
  ∧ Index.glue_for ns [ns; glue4] = Some glue4
  ∧ isDomain (Collaborators := c) "ns1.com" = true
  ∧ isIp (Collaborators := c) "9.9.9.9" = true
  ∧ subquery_appends (C := c) "example.hns" (Some "9.9.9.9") options (Some false) 0 s s'
  ∧ contents 0 s' = [DNSRecord.mk "A" (Some "5.6.7.8")].
Proof.
  cbv zeta.
  destruct (processNs_glue_delegates
              (C := collaborators [] ["com"] None None
                      (fun _ _ => [DNSRecord.mk "A" (Some "5.6.7.8")]))
              "example.hns" (HnsRecord.mk "NS" "" [] "ns1.com") 0
              [HnsRecord.mk "NS" "" [] "ns1.com";
               HnsRecord.mk "GLUE4" "9.9.9.9" [] "ns1.com"]
              (ResolverOptions.mk "A" (Some InnerOptions.empty)) false
              with_accumulator)
    as (glue & Hfind & _ & _ & _ & _ & Hvalid & _).
  - by left.
  - exists (HnsRecord.mk "GLUE4" "9.9.9.9" [] "ns1.com").
    split; [right; left | split; [by left | reflexivity]].
  - simpl. lia.
  - injection Hfind as <-. cbv zeta in Hvalid.
    split; [simpl; lia|]. split; [reflexivity|].
    split; [reflexivity|]. split; [reflexivity|].
    split; [apply Hvalid; by split | reflexivity].
Defined.

(** C2 without the validity test does not hold: a glue record
    paired with the NS record, whose address is not an IP address.  The glue
    handler makes no subquery, although the host would answer one, and
    nothing is appended. *)
Lemma processNs_glue_invalid_address_no_subquery :
  let c := collaborators [] ["com"] None None
             (fun _ _ => [DNSRecord.mk "A" (Some "5.6.7.8")]) in
  let ns := HnsRecord.mk "NS" "" [] "ns1.com" in
  let glue4 := HnsRecord.mk "GLUE4" "not-an-ip" [] "ns1.com" in
  let options := ResolverOptions.mk "A" (Some InnerOptions.empty) in
  let s := with_accumulator in
  let s' := (Index.processNs (C := c) "example.hns" ns 0 [ns; glue4] options false s).2 in
  Index.glue_for ns [ns; glue4] = Some glue4
  ∧ trace s' = []
  ∧ contents 0 s' = []
  ∧ ¬ subquery_appends (C := c) "example.hns" (Some "not-an-ip") options (Some false) 0 s s'.
Proof.
  cbv zeta. split; [reflexivity|]. split; [reflexivity|]. split; [reflexivity|].
  intros (Htrace & _). vm_compute in Htrace. discriminate Htrace.
Qed.

(** C3 fails on the code: an NS record whose target [_] is no domain, no
    hostname label and not HIP-5, a requested type A, and a host that finds
    nothing for [_].  The handler takes its last branch (the one call is the
    direct resolve of [_]) and pushes the NS record to the array of that
    result, at reference 1; the accumulator, at reference 0, stays empty and
    [resolve] answers Empty. *)
Theorem resolve_fallback_target_not_surfaced :
  let c := collaborators [] ["com"]
             (Some [HnsRecord.mk "NS" "" [] "_"]) None (fun _ _ => []) in
  let options := ResolverOptions.mk "A" None in
  let result := Index.resolve (C := c) "example.xyz" options false initial in
  isDomain (Collaborators := c) "_" = false
  ∧ hostname_label_test "_" = false
  ∧ Index.isHip5 "_" (Index.normalize_options options) = false
  ∧ trace result.2 =
      [EvWisdomQuery "xyz" false;
       EvResolve "_" (Index.normalize_options options) (Some false)]
  ∧ contents 0 result.2 = []
  ∧ contents 1 result.2 = [DNSRecord.mk "NS" (Some "_")]
  ∧ result.1 = Empty.
Proof. cbv zeta. by repeat split. Qed.

(** The last branch on the same record, through the handler alone. *)
Lemma processNs_fallback_misses_accumulator_example :
  let c := collaborators [] ["com"] None None (fun _ _ => []) in
  let ns := HnsRecord.mk "NS" "" [] "_" in
  let options := ResolverOptions.mk "A" (Some InnerOptions.empty) in
  let s' := (Index.processNs (C := c) "example.xyz" ns 0 [ns] options false
               with_accumulator).2 in
  contents 0 s' = [] ∧ contents 1 s' = [DNSRecord.mk "NS" (Some "_")].
Proof.
  cbv zeta.
  destruct (processNs_fallback_misses_accumulator
              (C := collaborators [] ["com"] None None (fun _ _ => []))
              "example.xyz" (HnsRecord.mk "NS" "" [] "_") 0
              [HnsRecord.mk "NS" "" [] "_"]
              (ResolverOptions.mk "A" (Some InnerOptions.empty)) false
              with_accumulator) as (_ & Hacc & Hown); try reflexivity.
  - by left.
  - simpl. lia.
  - by split.
Qed.

(** C4 on an input: an accumulator with a repeated record, and a chain
    that publishes the same address twice. *)
Lemma resolve_responds_deduplicated_witness :
  let a := DNSRecord.mk "A" (Some "1.2.3.4") in
  let b := DNSRecord.mk "A" (Some "5.6.7.8") in
  let synth := HnsRecord.mk "SYNTH4" "1.2.3.4" [] "" in
  let c := collaborators [] ["com"] (Some [synth; synth]) None (fun _ _ => []) in
  let options := ResolverOptions.mk "A" None in
  ensureUniqueRecords [a; b; a] = [a; b]
  ∧ Index.respond [a; b; a] = Success [a; b]
  ∧ passes_guards (C := c) "example.hns" options initial
  ∧ accumulator (C := c) "example.hns" options false initial = [a; a]
  ∧ (Index.resolve (C := c) "example.hns" options false initial).1 = Success [a].
Proof.
  cbv zeta.
  destruct (resolve_responds_deduplicated
              [DNSRecord.mk "A" (Some "1.2.3.4"); DNSRecord.mk "A" (Some "5.6.7.8");
               DNSRecord.mk "A" (Some "1.2.3.4")])
    as (_ & _ & _ & Hsuccess & _).
  destruct (resolve_responds_deduplicated
              [DNSRecord.mk "A" (Some "1.2.3.4"); DNSRecord.mk "A" (Some "1.2.3.4")])
    as (_ & _ & _ & _ & _ & _ & Hresolve).
  assert (Hguards : passes_guards
            (C := collaborators [] ["com"]
                    (Some [HnsRecord.mk "SYNTH4" "1.2.3.4" [] "";
                           HnsRecord.mk "SYNTH4" "1.2.3.4" [] ""]) None (fun _ _ => []))
            "example.hns" (ResolverOptions.mk "A" None) initial).
  { split; [evaluate | by split]. }
  split; [reflexivity|]. split; [by apply Hsuccess|]. split; [exact Hguards|].
  split; [reflexivity|].
  by rewrite (Hresolve _ _ "example.hns" (ResolverOptions.mk "A" None) false initial Hguards).
Defined.

(** C5 on Scenario A: the chain publishes the one record
    [{NS, ns: "ns1.com"}] and the requested type is NS. *)
Lemma processNs_NS_verbatim_witness :
  let ns := HnsRecord.mk "NS" "" [] "ns1.com" in
  let c := collaborators [["eth"]] ["com"] (Some [ns]) None (fun _ _ => []) in
  let options := ResolverOptions.mk "NS" None in
  let s := with_accumulator in
  ResolverOptions.type options = "NS"
  ∧ 0 < length (store s)
  ∧ passes_guards (C := c) "example.hns" options s
  ∧ fetched (C := c) "example.hns" false s = [ns]
  ∧ only_pushes 0 [DNSRecord.mk "NS" (Some "ns1.com")] s
      (Index.processNs (C := c) "example.hns" ns 0 [ns] options false s).2
  ∧ (Index.resolve (C := c) "example.hns" options false s).1 =
      Success [DNSRecord.mk "NS" (Some "ns1.com")].
Proof.
  cbv zeta.
  destruct (processNs_NS_verbatim
              (C := collaborators [["eth"]] ["com"]
                      (Some [HnsRecord.mk "NS" "" [] "ns1.com"]) None (fun _ _ => []))
              "example.hns" (HnsRecord.mk "NS" "" [] "ns1.com") 0
              [HnsRecord.mk "NS" "" [] "ns1.com"]
              (ResolverOptions.mk "NS" None) false with_accumulator eq_refl)
    as [Hpush Hresolve].
  assert (Hguards : passes_guards
            (C := collaborators [["eth"]] ["com"]
                    (Some [HnsRecord.mk "NS" "" [] "ns1.com"]) None (fun _ _ => []))
            "example.hns" (ResolverOptions.mk "NS" None) with_accumulator).
  { split; [evaluate | by split]. }
  split; [reflexivity|]. split; [simpl; lia|]. split; [exact Hguards|].
  split; [reflexivity|]. split.
  - apply Hpush. simpl. lia.
  - by apply Hresolve.
Defined.

(** C6 on inputs: a chain query that reports [connection refused], and
    Scenario F, a chain that publishes an empty record set. *)
Lemma resolve_fetch_error_or_empty_witness :
  let failing := collaborators [["eth"]] ["com"] None (Some "connection refused")
                   (fun _ _ => []) in
  let empty := collaborators [["eth"]] ["com"] (Some []) None (fun _ _ => []) in
  let options := ResolverOptions.mk "A" None in
  (getTld (Collaborators := failing) "example.hns" ∉ blacklist_of (C := failing) tt)
  ∧ isIp (Collaborators := failing) "example.hns" = false
  ∧ Resolver.resolve (C := failing) "example.hns" options false initial =
      (Error "connection refused", mkState tt [] [EvClientQuery "hns"])
  ∧ Resolver.resolve (C := empty) "example.hns" options false initial =
      (Empty, mkState tt [] [EvClientQuery "hns"])
  ∧ (Index.resolve (C := empty) "example.hns" options false initial).1 = Empty
  ∧ trace (Index.resolve (C := empty) "example.hns" options false initial).2 =
      [EvWisdomQuery "hns" false].
Proof.
  cbv zeta.
  assert (Hbl : ∀ chain chain_error,
    getTld (Collaborators := collaborators [["eth"]] ["com"] chain chain_error (fun _ _ => []))
      "example.hns"
    ∉ blacklist_of (C := collaborators [["eth"]] ["com"] chain chain_error (fun _ _ => []))
        tt).
  { intros chain chain_error. evaluate. }
  destruct (resolve_fetch_error_or_empty
              (C := collaborators [["eth"]] ["com"] None (Some "connection refused")
                      (fun _ _ => []))
              "example.hns" (ResolverOptions.mk "A" None) false initial
              (Hbl _ _) eq_refl) as (Herror & _ & _).
  destruct (resolve_fetch_error_or_empty
              (C := collaborators [["eth"]] ["com"] (Some []) None (fun _ _ => []))
              "example.hns" (ResolverOptions.mk "A" None) false initial
              (Hbl _ _) eq_refl) as (_ & Hempty & Hindex).
  split; [apply Hbl|]. split; [reflexivity|].
  split; [by apply Herror|]. split; [apply Hempty; [reflexivity | by right]|].
  apply Hindex; [reflexivity | by right].
Defined.

(** C7 on inputs: Scenario B, a SYNTH4 record under a requested type A with
    [ipv6] unset, and a SYNTH6 record with [ipv6: true] and with [ipv6]
    unset. *)
Lemma dispatch_synth_emits_A_witness :
  let c := collaborators [] ["com"] None None (fun _ _ => []) in
  let synth4 := HnsRecord.mk "SYNTH4" "1.2.3.4" [] "" in
  let synth6 := HnsRecord.mk "SYNTH6" "2001:db8::1" [] "" in
  let plain := ResolverOptions.mk "A" None in
  let v6 := ResolverOptions.mk "A"
              (Some (InnerOptions.mk None None (Some true) None None)) in
  let s := with_accumulator in
  0 < length (store s)
  ∧ only_pushes 0 [DNSRecord.mk "A" (Some "1.2.3.4")] s
      (Index.dispatch (C := c) "example.hns" 0 [synth4]
         (Index.normalize_options plain) false synth4 s).2
  ∧ only_pushes 0 [DNSRecord.mk "A" (Some "2001:db8::1")] s
      (Index.dispatch (C := c) "example.hns" 0 [synth6]
         (Index.normalize_options v6) false synth6 s).2
  ∧ (Index.dispatch (C := c) "example.hns" 0 [synth6]
       (Index.normalize_options plain) false synth6 s).2 = s.
Proof.
  cbv zeta.
  assert (Hl : 0 < length (store with_accumulator)) by (simpl; lia).
  split; [exact Hl|]. split; [|split].
  - destruct (dispatch_synth_emits_A
                (C := collaborators [] ["com"] None None (fun _ _ => []))
                "example.hns" 0 [HnsRecord.mk "SYNTH4" "1.2.3.4" [] ""]
                (ResolverOptions.mk "A" None) false
                (HnsRecord.mk "SYNTH4" "1.2.3.4" [] "") with_accumulator Hl)
      as [H4 _].
    by apply H4.
  - destruct (dispatch_synth_emits_A
                (C := collaborators [] ["com"] None None (fun _ _ => []))
                "example.hns" 0 [HnsRecord.mk "SYNTH6" "2001:db8::1" [] ""]
                (ResolverOptions.mk "A"
                   (Some (InnerOptions.mk None None (Some true) None None))) false
                (HnsRecord.mk "SYNTH6" "2001:db8::1" [] "") with_accumulator Hl)
      as [_ H6].
    by apply H6.
  - destruct (dispatch_synth_emits_A
                (C := collaborators [] ["com"] None None (fun _ _ => []))
                "example.hns" 0 [HnsRecord.mk "SYNTH6" "2001:db8::1" [] ""]
                (ResolverOptions.mk "A" None) false
                (HnsRecord.mk "SYNTH6" "2001:db8::1" [] "") with_accumulator Hl)
      as [_ H6].
    apply H6; [done | by right; right].
Defined.

(** C8 on inputs: the targets [foo.eth], [foo.com] and [eth], with no
    extension supplied by the caller. *)
Lemma hip5_classification_witness :
  let c := collaborators [] ["com"] None None (fun _ _ => []) in
  let options := ResolverOptions.mk "A" None in
  let named ns := HnsRecord.mk "NS" "" [] ns in
  Resolver.isNSHip5 (C := c) (named "foo.eth") options = true
  ∧ ("com" ∉ Index.hip5_of options)
  ∧ Resolver.isNSHip5 (C := c) (named "foo.com") options = false
  ∧ Resolver.isNSHip5 (C := c) (named "eth") options = false.
Proof.
  cbv zeta.
  pose proof (fun ns =>
    hip5_classification
      (C := collaborators [] ["com"] None None (fun _ _ => []))
      (HnsRecord.mk "NS" "" [] ns) (ResolverOptions.mk "A" None)) as Hclass.
  cbv zeta in Hclass.
  destruct (Hclass "foo.eth") as (_ & _ & Heth & _ & _).
  destruct (Hclass "foo.com") as (_ & _ & _ & Hcom & _).
  destruct (Hclass "eth") as (_ & _ & _ & _ & Hsingle).
  split; [by apply Heth|]. split; [apply not_elem_of_nil|].
  split; [apply Hcom; [reflexivity | apply not_elem_of_nil] | by apply Hsingle].
Defined.

(** C10 on Scenario C: the TXT record [["v=1", "hello"]] under a requested
    type CONTENT. *)
Lemma processTxt_emits_text_witness :
  let txt := HnsRecord.mk "TXT" "" ["v=1"; "hello"] "" in
  let content := ResolverOptions.mk "CONTENT" (Some InnerOptions.empty) in
  let address := ResolverOptions.mk "A" (Some InnerOptions.empty) in
  let s := with_accumulator in
  0 < length (store s)
  ∧ only_pushes 0 [DNSRecord.mk "TEXT" (Some "hello")] s
      (Index.processTxt txt 0 content s).2
  ∧ (Index.processTxt txt 0 address s).2 = s.
Proof.
  cbv zeta.
  assert (Hl : 0 < length (store with_accumulator)) by (simpl; lia).
  split; [exact Hl|]. split.
  - destruct (processTxt_emits_text
                (HnsRecord.mk "TXT" "" ["v=1"; "hello"] "") 0
                (ResolverOptions.mk "CONTENT" (Some InnerOptions.empty))
                with_accumulator Hl) as [Hpush _].
    apply Hpush. by right.
  - destruct (processTxt_emits_text
                (HnsRecord.mk "TXT" "" ["v=1"; "hello"] "") 0
                (ResolverOptions.mk "A" (Some InnerOptions.empty))
                with_accumulator Hl) as [_ Hnone].
    by apply Hnone.
Defined.
End Examples.

(** ** The further properties on explicit inputs *)
Section FurtherExamples.
Import Sample.

Ltac by_evaluation := apply (bool_decide_unpack _); vm_compute; exact I.
Ltac sample_guards := split; [by_evaluation | by split].

(** X1 on Scenario D: the chain query, then the two subqueries. *)
Lemma resolve_calls_are_delegations_witness :
  let chain := [HnsRecord.mk "NS" "" [] "ns1.com";
                HnsRecord.mk "GLUE4" "9.9.9.9" [] "ns1.com"] in
  let c := collaborators [["eth"]] ["com"] (Some chain) None
             (fun _ _ => [DNSRecord.mk "A" (Some "5.6.7.8")]) in
  let options := ResolverOptions.mk "A" None in
  passes_guards (C := c) "example.hns" options initial
  ∧ ∃ events,
      trace (Index.resolve (C := c) "example.hns" options false initial).2 =
        [] ++ EvWisdomQuery "hns" false :: events
      ∧ Forall (delegation_call (C := c) "example.hns"
                  (Index.normalize_options options) false
                  (fetched (C := c) "example.hns" false initial)) events
      ∧ ∀ tld force, EvWisdomQuery tld force ∉ events.
Proof.
  cbv zeta. split; [sample_guards|].
  apply (resolve_calls_are_delegations
           (C := collaborators [["eth"]] ["com"]
                   (Some [HnsRecord.mk "NS" "" [] "ns1.com";
                          HnsRecord.mk "GLUE4" "9.9.9.9" [] "ns1.com"]) None
                   (fun _ _ => [DNSRecord.mk "A" (Some "5.6.7.8")]))
           "example.hns" (ResolverOptions.mk "A" None) false initial).
  sample_guards.
Defined.

(** X2 on an input: a synthesized address behind an NS record for which
    the host finds an address of its own. *)
Lemma resolve_keeps_own_records_witness :
  let synth := HnsRecord.mk "SYNTH4" "1.2.3.4" [] "" in
  let chain := [HnsRecord.mk "NS" "" [] "ns1.com"; synth] in
  let c := collaborators [] ["com"] (Some chain) None
             (fun _ _ => [DNSRecord.mk "A" (Some "5.6.7.8")]) in
  let options := ResolverOptions.mk "A" None in
  passes_guards (C := c) "example.hns" options initial
  ∧ synth ∈ fetched (C := c) "example.hns" false initial
  ∧ ∃ payload,
      (Index.resolve (C := c) "example.hns" options false initial).1 = Success payload
      ∧ DNSRecord.mk "A" (Some "1.2.3.4") ∈ payload.
Proof.
  cbv zeta. split; [sample_guards|]. split; [by right; left|].
  apply (resolve_keeps_own_records
           (C := collaborators [] ["com"]
                   (Some [HnsRecord.mk "NS" "" [] "ns1.com";
                          HnsRecord.mk "SYNTH4" "1.2.3.4" [] ""]) None
                   (fun _ _ => [DNSRecord.mk "A" (Some "5.6.7.8")]))
           "example.hns" (ResolverOptions.mk "A" None) false initial
           (HnsRecord.mk "SYNTH4" "1.2.3.4" [] "")).
  - sample_guards.
  - by right; left.
  - left. by repeat split.
Defined.

(** X3 on an input: two NS records around their glue, asked for NS. *)
Lemma resolve_NS_query_is_local_witness :
  let chain := [HnsRecord.mk "NS" "" [] "ns1.com";
                HnsRecord.mk "GLUE4" "9.9.9.9" [] "ns1.com";
                HnsRecord.mk "NS" "" [] "ns2.eth"] in
  let c := collaborators [] ["com"] (Some chain) None
             (fun _ _ => [DNSRecord.mk "A" (Some "5.6.7.8")]) in
  let options := ResolverOptions.mk "NS" None in
  let result := Index.resolve (C := c) "example.hns" options true initial in
  passes_guards (C := c) "example.hns" options initial
  ∧ ResolverOptions.type options = "NS"
  ∧ result.1 = Success [DNSRecord.mk "NS" (Some "ns1.com");
                        DNSRecord.mk "NS" (Some "ns2.eth")]
  ∧ trace result.2 = [EvWisdomQuery "hns" true].
Proof.
  cbv zeta. split; [sample_guards|]. split; [reflexivity|].
  destruct (resolve_NS_query_is_local
              (C := collaborators [] ["com"]
                      (Some [HnsRecord.mk "NS" "" [] "ns1.com";
                             HnsRecord.mk "GLUE4" "9.9.9.9" [] "ns1.com";
                             HnsRecord.mk "NS" "" [] "ns2.eth"]) None
                      (fun _ _ => [DNSRecord.mk "A" (Some "5.6.7.8")]))
              "example.hns" (ResolverOptions.mk "NS" None) true initial)
    as (_ & Hresult & Htrace); [sample_guards | reflexivity |].
  split; [exact Hresult | exact Htrace].
Defined.

(** X4 on an input: two TXT records asked for TEXT. *)
Lemma resolve_content_query_is_local_witness :
  let chain := [HnsRecord.mk "TXT" "" ["v=1"; "hello"] "";
                HnsRecord.mk "NS" "" [] "ns1.com";
                HnsRecord.mk "TXT" "" ["world"] ""] in
  let c := collaborators [] ["com"] (Some chain) None
             (fun _ _ => [DNSRecord.mk "A" (Some "5.6.7.8")]) in
  let options := ResolverOptions.mk "TEXT" None in
  let result := Index.resolve (C := c) "example.hns" options false initial in
  passes_guards (C := c) "example.hns" options initial
  ∧ result.1 = Success [DNSRecord.mk "TEXT" (Some "hello");
                        DNSRecord.mk "TEXT" (Some "world")]
  ∧ trace result.2 = [EvWisdomQuery "hns" false].
Proof.
  cbv zeta. split; [sample_guards|].
  destruct (resolve_content_query_is_local
              (C := collaborators [] ["com"]
                      (Some [HnsRecord.mk "TXT" "" ["v=1"; "hello"] "";
                             HnsRecord.mk "NS" "" [] "ns1.com";
                             HnsRecord.mk "TXT" "" ["world"] ""]) None
                      (fun _ _ => [DNSRecord.mk "A" (Some "5.6.7.8")]))
              "example.hns" (ResolverOptions.mk "TEXT" None) false initial)
    as (_ & Hresult & Htrace); [sample_guards | by left |].
  split; [exact Hresult | exact Htrace].
Defined.

(** X5 on an input: a request for MX records. *)
Lemma resolve_unserved_type_Empty_witness :
  let chain := [HnsRecord.mk "SYNTH4" "1.2.3.4" [] "";
                HnsRecord.mk "NS" "" [] "ns1.com";
                HnsRecord.mk "TXT" "" ["hello"] ""] in
  let c := collaborators [] ["com"] (Some chain) None
             (fun _ _ => [DNSRecord.mk "A" (Some "5.6.7.8")]) in
  let options := ResolverOptions.mk "MX" None in
  let result := Index.resolve (C := c) "example.hns" options false initial in
  passes_guards (C := c) "example.hns" options initial
  ∧ ("MX" ∉ ["A"; "CNAME"; "NS"; "TEXT"; "CONTENT"])
  ∧ result.1 = Empty
  ∧ trace result.2 = [EvWisdomQuery "hns" false].
Proof.
  cbv zeta. split; [sample_guards|]. split; [by_evaluation|].
  destruct (resolve_unserved_type_Empty
              (C := collaborators [] ["com"]
                      (Some [HnsRecord.mk "SYNTH4" "1.2.3.4" [] "";
                             HnsRecord.mk "NS" "" [] "ns1.com";
                             HnsRecord.mk "TXT" "" ["hello"] ""]) None
                      (fun _ _ => [DNSRecord.mk "A" (Some "5.6.7.8")]))
              "example.hns" (ResolverOptions.mk "MX" None) false initial)
    as (Hresult & _ & Htrace); [sample_guards | by_evaluation |].
  split; [exact Hresult | exact Htrace].
Defined.

(** X6 on an input: the target [ns1.com], with [com] in the ICANN list. *)
Lemma processNs_icann_target_subquery_witness :
  let ns := HnsRecord.mk "NS" "" [] "ns1.com" in
  let c := collaborators [] ["com"] None None
             (fun _ _ => [DNSRecord.mk "A" (Some "5.6.7.8")]) in
  let options := ResolverOptions.mk "A" (Some InnerOptions.empty) in
  let s := with_accumulator in
  let s' := (Index.processNs (C := c) "example.hns" ns 0 [ns] options true s).2 in
  Index.glue_for ns [ns] = None
  ∧ Index.isHip5 "ns1.com" options = false
  ∧ last (split dot "ns1.com") = Some "com"
  ∧ subquery_appends (C := c) "example.hns" (Some "ns1.com") options None 0 s s'
  ∧ trace s' =
      [EvResolve "example.hns" (Index.subquery_options options (Some "ns1.com")) None]
  ∧ contents 0 s' = [DNSRecord.mk "A" (Some "5.6.7.8")].
Proof.
  cbv zeta. split; [reflexivity|]. split; [reflexivity|]. split; [reflexivity|].
  split; [|by split].
  apply (processNs_icann_target_subquery
           (C := collaborators [] ["com"] None None
                   (fun _ _ => [DNSRecord.mk "A" (Some "5.6.7.8")]))
           "example.hns" (HnsRecord.mk "NS" "" [] "ns1.com") 0
           [HnsRecord.mk "NS" "" [] "ns1.com"]
           (ResolverOptions.mk "A" (Some InnerOptions.empty)) true with_accumulator
           "com"); try reflexivity.
  - by left.
  - by left.
  - simpl. lia.
Defined.

(** X7 on an input: the chain-rooted target [ns1], for which the host finds
    two addresses; the subquery names the last of them. *)
Lemma processNs_chain_target_resolves_then_subqueries_witness :
  let ns := HnsRecord.mk "NS" "" [] "ns1" in
  let found := [DNSRecord.mk "A" (Some "10.0.0.1"); DNSRecord.mk "A" (Some "10.0.0.2")] in
  let c := collaborators [] ["com"] None None
             (Script.by_name "ns1" found [DNSRecord.mk "A" (Some "5.6.7.8")]) in
  let options := ResolverOptions.mk "A" (Some InnerOptions.empty) in
  let s := with_accumulator in
  let s' := (Index.processNs (C := c) "example.hns" ns 0 [ns] options true s).2 in
  Index.glue_for ns [ns] = None
  ∧ includes_char dot "ns1" = false
  ∧ found ≠ []
  ∧ trace s' =
      [EvResolve "ns1" options None;
       EvResolve "example.hns" (Index.subquery_options options (Some "10.0.0.2")) None]
  ∧ host s' = tt
  ∧ contents 0 s' = [DNSRecord.mk "A" (Some "5.6.7.8")].
Proof.
  cbv zeta. split; [reflexivity|]. split; [reflexivity|]. split; [discriminate|].
  destruct (processNs_chain_target_resolves_then_subqueries
              (C := collaborators [] ["com"] None None
                      (Script.by_name "ns1"
                         [DNSRecord.mk "A" (Some "10.0.0.1");
                          DNSRecord.mk "A" (Some "10.0.0.2")]
                         [DNSRecord.mk "A" (Some "5.6.7.8")]))
              "example.hns" (HnsRecord.mk "NS" "" [] "ns1") 0
              [HnsRecord.mk "NS" "" [] "ns1"]
              (ResolverOptions.mk "A" (Some InnerOptions.empty)) true with_accumulator)
    as [_ Hfound]; try reflexivity.
  - by left.
  - by left.
  - simpl. lia.
  - apply Hfound. discriminate.
Defined.

(** X8 on an input: the HIP-5 target [vitalik.eth]. *)
Lemma processNs_hip5_target_resolved_directly_witness :
  let ns := HnsRecord.mk "NS" "" [] "vitalik.eth" in
  let c := collaborators [] ["com"] None None
             (fun _ _ => [DNSRecord.mk "A" (Some "5.6.7.8")]) in
  let options := ResolverOptions.mk "A" (Some InnerOptions.empty) in
  let s := with_accumulator in
  let s' := (Index.processNs (C := c) "example.hns" ns 0 [ns] options true s).2 in
  Index.glue_for ns [ns] = None
  ∧ Index.isHip5 "vitalik.eth" options = true
  ∧ trace s' = [EvResolve "vitalik.eth" options (Some true)]
  ∧ host s' = tt
  ∧ contents 0 s' = [DNSRecord.mk "A" (Some "5.6.7.8")].
Proof.
  cbv zeta. split; [reflexivity|]. split; [reflexivity|].
  apply (processNs_hip5_target_resolved_directly
           (C := collaborators [] ["com"] None None
                   (fun _ _ => [DNSRecord.mk "A" (Some "5.6.7.8")]))
           "example.hns" (HnsRecord.mk "NS" "" [] "vitalik.eth") 0
           [HnsRecord.mk "NS" "" [] "vitalik.eth"]
           (ResolverOptions.mk "A" (Some InnerOptions.empty)) true with_accumulator);
    try reflexivity.
  - by left.
  - simpl. lia.
Defined.

(** X9 on Scenario E: the label [hns] is claimed by a sibling resolver. *)
Lemma resolve_refuses_claimed_or_literal_witness :
  let c := collaborators [["eth"]; ["sol"; "hns"]] ["com"]
             (Some [HnsRecord.mk "SYNTH4" "1.2.3.4" [] ""]) None (fun _ _ => []) in
  let options := ResolverOptions.mk "A" None in
  (∃ tlds, tlds ∈ supportedTlds (Collaborators := c) tt
           ∧ getTld (Collaborators := c) "example.hns" ∈ tlds)
  ∧ Index.resolve (C := c) "example.hns" options false initial = (Empty, initial)
  ∧ Resolver.resolve (C := c) "example.hns" options false initial = (Empty, initial).
Proof.
  cbv zeta.
  assert (Hclaimed : ∃ tlds,
    tlds ∈ supportedTlds
             (Collaborators := collaborators [["eth"]; ["sol"; "hns"]] ["com"]
                (Some [HnsRecord.mk "SYNTH4" "1.2.3.4" [] ""]) None (fun _ _ => [])) tt
    ∧ getTld
        (Collaborators := collaborators [["eth"]; ["sol"; "hns"]] ["com"]
           (Some [HnsRecord.mk "SYNTH4" "1.2.3.4" [] ""]) None (fun _ _ => []))
        "example.hns" ∈ tlds).
  { exists ["sol"; "hns"]. split; [by right; left | by right; left]. }
  split; [exact Hclaimed|].
  apply (resolve_refuses_claimed_or_literal
           (C := collaborators [["eth"]; ["sol"; "hns"]] ["com"]
                   (Some [HnsRecord.mk "SYNTH4" "1.2.3.4" [] ""]) None (fun _ _ => []))
           "example.hns" (ResolverOptions.mk "A" None) false initial).
  by left.
Defined.

(** X11 on an input: the NS records of a set, and a type it does not hold. *)
Lemma findRecordsByType_spec_witness :
  let ns1 := HnsRecord.mk "NS" "" [] "ns1.com" in
  let ns2 := HnsRecord.mk "NS" "" [] "ns2.com" in
  let set := [ns1; HnsRecord.mk "TXT" "" ["hello"] ""; ns2] in
  Resolver.findRecordsByType set "NS" = Some [ns1; ns2]
  ∧ [ns1; ns2] = filter (fun record => HnsRecord.type record = "NS") set
  ∧ (∀ record, record ∈ set → HnsRecord.type record ≠ "GLUE4")
  ∧ Resolver.findRecordsByType set "GLUE4" = None.
Proof.
  cbv zeta. split; [reflexivity|].
  assert (Hnone : ∀ record : HnsRecord.t,
    record ∈ [HnsRecord.mk "NS" "" [] "ns1.com"; HnsRecord.mk "TXT" "" ["hello"] "";
              HnsRecord.mk "NS" "" [] "ns2.com"] →
    HnsRecord.type record ≠ "GLUE4").
  { intros record Hin. rewrite !elem_of_cons, elem_of_nil in Hin.
    destruct Hin as [-> | [-> | [-> | []]]]; discriminate. }
  destruct (findRecordsByType_spec
              [HnsRecord.mk "NS" "" [] "ns1.com"; HnsRecord.mk "TXT" "" ["hello"] "";
               HnsRecord.mk "NS" "" [] "ns2.com"] "NS") as [_ Hsome].
  destruct (findRecordsByType_spec
              [HnsRecord.mk "NS" "" [] "ns1.com"; HnsRecord.mk "TXT" "" ["hello"] "";
               HnsRecord.mk "NS" "" [] "ns2.com"] "GLUE4") as [[_ Hnone'] _].
  split; [by apply (Hsome _ eq_refl)|]. split; [exact Hnone | by apply Hnone'].
Defined.

(** X12 on an input: a CONTENT request on a set with a HIP-5 NS record and
    two TXT records. *)
Lemma processRecords_content_wins_witness :
  let txt := HnsRecord.mk "TXT" "" ["v=1"; "hello"] "" in
  let set := [HnsRecord.mk "NS" "" [] "vitalik.eth"; txt;
              HnsRecord.mk "TXT" "" ["world"] ""] in
  let c := collaborators [] ["com"] None None
             (fun _ _ => [DNSRecord.mk "A" (Some "5.6.7.8")]) in
  let options := ResolverOptions.mk "CONTENT" (Some InnerOptions.empty) in
  txt ∈ set
  ∧ Resolver.processRecords (C := c) set options "example.hns" false initial =
      ([DNSRecord.mk "CONTENT" (Some "hello"); DNSRecord.mk "CONTENT" (Some "world")],
       initial).
Proof.
  cbv zeta. split; [by right; left|].
  by apply (processRecords_content_wins
              (C := collaborators [] ["com"] None None
                      (fun _ _ => [DNSRecord.mk "A" (Some "5.6.7.8")]))
              [HnsRecord.mk "NS" "" [] "vitalik.eth";
               HnsRecord.mk "TXT" "" ["v=1"; "hello"] "";
               HnsRecord.mk "TXT" "" ["world"] ""]
              (ResolverOptions.mk "CONTENT" (Some InnerOptions.empty)) "example.hns"
              false initial (HnsRecord.mk "TXT" "" ["v=1"; "hello"] ""));
    [reflexivity | right; left | reflexivity].
Defined.

(** X13 on an input: an A request on a set with a synthesized address and a
    TXT record, and a DNS client that would answer. *)
Lemma processRecords_txt_shadows_addresses_witness :
  let txt := HnsRecord.mk "TXT" "" ["hello"] "" in
  let set := [HnsRecord.mk "SYNTH4" "1.2.3.4" [] "";
              HnsRecord.mk "NS" "" [] "ns1.com"; txt] in
  let c := Script.with_dns [DnsAnswer.mk (Some "5.6.7.8")]
             (collaborators [] ["com"] None None (fun _ _ => [])) in
  let options := ResolverOptions.mk "A" (Some InnerOptions.empty) in
  txt ∈ set
  ∧ (∀ record, record ∈ set → HnsRecord.type record = "NS" →
               Resolver.isNSHip5 (C := c) record options = false)
  ∧ Resolver.processRecords (C := c) set options "example.hns" false initial =
      ([], initial).
Proof.
  cbv zeta.
  assert (Hnohip5 : ∀ record : HnsRecord.t,
    record ∈ [HnsRecord.mk "SYNTH4" "1.2.3.4" [] ""; HnsRecord.mk "NS" "" [] "ns1.com";
              HnsRecord.mk "TXT" "" ["hello"] ""] →
    HnsRecord.type record = "NS" →
    Resolver.isNSHip5
      (C := Script.with_dns [DnsAnswer.mk (Some "5.6.7.8")]
              (collaborators [] ["com"] None None (fun _ _ => [])))
      record (ResolverOptions.mk "A" (Some InnerOptions.empty)) = false).
  { intros record Hin. rewrite !elem_of_cons, elem_of_nil in Hin.
    destruct Hin as [-> | [-> | [-> | []]]]; by intros. }
  split; [by right; right; left|]. split; [exact Hnohip5|].
  by apply (processRecords_txt_shadows_addresses
              (C := Script.with_dns [DnsAnswer.mk (Some "5.6.7.8")]
                      (collaborators [] ["com"] None None (fun _ _ => [])))
              _ _ "example.hns" false initial (HnsRecord.mk "TXT" "" ["hello"] ""));
    [discriminate | right; right; left | reflexivity | exact Hnohip5].
Defined.

(** X14 on an input: an A request on a set whose second NS record is the
    first that is HIP-5. *)
Lemma processRecords_hip5_delegates_witness :
  let hip5 := HnsRecord.mk "NS" "" [] "vitalik.eth" in
  let set := [HnsRecord.mk "NS" "" [] "ns1.com"; hip5;
              HnsRecord.mk "NS" "" [] "other.eth"] in
  let c := collaborators [] ["com"] None None
             (fun _ _ => [DNSRecord.mk "A" (Some "5.6.7.8")]) in
  let options := ResolverOptions.mk "A"
                   (Some (InnerOptions.mk None None (Some true) None None)) in
  let call := ResolverOptions.mk "A"
                (Some (InnerOptions.mk None None None None (Some "example.hns"))) in
  hip5 ∈ set
  ∧ Resolver.isNSHip5 (C := c) hip5 options = true
  ∧ Resolver.processRecords (C := c) set options "example.hns" true initial =
      ([DNSRecord.mk "A" (Some "5.6.7.8")],
       mkState tt [[DNSRecord.mk "A" (Some "5.6.7.8")]]
         [EvResolve "vitalik.eth" call (Some true)])
  ∧ ∃ picked before after,
      set = before ++ picked :: after
      ∧ HnsRecord.type picked = "NS" ∧ Resolver.isNSHip5 (C := c) picked options = true
      ∧ (∀ record, record ∈ before →
           ¬ (HnsRecord.type record = "NS"
              ∧ Resolver.isNSHip5 (C := c) record options = true))
      ∧ Resolver.processRecords (C := c) set options "example.hns" true initial =
          (HostAnswer.records
             (host_resolve (Collaborators := c) (HnsRecord.ns picked)
                (Resolver.domain_options options "example.hns") (Some true) tt).1,
           mkState
             (host_resolve (Collaborators := c) (HnsRecord.ns picked)
                (Resolver.domain_options options "example.hns") (Some true) tt).2
             ([] ++
              [HostAnswer.records
                 (host_resolve (Collaborators := c) (HnsRecord.ns picked)
                    (Resolver.domain_options options "example.hns") (Some true) tt).1])
             ([] ++
              [EvResolve (HnsRecord.ns picked)
                 (Resolver.domain_options options "example.hns") (Some true)])).
Proof.
  cbv zeta. split; [by right; left|]. split; [reflexivity|]. split; [reflexivity|].
  apply (processRecords_hip5_delegates
           (C := collaborators [] ["com"] None None
                   (fun _ _ => [DNSRecord.mk "A" (Some "5.6.7.8")]))
           [HnsRecord.mk "NS" "" [] "ns1.com"; HnsRecord.mk "NS" "" [] "vitalik.eth";
            HnsRecord.mk "NS" "" [] "other.eth"]
           (ResolverOptions.mk "A"
              (Some (InnerOptions.mk None None (Some true) None None)))
           "example.hns" true initial (HnsRecord.mk "NS" "" [] "vitalik.eth"));
    [by right; left | reflexivity | reflexivity | by left].
Defined.

(** X15 on an input: an A request on a set with a synthesized address
    only, and a DNS client with two answers. *)
Lemma processRecords_direct_dns_query_witness :
  let set := [HnsRecord.mk "SYNTH4" "1.2.3.4" [] ""] in
  let c := Script.with_dns [DnsAnswer.mk (Some "5.6.7.8"); DnsAnswer.mk (Some "9.9.9.9")]
             (collaborators [] ["com"] None None (fun _ _ => [])) in
  let options := ResolverOptions.mk "A" (Some InnerOptions.empty) in
  (∀ record, record ∈ set → HnsRecord.type record ≠ "TXT")
  ∧ (∀ record, record ∈ set → HnsRecord.type record = "NS" →
               Resolver.isNSHip5 (C := c) record options = false)
  ∧ Resolver.processRecords (C := c) set options "example.hns" false initial =
      ([DNSRecord.mk "A" (Some "5.6.7.8")],
       mkState tt [] [EvDnsQuery "example.hns" "A"]).
Proof.
  cbv zeta.
  assert (Hset : ∀ record : HnsRecord.t,
    record ∈ [HnsRecord.mk "SYNTH4" "1.2.3.4" [] ""] →
    record = HnsRecord.mk "SYNTH4" "1.2.3.4" [] "").
  { intros record Hin. rewrite !elem_of_cons, elem_of_nil in Hin. tauto. }
  assert (Hnotxt : ∀ record : HnsRecord.t,
    record ∈ [HnsRecord.mk "SYNTH4" "1.2.3.4" [] ""] → HnsRecord.type record ≠ "TXT").
  { intros record Hin. by rewrite (Hset record Hin). }
  assert (Hnohip5 : ∀ record : HnsRecord.t,
    record ∈ [HnsRecord.mk "SYNTH4" "1.2.3.4" [] ""] →
    HnsRecord.type record = "NS" →
    Resolver.isNSHip5
      (C := Script.with_dns
              [DnsAnswer.mk (Some "5.6.7.8"); DnsAnswer.mk (Some "9.9.9.9")]
              (collaborators [] ["com"] None None (fun _ _ => [])))
      record (ResolverOptions.mk "A" (Some InnerOptions.empty)) = false).
  { intros record Hin. by rewrite (Hset record Hin). }
  split; [exact Hnotxt|]. split; [exact Hnohip5|].
  destruct (processRecords_direct_dns_query
              (C := Script.with_dns
                      [DnsAnswer.mk (Some "5.6.7.8"); DnsAnswer.mk (Some "9.9.9.9")]
                      (collaborators [] ["com"] None None (fun _ _ => [])))
              [HnsRecord.mk "SYNTH4" "1.2.3.4" [] ""]
              (ResolverOptions.mk "A" (Some InnerOptions.empty)) "example.hns" false
              initial Hnotxt Hnohip5) as [Hserved _].
  by apply Hserved; left.
Defined.

(** X16 on inputs: a synthesized record behind an NS and a glue record, and
    a set whose first NS record is HIP-5 and second is not. *)
Lemma findNameserver_priority_witness :
  let c := collaborators [] ["com"] None None (fun _ _ => []) in
  let options := ResolverOptions.mk "A" None in
  let synth := HnsRecord.mk "SYNTH6" "2001:db8::1" [] "" in
  let mixed := [HnsRecord.mk "NS" "" [] "ns1.com";
                HnsRecord.mk "GLUE4" "9.9.9.9" [] "ns1.com"; synth] in
  let delegated := [HnsRecord.mk "NS" "" [] "vitalik.eth";
                    HnsRecord.mk "NS" "" [] "ns1.com"] in
  Priority.findNameserver (C := c) mixed options = Some synth
  ∧ synth ∈ mixed
  ∧ Priority.findNameserver (C := c) delegated options = None.
Proof.
  cbv zeta.
  destruct (findNameserver_priority
              (C := collaborators [] ["com"] None None (fun _ _ => []))
              [HnsRecord.mk "NS" "" [] "ns1.com";
               HnsRecord.mk "GLUE4" "9.9.9.9" [] "ns1.com";
               HnsRecord.mk "SYNTH6" "2001:db8::1" [] ""]
              (ResolverOptions.mk "A" None)) as (Hmember & _ & _ & _).
  destruct (findNameserver_priority
              (C := collaborators [] ["com"] None None (fun _ _ => []))
              [HnsRecord.mk "NS" "" [] "vitalik.eth"; HnsRecord.mk "NS" "" [] "ns1.com"]
              (ResolverOptions.mk "A" None)) as (_ & _ & _ & Hns).
  cbv beta in Hmember, Hns.
  split; [reflexivity|]. split; [by apply (Hmember _ eq_refl)|].
  rewrite Hns; [reflexivity|].
  intros record Hin Hkind. rewrite !elem_of_cons, elem_of_nil in Hin.
  rewrite !elem_of_cons, elem_of_nil in Hkind.
  destruct Hin as [-> | [-> | []]]; by destruct Hkind as [? | [? | [? | [? | []]]]].
Defined.

(** X17 on an input: an A request for a name whose chain record is a
    synthesized address, answered by the DNS client. *)
Lemma resolver_resolve_address_request_witness :
  let set := [HnsRecord.mk "SYNTH4" "1.2.3.4" [] ""] in
  let c := Script.with_dns [DnsAnswer.mk (Some "5.6.7.8")]
             (collaborators [["eth"]] ["com"] (Some set) None (fun _ _ => [])) in
  let options := ResolverOptions.mk "A" None in
  (getTld (Collaborators := c) "example.hns" ∉ blacklist_of (C := c) tt)
  ∧ isIp (Collaborators := c) "example.hns" = false
  ∧ Resolver.resolve (C := c) "example.hns" options true initial =
      (Success [DNSRecord.mk "A" (Some "5.6.7.8")],
       mkState tt [] [EvClientQuery "hns"; EvDnsQuery "example.hns" "A"]).
Proof.
  cbv zeta.
  assert (Hbl :
    getTld
      (Collaborators := Script.with_dns [DnsAnswer.mk (Some "5.6.7.8")]
         (collaborators [["eth"]] ["com"]
            (Some [HnsRecord.mk "SYNTH4" "1.2.3.4" [] ""]) None (fun _ _ => [])))
      "example.hns"
    ∉ blacklist_of
        (C := Script.with_dns [DnsAnswer.mk (Some "5.6.7.8")]
                (collaborators [["eth"]] ["com"]
                   (Some [HnsRecord.mk "SYNTH4" "1.2.3.4" [] ""]) None (fun _ _ => [])))
        tt) by by_evaluation.
  split; [exact Hbl|]. split; [reflexivity|].
  assert (Hset : ∀ record : HnsRecord.t,
    record ∈ [HnsRecord.mk "SYNTH4" "1.2.3.4" [] ""] →
    record = HnsRecord.mk "SYNTH4" "1.2.3.4" [] "").
  { intros record Hin. rewrite !elem_of_cons, elem_of_nil in Hin. tauto. }
  rewrite (resolver_resolve_address_request
             (C := Script.with_dns [DnsAnswer.mk (Some "5.6.7.8")]
                     (collaborators [["eth"]] ["com"]
                        (Some [HnsRecord.mk "SYNTH4" "1.2.3.4" [] ""]) None
                        (fun _ _ => [])))
             "example.hns" (ResolverOptions.mk "A" None) true initial
             [HnsRecord.mk "SYNTH4" "1.2.3.4" [] ""]);
    try reflexivity; try done.
  - intros record Hin. by rewrite (Hset record Hin).
  - intros record Hin. by rewrite (Hset record Hin).
  - by left.
Defined.
End FurtherExamples.
